(** * Terraform run troubleshooting: the two Lambda handlers

    A shallow embedding of [fetch-error-code-details.py] (stage one: the
    identifier resolver, the run diagnoser, the log error extractor, the
    repository fetcher and their handler) and of
    [terraform-troubleshooting.py] (stage two: the troubleshooting request
    handler), with the properties of their specification.

    Conventions of the embedding:
    - a Python [str] is a [string]; each character stands for one code point
      below 256, which is the range on which [lower] and [splitlines] are
      written out here;
    - a value decoded from JSON is a [json] tree; its numbers are integers;
      dictionaries are association lists whose first binding of a key is the
      one Python sees;
    - Python exceptions are values of [exn]; code that may raise returns a
      [result];
    - every call that leaves the process (HTTP GET, secret store, Lambda
      invoke, model invoke) is answered by a [world], a function of the calls
      made so far and of the call at hand; the calls are recorded, in order,
      in a trace that the code threads through. *)

From Stdlib Require Import List String Ascii ZArith Lia Bool Arith.
From Stdlib Require DecimalString.
Import ListNotations.

Local Open Scope string_scope.
Local Open Scope list_scope.

(** ** Python strings *)

Module PyStr.

Definition chr (n : nat) : string := String (ascii_of_nat n) EmptyString.

(** The characters that no Rocq string literal can hold directly. *)
Definition dq : string := chr 34.
Definition nl : string := chr 10.

(** [c.lower()] for one code point below 256: the ASCII capitals and the
    Latin-1 capitals (0xC0..0xDE, the multiplication sign 0xD7 apart) move
    up by 32. *)
Definition lower_char (c : ascii) : ascii :=
  let n := nat_of_ascii c in
  if (((65 <=? n) && (n <=? 90))
      || ((192 <=? n) && (n <=? 222) && negb (n =? 215)))%nat
  then ascii_of_nat (n + 32)
  else c.

(** [s.lower()] *)
Fixpoint lower (s : string) : string :=
  match s with
  | EmptyString => EmptyString
  | String c s' => String (lower_char c) (lower s')
  end.

(** [kw in s] for two strings: [kw] occurs in [s] as a substring. *)
Fixpoint contains (kw s : string) : bool :=
  prefix kw s
  || match s with
     | EmptyString => false
     | String _ s' => contains kw s'
     end.

(** The line boundaries of [str.splitlines] below 256:
    LF, VT, FF, CR, FS, GS, RS and NEL. *)
Definition is_linebreak (c : ascii) : bool :=
  let n := nat_of_ascii c in
  ((n =? 10) || (n =? 11) || (n =? 12) || (n =? 13)
   || (n =? 28) || (n =? 29) || (n =? 30) || (n =? 133))%nat.

Definition is_cr (c : ascii) : bool := (nat_of_ascii c =? 13)%nat.
Definition is_lf (c : ascii) : bool := (nat_of_ascii c =? 10)%nat.

(** [s.splitlines()]: the lines without their boundaries; CR LF is one
    boundary; a boundary at the very end opens no further line. *)
Fixpoint splitlines (s : string) : list string :=
  match s with
  | EmptyString => []
  | String c s' =>
      if is_linebreak c then
        match s' with
        | String c' s'' =>
            if is_cr c && is_lf c' then EmptyString :: splitlines s''
            else EmptyString :: splitlines s'
        | EmptyString => [EmptyString]
        end
      else
        match splitlines s' with
        | [] => [String c EmptyString]
        | l :: ls => String c l :: ls
        end
  end.

(** [s.split(sep)] for a separator of one character: never empty, and
    [k] separators give [k + 1] fields. *)
Fixpoint split (sep : ascii) (s : string) : list string :=
  match s with
  | EmptyString => [EmptyString]
  | String c s' =>
      if Ascii.eqb c sep then EmptyString :: split sep s'
      else
        match split sep s' with
        | [] => [String c EmptyString]
        | f :: fs => String c f :: fs
        end
  end.

(** [s.split(sep)] for any non-empty separator; [skip] counts the
    characters of a separator just found that are still to be passed. *)
Fixpoint split_on (sep : string) (skip : nat) (s : string) : list string :=
  match s with
  | EmptyString => [EmptyString]
  | String c s' =>
      match skip with
      | S k => split_on sep k s'
      | O =>
          if prefix sep s then
            EmptyString :: split_on sep (String.length sep - 1) s'
          else
            match split_on sep 0 s' with
            | [] => [String c EmptyString]
            | f :: fs => String c f :: fs
            end
      end
  end.

(** [s.rstrip(c)] for one character [c]. *)
Fixpoint rstrip (c : ascii) (s : string) : string :=
  match s with
  | EmptyString => EmptyString
  | String a s' =>
      match rstrip c s' with
      | EmptyString => if Ascii.eqb a c then EmptyString
                       else String a EmptyString
      | r => String a r
      end
  end.

(** [s.endswith(suffix)] *)
Definition endswith (suffix s : string) : bool :=
  let n := String.length s in
  let m := String.length suffix in
  (m <=? n)%nat && String.eqb (substring (n - m) m s) suffix.

(** [sep.join(xs)] *)
Definition join (sep : string) (xs : list string) : string :=
  String.concat sep xs.

(** Truth value of a string: non-empty. *)
Definition truthy (s : string) : bool :=
  match s with EmptyString => false | _ => true end.

End PyStr.

(** ** Python lists: indexing and slicing with integers of either sign *)

Module PyList.

Definition len {A} (l : list A) : Z := Z.of_nat (List.length l).

(** How [l[a:b]] brings a bound into [0 .. len l]. *)
Definition clamp (n i : Z) : Z :=
  if (i <? 0)%Z then Z.max (i + n) 0 else Z.min i n.

(** [l[a:b]] *)
Definition slice {A} (l : list A) (a b : Z) : list A :=
  let n := len l in
  let a' := clamp n a in
  let b' := clamp n b in
  firstn (Z.to_nat (b' - a')) (skipn (Z.to_nat a') l).

(** [l[i]]: [None] stands for IndexError. *)
Definition index {A} (l : list A) (i : Z) : option A :=
  let n := len l in
  let j := if (i <? 0)%Z then (i + n)%Z else i in
  if ((0 <=? j) && (j <? n))%Z then nth_error l (Z.to_nat j) else None.

End PyList.

(** ** Values decoded from JSON, and Python's exceptions *)

#[warnings="-register-all"]
Inductive json : Type :=
| JNull
| JBool (b : bool)
| JNum (n : Z)
| JStr (s : string)
| JArr (xs : list json)
| JObj (kvs : list (string * json)).

(** The exception classes the two programs can tell apart or raise
    themselves; every other class is an [OtherException]. *)
Inductive exn_class : Type :=
| KeyError
| IndexError
| TypeError
| AttributeError
| ValueError
| HTTPError
| OtherException (name : string).

(** An exception: its class and what [str(e)] gives. *)
Inductive exn : Type :=
| Exn (cls : exn_class) (str : string).

Definition exn_cls (e : exn) : exn_class := let (c, _) := e in c.
Definition exn_str (e : exn) : string := let (_, s) := e in s.

Definition is_KeyError (e : exn) : bool :=
  match exn_cls e with KeyError => true | _ => false end.

Inductive result (A : Type) : Type :=
| Ok (a : A)
| Raise (e : exn).
Arguments Ok {A} a.
Arguments Raise {A} e.

Definition rbind {A B} (r : result A) (k : A -> result B) : result B :=
  match r with
  | Ok a => k a
  | Raise e => Raise e
  end.

Module Py.

(** [str(KeyError(k))] is [repr(k)]; for the keys these programs look up
    (plain words) that is the key between single quotes. *)
Definition key_error (k : string) : exn :=
  Exn KeyError ("'" ++ k ++ "'")%string.

Definition type_name (x : json) : string :=
  match x with
  | JNull => "NoneType"
  | JBool _ => "bool"
  | JNum _ => "int"
  | JStr _ => "str"
  | JArr _ => "list"
  | JObj _ => "dict"
  end.

Definition not_subscriptable (x : json) : exn :=
  Exn TypeError ("'" ++ type_name x ++ "' object is not subscriptable")%string.

Definition no_attribute (x : json) (attr : string) : exn :=
  Exn AttributeError
      ("'" ++ type_name x ++ "' object has no attribute '" ++ attr ++ "'")%string.

(** The binding of a key in a dictionary. *)
Fixpoint lookup (k : string) (kvs : list (string * json)) : option json :=
  match kvs with
  | [] => None
  | (k', v) :: kvs' => if String.eqb k k' then Some v else lookup k kvs'
  end.

(** [x[k]] for a string key. *)
Definition getitem (x : json) (k : string) : result json :=
  match x with
  | JObj kvs =>
      match lookup k kvs with
      | Some v => Ok v
      | None => Raise (key_error k)
      end
  | JArr _ => Raise (Exn TypeError "list indices must be integers or slices, not str")
  | JStr _ => Raise (Exn TypeError "string indices must be integers, not 'str'")
  | _ => Raise (not_subscriptable x)
  end.

(** [x[0]]: the only integer subscript of either program. *)
Definition getitem0 (x : json) : result json :=
  match x with
  | JArr xs =>
      match xs with
      | v :: _ => Ok v
      | [] => Raise (Exn IndexError "list index out of range")
      end
  | JStr s =>
      match s with
      | String c _ => Ok (JStr (String c EmptyString))
      | EmptyString => Raise (Exn IndexError "string index out of range")
      end
  | JObj _ => Raise (Exn KeyError "0")
  | _ => Raise (not_subscriptable x)
  end.

(** [x.get(k, default)] *)
Definition get (x : json) (k : string) (default : json) : result json :=
  match x with
  | JObj kvs =>
      match lookup k kvs with
      | Some v => Ok v
      | None => Ok default
      end
  | _ => Raise (no_attribute x "get")
  end.

(** [x == s] for a string literal [s]. *)
Definition eq_str (x : json) (s : string) : bool :=
  match x with
  | JStr s' => String.eqb s' s
  | _ => false
  end.

(** [k in x] for a string literal [k]. *)
Definition contains (k : string) (x : json) : result bool :=
  match x with
  | JObj kvs =>
      Ok (match lookup k kvs with Some _ => true | None => false end)
  | JArr xs => Ok (existsb (fun v => eq_str v k) xs)
  | JStr s => Ok (PyStr.contains k s)
  | _ => Raise (Exn TypeError
                    ("argument of type '" ++ type_name x ++ "' is not iterable")%string)
  end.

(** The truth value of [x]. *)
Definition truthy (x : json) : bool :=
  match x with
  | JNull => false
  | JBool b => b
  | JNum n => negb (n =? 0)%Z
  | JStr s => PyStr.truthy s
  | JArr xs => match xs with [] => false | _ => true end
  | JObj kvs => match kvs with [] => false | _ => true end
  end.

(** [len(x)] *)
Definition len (x : json) : result Z :=
  match x with
  | JStr s => Ok (Z.of_nat (String.length s))
  | JArr xs => Ok (PyList.len xs)
  | JObj kvs => Ok (PyList.len kvs)
  | _ => Raise (Exn TypeError
                    ("object of type '" ++ type_name x ++ "' has no len()")%string)
  end.

(** What [for v in x] goes through. *)
Definition iter (x : json) : result (list json) :=
  match x with
  | JArr xs => Ok xs
  | JObj kvs => Ok (map (fun kv => JStr (fst kv)) kvs)
  | JStr s => Ok (map (fun c => JStr (String c EmptyString)) (list_ascii_of_string s))
  | _ => Raise (Exn TypeError
                    ("'" ++ type_name x ++ "' object is not iterable")%string)
  end.

End Py.

(** ** The outside world *)

(** Where an HTTP GET goes.  The URL is a fixed template around these
    values ([TERRAFORM_API_URL] or the GitLab API root, a path, the
    identifiers formatted in), so the endpoint and its identifiers stand for
    the URL. *)
Inductive endpoint : Type :=
| RunById (run_id : string)
| WorkspaceByName (org_name workspace_name : string)
| WorkspaceRuns (workspace_id : json)
| PlanById (plan_id : json)
| ApplyById (apply_id : json)
| LogReadUrl (log_read_url : json)
| GitlabTree (repo_path : string) (branch_name : json)
| GitlabRawFile (repo_path : string) (path : string) (branch_name : json).

(** A GET request: the endpoint and the bearer token of its [Authorization]
    header, if [headers] is passed at all. *)
Record request : Type := Get {
  req_endpoint : endpoint;
  req_bearer : option json
}.

(** What [requests.get] returns: [resp_error] is [None] when
    [raise_for_status()] returns and the text of the HTTPError it raises
    otherwise; [resp_json] is what [.json()] returns or raises. *)
Record response : Type := Response {
  resp_error : option string;
  resp_json : result json;
  resp_text : string
}.

(** The calls that leave the process. *)
Inductive call : Type :=
| CHttp (req : request)
| CSecret (secret_id : option string)
| CLambda (payload : string)
| CModel (error_message repo_files_content : json).

Definition trace : Type := list call.

(** The world answers a call knowing the calls made before it.  The secret
    store gives the [SecretString] of the response, if it has one; the Lambda
    and model calls give the bytes read from the response's body. *)
Record world : Type := World {
  http_get : trace -> request -> result response;
  get_secret_value : trace -> option string -> result (option string);
  lambda_invoke : trace -> string -> result string;
  model_invoke : trace -> json -> json -> result string
}.

(** The [json] module of Python's library. *)
Record json_module : Type := JsonModule {
  dumps : json -> string;
  loads : string -> result json
}.

(** ** Computations that call the world and may raise *)

Definition M (A : Type) : Type := trace -> result A * trace.

Definition ret {A} (a : A) : M A := fun t => (Ok a, t).

Definition raise {A} (e : exn) : M A := fun t => (Raise e, t).

Definition bind {A B} (m : M A) (k : A -> M B) : M B :=
  fun t =>
    match m t with
    | (Ok a, t') => k a t'
    | (Raise e, t') => (Raise e, t')
    end.

Definition lift {A} (r : result A) : M A := fun t => (r, t).

(** [try: m  except Exception as e: h e] *)
Definition try_except {A} (m : M A) (h : exn -> M A) : M A :=
  fun t =>
    match m t with
    | (Ok a, t') => (Ok a, t')
    | (Raise e, t') => h e t'
    end.

Declare Scope py_scope.
Delimit Scope py_scope with py.
Notation "x <- m ;; k" := (bind m (fun x => k))
  (at level 61, m at next level, right associativity) : py_scope.
Notation "m ;;; k" := (bind m (fun _ => k))
  (at level 61, right associativity) : py_scope.
Local Open Scope py_scope.

(** How a [try] block ends when nothing is raised: by a [return] inside it,
    or by running off its end. *)
Inductive ending (A : Type) : Type :=
| Returned (a : A)
| FellThrough.
Arguments Returned {A} a.
Arguments FellThrough {A}.

(** ** [fetch-error-code-details.py] (stage one) *)

Module FetchErrorCodeDetails.

(** *** Log error extractor ([extract_error_with_context]) *)

(** The two keywords of the [any(...)] test, in its order. *)
Definition error_keywords : list string :=
  [ (PyStr.dq ++ "@level" ++ PyStr.dq ++ ":"
      ++ PyStr.dq ++ "error" ++ PyStr.dq)%string;
    "error:" ].

(** [any(keyword in line.lower() for keyword in [...])] *)
Definition is_error_line (line : string) : bool :=
  existsb (fun keyword => PyStr.contains keyword (PyStr.lower line))
          error_keywords.

(** The body of the [for i, line in enumerate(log_lines)] loop: [rest] is
    what is left to enumerate, [i] the index of its head and [acc] the value
    of [error_lines_with_context]. *)
Fixpoint extract_loop (log_lines : list string) (context_lines : Z)
         (i : Z) (rest : list string) (acc : list string) : list string :=
  match rest with
  | [] => acc
  | line :: rest' =>
      let acc' :=
        if is_error_line line then
          let end_index :=
            Z.min (i + context_lines + 1) (PyList.len log_lines) in
          let error_context := PyList.slice log_lines i end_index in
          (acc ++ error_context) ++ [EmptyString]
        else acc in
      extract_loop log_lines context_lines (i + 1) rest' acc'
  end.

(** The list [error_lines_with_context] when the loop is over. *)
Definition error_lines_with_context (log_content : string)
           (context_lines : Z) : list string :=
  let log_lines := PyStr.splitlines log_content in
  extract_loop log_lines context_lines 0 log_lines [].

Definition extract_error_with_context (log_content : string)
           (context_lines : Z) : string :=
  PyStr.join PyStr.nl (error_lines_with_context log_content context_lines).

(** The default of [context_lines]. *)
Definition default_context_lines : Z := 5.

(** *** Identifier resolver ([get_workspace_id_from_url]) *)

Definition index_error : exn := Exn IndexError "list index out of range".

(** [parts[i]] *)
Definition parts_at (parts : list string) (i : Z) : result string :=
  match PyList.index parts i with
  | Some p => Ok p
  | None => Raise index_error
  end.

(** Returns [(workspace_name, org_name, run_id)]; [None] is Python's. *)
Definition get_workspace_id_from_url (workspace_url : string)
  : result (string * string * option string) :=
  let parts := PyStr.split "/" workspace_url in
  if existsb (String.eqb "runs") parts then
    rbind (parts_at parts (-3)) (fun workspace_name =>
    rbind (parts_at parts (-5)) (fun org_name =>
    rbind (parts_at parts (-1)) (fun run_id =>
    Ok (workspace_name, org_name, Some run_id))))
  else
    rbind (parts_at parts (-1)) (fun workspace_name =>
    rbind (parts_at parts (-3)) (fun org_name =>
    Ok (workspace_name, org_name, None))).

Section Handler.

Variable w : world.
Variable js : json_module.

(** [os.environ.get('TERRAFORM_SECRET_NAME')] and
    [os.environ.get('VCS_SECRET_NAME')] *)
Variable TERRAFORM_SECRET_NAME : option string.
Variable VCS_SECRET_NAME : option string.

(** [requests.get(url, headers=headers, timeout=60)] *)
Definition requests_get (e : endpoint) (bearer : option json) : M response :=
  fun t =>
    let req := Get e bearer in
    (http_get w t req, t ++ [CHttp req]).

(** [response.raise_for_status()] *)
Definition raise_for_status (r : response) : M unit :=
  match resp_error r with
  | None => ret tt
  | Some msg => raise (Exn HTTPError msg)
  end.

(** [get_secret(secret_name)]: a ClientError is logged and raised again. *)
Definition get_secret (secret_name : option string) : M json :=
  response <- (fun t => (get_secret_value w t secret_name,
                         t ++ [CSecret secret_name])) ;;
  match response with
  | Some secret_string => lift (loads js secret_string)
  | None => raise (Exn ValueError "Secret binary is not supported")
  end.

(** [details.get('data', {}).get('attributes', {}).get('log-read-url')] *)
Definition log_read_url_of (details : json) : result json :=
  rbind (Py.get details "data" (JObj [])) (fun data =>
  rbind (Py.get data "attributes" (JObj [])) (fun attributes =>
  Py.get attributes "log-read-url" JNull)).

(** The block that the plan and the apply share, lines 119-141 and
    144-166: [rel] is ['plan'] or ['apply'], [ep] the endpoint of the
    sub-resource and [label] the prefix of the returned text. *)
Definition check_sub_resource (rel : string) (ep : json -> endpoint)
           (label : string) (headers : option json) (latest_run : json)
  : M (ending string) :=
  relationships <- lift (Py.getitem latest_run "relationships") ;;
  present <- lift (Py.contains rel relationships) ;;
  if present : bool then
    sub_id <- lift (rbind (Py.getitem relationships rel) (fun r =>
                    rbind (Py.getitem r "data") (fun d =>
                    Py.getitem d "id"))) ;;
    sub_response <- requests_get (ep sub_id) headers ;;
    raise_for_status sub_response ;;;
    sub_details <- lift (resp_json sub_response) ;;
    log_read_url <- lift (log_read_url_of sub_details) ;;
    if Py.truthy log_read_url then
      log_response <- requests_get (LogReadUrl log_read_url) None ;;
      raise_for_status log_response ;;;
      let log_content := resp_text log_response in
      let error_lines :=
        extract_error_with_context log_content default_context_lines in
      if PyStr.truthy error_lines then
        ret (Returned (label ++ PyStr.nl ++ error_lines)%string)
      else ret FellThrough
    else ret FellThrough
  else ret FellThrough.

Definition no_runs_found : string := "No runs found for the workspace.".

Definition no_errors_found : string :=
  "No errors found in the latest run's plan or apply output.".

(** Lines 57-110.  [inl s]: the function has returned [s] (line 107);
    [inr latest_run]: it goes on with that run.  The [except] clauses of
    these lines log and raise again, so an exception just propagates. *)
Definition locate_run (workspace_name org_name : string)
           (headers : option json) (run_id : option string)
  : M (string + json) :=
  if match run_id with Some rid => PyStr.truthy rid | None => false end then
    let rid := match run_id with Some rid => rid | None => EmptyString end in
    runs_response <- requests_get (RunById rid) headers ;;
    raise_for_status runs_response ;;;
    latest_run <- lift (rbind (resp_json runs_response) (fun j =>
                        Py.getitem j "data")) ;;
    ret (inr latest_run)
  else
    workspace_response <-
      requests_get (WorkspaceByName org_name workspace_name) headers ;;
    raise_for_status workspace_response ;;;
    workspace_id <- lift (rbind (resp_json workspace_response) (fun j =>
                          rbind (Py.getitem j "data") (fun d =>
                          Py.getitem d "id"))) ;;
    runs_response <- requests_get (WorkspaceRuns workspace_id) headers ;;
    raise_for_status runs_response ;;;
    runs_data <- lift (rbind (resp_json runs_response) (fun j =>
                       Py.getitem j "data")) ;;
    lift (Py.len runs_data) ;;;
    if negb (Py.truthy runs_data) then ret (inl no_runs_found)
    else
      latest_run <- lift (Py.getitem0 runs_data) ;;
      ret (inr latest_run).

(** Lines 117-171: the [try] block and its two [except] clauses, which
    log and go on. *)
Definition check_plan_then_apply (headers : option json) (latest_run : json)
  : M (ending string) :=
  try_except
    (plan <- check_sub_resource "plan" PlanById "Plan Error:"
                                headers latest_run ;;
     match plan with
     | Returned s => ret (Returned s)
     | FellThrough =>
         check_sub_resource "apply" ApplyById "Apply Error:"
                            headers latest_run
     end)
    (fun _ => ret FellThrough).

(** Lines 112-174. *)
Definition diagnose_run (headers : option json) (latest_run : json)
  : M string :=
  run_status <- lift (rbind (Py.getitem latest_run "attributes") (fun a =>
                      Py.getitem a "status")) ;;
  lift (Py.getitem latest_run "id") ;;;
  e <- (if Py.eq_str run_status "errored"
        then check_plan_then_apply headers latest_run
        else ret FellThrough) ;;
  match e with
  | Returned s => ret s
  | FellThrough => ret no_errors_found
  end.

Definition get_latest_run_error (workspace_name org_name : string)
           (tfe_api_token : json) (run_id : option string) : M string :=
  let headers := Some tfe_api_token in
  located <- locate_run workspace_name org_name headers run_id ;;
  match located with
  | inl s => ret s
  | inr latest_run => diagnose_run headers latest_run
  end.

(** *** Repository fetcher ([fetch_files_from_gitlab]) *)

Definition terraform_extensions : list string := [".tf"; ".tfvars"].

(** The [for item in response.json()] loop; [files_content] is the text
    gathered so far. *)
Fixpoint fetch_loop (repo_path : string) (branch_name : json)
         (headers : option json) (items : list json)
         (files_content : string) : M string :=
  match items with
  | [] => ret files_content
  | item :: items' =>
      type <- lift (Py.getitem item "type") ;;
      wanted <- (if Py.eq_str type "blob" then
                   path <- lift (Py.getitem item "path") ;;
                   match path with
                   | JStr p =>
                       ret (existsb (fun ext => PyStr.endswith ext p)
                                    terraform_extensions)
                   | _ => raise (Py.no_attribute path "endswith")
                   end
                 else ret false) ;;
      if wanted : bool then
        path <- lift (Py.getitem item "path") ;;
        let p := match path with JStr p => p | _ => EmptyString end in
        file_response <-
          requests_get (GitlabRawFile repo_path p branch_name) headers ;;
        raise_for_status file_response ;;;
        fetch_loop repo_path branch_name headers items'
                   (files_content ++ ("File: " ++ p ++ PyStr.nl)
                    ++ (resp_text file_response ++ PyStr.nl ++ PyStr.nl))%string
      else
        fetch_loop repo_path branch_name headers items' files_content
  end.

Definition fetch_files_from_gitlab (repo_url branch_name gitlab_token : json)
  : M string :=
  match repo_url with
  | JStr url =>
      let repo_path :=
        PyStr.rstrip "/"
          (last (PyStr.split_on "https://gitlab.com/" 0 url) EmptyString) in
      let headers := Some gitlab_token in
      response <- requests_get (GitlabTree repo_path branch_name) headers ;;
      raise_for_status response ;;;
      items <- lift (rbind (resp_json response) Py.iter) ;;
      fetch_loop repo_path branch_name headers items EmptyString
  | _ => raise (Py.no_attribute repo_url "split")
  end.

(** *** Diagnosis request handler ([lambda_handler], stage one) *)

Definition handler_response (status : Z) (body : json) : json :=
  JObj [("statusCode", JNum status); ("body", JStr (dumps js body))].

Definition lambda_handler (event : json) : M json :=
  try_except
    (repo_url <- lift (Py.get event "repo_url" JNull) ;;
     branch_name <- lift (Py.get event "branch_name" (JStr "main")) ;;
     workspace_url <- lift (Py.getitem event "workspace_url") ;;
     files_content <-
       (if Py.truthy repo_url then
          secret <- get_secret VCS_SECRET_NAME ;;
          gitlab_token <- lift (Py.getitem secret "token") ;;
          fetch_files_from_gitlab repo_url branch_name gitlab_token
        else ret EmptyString) ;;
     secret <- get_secret TERRAFORM_SECRET_NAME ;;
     tfe_api_token <- lift (Py.getitem secret "tfe_api_token") ;;
     ids <- lift (match workspace_url with
                  | JStr url => get_workspace_id_from_url url
                  | _ => Raise (Py.no_attribute workspace_url "split")
                  end) ;;
     let '(workspace_name, org_name, run_id) := ids in
     error_message <-
       get_latest_run_error workspace_name org_name tfe_api_token run_id ;;
     ret (handler_response 200
            (JObj [("files_content", JStr files_content);
                   ("error_message", JStr error_message)])))
    (fun e =>
       ret (handler_response 500 (JObj [("error", JStr (exn_str e))]))).

End Handler.

End FetchErrorCodeDetails.

(** ** [terraform-troubleshooting.py] (stage two) *)

Module TerraformTroubleshooting.

(** *** The dictionary [properties] *)

(** Its keys are whatever the parameters carry under ["name"]. *)
Definition dict : Type := list (json * json).

Definition hashable (x : json) : bool :=
  match x with
  | JArr _ | JObj _ => false
  | _ => true
  end.

(** Python's [==] on two keys. *)
Definition key_eqb (a b : json) : bool :=
  match a, b with
  | JNull, JNull => true
  | JStr s, JStr s' => String.eqb s s'
  | JNum n, JNum m => (n =? m)%Z
  | JBool x, JBool y => Bool.eqb x y
  | JBool x, JNum n | JNum n, JBool x => (n =? (if x then 1 else 0))%Z
  | _, _ => false
  end.

(** [d[k] = v] *)
Fixpoint dict_set (d : dict) (k v : json) : dict :=
  match d with
  | [] => [(k, v)]
  | (k', v') :: d' =>
      if key_eqb k' k then (k', v) :: d' else (k', v') :: dict_set d' k v
  end.

(** [d.get(k, default)] for a string key. *)
Definition dict_get (d : dict) (k : string) (default : json) : json :=
  match find (fun kv => key_eqb (fst kv) (JStr k)) d with
  | Some kv => snd kv
  | None => default
  end.

(** [{param["name"]: param["value"] for param in parameters}], from the
    dictionary [d] built so far. *)
Fixpoint build_properties (params : list json) (d : dict) : result dict :=
  match params with
  | [] => Ok d
  | param :: params' =>
      rbind (Py.getitem param "name") (fun name =>
      rbind (Py.getitem param "value") (fun value =>
      if hashable name then build_properties params' (dict_set d name value)
      else Raise (Exn TypeError
                      ("unhashable type: '" ++ Py.type_name name ++ "'")%string)))
  end.

(** *** The response envelope *)

Definition envelope (actionGroup function body messageVersion : json) : json :=
  JObj [("response",
         JObj [("actionGroup", actionGroup);
               ("function", function);
               ("functionResponse",
                JObj [("responseBody",
                       JObj [("TEXT", JObj [("body", body)])])])]);
        ("messageVersion", messageVersion)].

(** [str(ke)] of the KeyError of line 95: the [repr] of its message, which
    holds single quotes and so is put between double quotes. *)
Definition missing_data : exn :=
  Exn KeyError
      (PyStr.dq
       ++ "Neither 'files_content' nor 'error_message' were found in the response from Lambda 2"
       ++ PyStr.dq)%string.

Section Handler.

Variable w : world.
Variable js : json_module.

(** [invoke_bedrock_model(prompt)].  The prompt is a fixed template around
    [error_message] and [repo_files_content], which stand for it here; an
    exception is logged and raised again. *)
Definition invoke_bedrock_model (error_message repo_files_content : json)
  : M json :=
  raw <- (fun t => (model_invoke w t error_message repo_files_content,
                    t ++ [CModel error_message repo_files_content])) ;;
  response_body <- lift (loads js raw) ;;
  lift (rbind (Py.getitem response_body "content") (fun content =>
        rbind (Py.getitem0 content) (fun first =>
        Py.getitem first "text"))).

(** Lines 144-157 and 161-174: the two [except] clauses. *)
Definition failure_response (event actionGroup function : json) (e : exn)
  : M json :=
  let body :=
    if is_KeyError e
    then ("Missing required information: " ++ exn_str e)%string
    else ("Error: " ++ exn_str e)%string in
  messageVersion <- lift (Py.getitem event "messageVersion") ;;
  ret (envelope actionGroup function (JStr body) messageVersion).

(** Lines 61-140: the [try] block. *)
Definition troubleshoot (event actionGroup function parameters : json)
  : M json :=
  params <- lift (Py.iter parameters) ;;
  properties <- lift (build_properties params []) ;;
  let workspace_url := dict_get properties "workspace_url" JNull in
  let repo_url := dict_get properties "repo_url" JNull in
  let branch_name := dict_get properties "branch_name" (JStr "main") in
  let payload := JObj [("workspace_url", workspace_url);
                       ("repo_url", repo_url);
                       ("branch_name", branch_name)] in
  raw <- (fun t => let p := dumps js payload in
                   (lambda_invoke w t p, t ++ [CLambda p])) ;;
  response_payload <- lift (loads js raw) ;;
  body <- lift (Py.getitem response_payload "body") ;;
  response_body <-
    lift (match body with
          | JStr s => loads js s
          | _ => Raise (Exn TypeError
                   ("the JSON object must be str, bytes or bytearray, not "
                    ++ Py.type_name body)%string)
          end) ;;
  error_message <- lift (Py.get response_body "error_message" JNull) ;;
  repo_files_content <-
    lift (Py.get response_body "files_content" (JStr EmptyString)) ;;
  if match error_message with JNull => true | _ => false end
     && Py.eq_str repo_files_content EmptyString
  then raise missing_data
  else
    troubleshooting_steps <-
      invoke_bedrock_model error_message repo_files_content ;;
    messageVersion <- lift (Py.getitem event "messageVersion") ;;
    ret (envelope actionGroup function troubleshooting_steps messageVersion).

Definition lambda_handler (event : json) : M json :=
  lift (Py.getitem event "agent") ;;;
  actionGroup <- lift (Py.getitem event "actionGroup") ;;
  function <- lift (Py.getitem event "function") ;;
  parameters <- lift (Py.get event "parameters" (JObj [])) ;;
  try_except
    (troubleshoot event actionGroup function parameters)
    (failure_response event actionGroup function).

End Handler.

End TerraformTroubleshooting.

(** * Specification *)

Import FetchErrorCodeDetails.

(** ** What the specification says of the log error extractor *)

(** The lines [[i, min(i + window + 1, number of lines))] of [lines]. *)
Definition window_of (lines : list string) (window i : nat) : list string :=
  map (fun k => nth k lines EmptyString)
      (seq i (Nat.min (i + window + 1) (List.length lines) - i)).

(** The block of index [i]: its window and one blank separator when line
    [i] marks an error, nothing otherwise. *)
Definition block_at (lines : list string) (window i : nat) : list string :=
  if is_error_line (nth i lines EmptyString)
  then window_of lines window i ++ [EmptyString]
  else [].

(** All blocks, in the order of the lines. *)
Definition blocks (lines : list string) (window : nat) : list string :=
  flat_map (block_at lines window) (seq 0 (List.length lines)).

(** [kw] occurs in [line] when case is ignored: some substring of [line]
    has the lower-case form of [kw]. *)
Definition ci_contains (kw line : string) : Prop :=
  exists pre mid post,
    line = (pre ++ mid ++ post)%string /\ PyStr.lower mid = PyStr.lower kw.

(** The structured marker as the specification writes it, without [@]. *)
Definition level_marker_no_at : string :=
  (PyStr.dq ++ "level" ++ PyStr.dq ++ ":" ++ PyStr.dq ++ "error" ++ PyStr.dq)%string.

(** The structured marker the code looks for. *)
Definition level_marker : string :=
  (PyStr.dq ++ "@level" ++ PyStr.dq ++ ":" ++ PyStr.dq ++ "error" ++ PyStr.dq)%string.

(** The log text of the specification's example and the expected result. *)
Definition example_first_line : string :=
  ("{" ++ level_marker ++ "," ++ PyStr.dq ++ "msg" ++ PyStr.dq ++ ":"
   ++ PyStr.dq ++ "x" ++ PyStr.dq ++ "}")%string.

Definition example_log : string :=
  PyStr.join PyStr.nl
    [example_first_line; "line2"; "line3"; "line4"; "line5"; "line6"; "line7"].

(** A structured line whose marker has no [@]. *)
Definition line_without_at : string :=
  ("{" ++ level_marker_no_at ++ "," ++ PyStr.dq ++ "msg" ++ PyStr.dq ++ ":"
   ++ PyStr.dq ++ "x" ++ PyStr.dq ++ "}")%string.

(** ** What the specification says of the identifier resolver *)

(** The [k]-th segment counted from the last one, which is the first. *)
Definition from_last (k : nat) (parts : list string) : option string :=
  match k with
  | O => None
  | S k' => nth_error (rev parts) k'
  end.

(** A string without ['/']. *)
Definition no_slash (s : string) : Prop := PyStr.contains "/" s = false.

(** The two shapes of URL the specification names. *)
Definition run_scoped_url (prefix org ws run : string) : string :=
  (prefix ++ "/organizations/" ++ org ++ "/workspaces/" ++ ws
   ++ "/runs/" ++ run)%string.

Definition workspace_scoped_url (prefix org ws : string) : string :=
  (prefix ++ "/organizations/" ++ org ++ "/workspaces/" ++ ws)%string.

(** ** What the specification says of the run diagnoser *)

(** [run_status] of a run record, as line 112 reads it. *)
Definition status_of (run : json) : result json :=
  rbind (Py.getitem run "attributes") (fun a => Py.getitem a "status").

(** The identifier of the sub-resource [rel] of a run, when the run has
    that relationship. *)
Definition sub_id_of (rel : string) (run : json) : result json :=
  rbind (Py.getitem run "relationships") (fun rels =>
  rbind (Py.getitem rels rel) (fun r =>
  rbind (Py.getitem r "data") (fun d => Py.getitem d "id"))).

(** The run has the relationship [rel], or not. *)
Definition has_sub (rel : string) (run : json) : result bool :=
  rbind (Py.getitem run "relationships") (Py.contains rel).

(** A GET that is answered and whose status is no error. *)
Definition answers (w : world) (t : trace) (req : request) (r : response)
  : Prop :=
  http_get w t req = Ok r /\ resp_error r = None.

(** A GET that fails: the call raises, or the status is an HTTP error. *)
Definition fails (w : world) (t : trace) (req : request) : Prop :=
  (exists e, http_get w t req = Raise e)
  \/ (exists r msg, http_get w t req = Ok r /\ resp_error r = Some msg).

(** [yields w rel ep headers run t found t']: probed from the trace [t],
    the sub-resource [rel] of [run] gives the extracted lines [found], or
    nothing, and the trace is then [t']. *)
Inductive yields (w : world) (rel : string) (ep : json -> endpoint)
          (headers : option json) (run : json) (t : trace)
  : option string -> trace -> Prop :=
| yields_no_relationship :
    has_sub rel run = Ok false ->
    yields w rel ep headers run t None t
| yields_no_log_read_url : forall sub_id r details url,
    has_sub rel run = Ok true ->
    sub_id_of rel run = Ok sub_id ->
    answers w t (Get (ep sub_id) headers) r ->
    resp_json r = Ok details ->
    log_read_url_of details = Ok url ->
    Py.truthy url = false ->
    yields w rel ep headers run t None (t ++ [CHttp (Get (ep sub_id) headers)])
| yields_empty_extraction : forall sub_id r details url lr,
    has_sub rel run = Ok true ->
    sub_id_of rel run = Ok sub_id ->
    answers w t (Get (ep sub_id) headers) r ->
    resp_json r = Ok details ->
    log_read_url_of details = Ok url ->
    Py.truthy url = true ->
    answers w (t ++ [CHttp (Get (ep sub_id) headers)])
            (Get (LogReadUrl url) None) lr ->
    extract_error_with_context (resp_text lr) 5 = EmptyString ->
    yields w rel ep headers run t None
           (t ++ [CHttp (Get (ep sub_id) headers);
                  CHttp (Get (LogReadUrl url) None)])
| yields_lines : forall sub_id r details url lr,
    has_sub rel run = Ok true ->
    sub_id_of rel run = Ok sub_id ->
    answers w t (Get (ep sub_id) headers) r ->
    resp_json r = Ok details ->
    log_read_url_of details = Ok url ->
    Py.truthy url = true ->
    answers w (t ++ [CHttp (Get (ep sub_id) headers)])
            (Get (LogReadUrl url) None) lr ->
    extract_error_with_context (resp_text lr) 5 <> EmptyString ->
    yields w rel ep headers run t
           (Some (extract_error_with_context (resp_text lr) 5))
           (t ++ [CHttp (Get (ep sub_id) headers);
                  CHttp (Get (LogReadUrl url) None)]).

(** [fetch_fails w rel ep headers run t t']: probing the sub-resource
    [rel] of [run] from the trace [t] meets an HTTP failure, on the
    sub-resource or on its log, and the trace is then [t']. *)
Inductive fetch_fails (w : world) (rel : string) (ep : json -> endpoint)
          (headers : option json) (run : json) (t : trace)
  : trace -> Prop :=
| fetch_fails_details : forall sub_id,
    has_sub rel run = Ok true ->
    sub_id_of rel run = Ok sub_id ->
    fails w t (Get (ep sub_id) headers) ->
    fetch_fails w rel ep headers run t
                (t ++ [CHttp (Get (ep sub_id) headers)])
| fetch_fails_log : forall sub_id r details url,
    has_sub rel run = Ok true ->
    sub_id_of rel run = Ok sub_id ->
    answers w t (Get (ep sub_id) headers) r ->
    resp_json r = Ok details ->
    log_read_url_of details = Ok url ->
    Py.truthy url = true ->
    fails w (t ++ [CHttp (Get (ep sub_id) headers)])
          (Get (LogReadUrl url) None) ->
    fetch_fails w rel ep headers run t
                (t ++ [CHttp (Get (ep sub_id) headers);
                       CHttp (Get (LogReadUrl url) None)]).

(** A call to the apply endpoint. *)
Definition is_apply_call (c : call) : bool :=
  match c with
  | CHttp (Get (ApplyById _) _) => true
  | _ => false
  end.

(** A call to the plan or to the apply endpoint, or for a log. *)
Definition is_sub_resource_call (c : call) : bool :=
  match c with
  | CHttp (Get (PlanById _) _)
  | CHttp (Get (ApplyById _) _)
  | CHttp (Get (LogReadUrl _) _) => true
  | _ => false
  end.

(** A call to the automation platform or for one of its logs. *)
Definition is_platform_call (c : call) : bool :=
  match c with
  | CHttp (Get (RunById _) _)
  | CHttp (Get (WorkspaceByName _ _) _)
  | CHttp (Get (WorkspaceRuns _) _)
  | CHttp (Get (PlanById _) _)
  | CHttp (Get (ApplyById _) _)
  | CHttp (Get (LogReadUrl _) _) => true
  | _ => false
  end.

(** A call that locates a run. *)
Definition is_locator_call (c : call) : bool :=
  is_platform_call c && negb (is_sub_resource_call c).

(** [calls_satisfy P m]: whatever the trace [m] starts from, it only adds
    calls to it, and each added call satisfies [P]. *)
Definition calls_satisfy {A : Type} (P : call -> bool) (m : M A) : Prop :=
  forall t r t', m t = (r, t') ->
                 exists cs, t' = t ++ cs /\ forallb P cs = true.

(** *** A sample of the [json] module *)

(** One hexadecimal digit, in lower case. *)
Definition hex_digit (n : nat) : string :=
  String (nth n ["0"; "1"; "2"; "3"; "4"; "5"; "6"; "7"; "8"; "9";
                 "a"; "b"; "c"; "d"; "e"; "f"]%char "0"%char)
         EmptyString.

(** How [json.dumps] writes one character of a string with its default
    [ensure_ascii]: the quote and the backslash after a backslash, the
    five short escapes, the printable ASCII characters as they are, and
    any other code point below 256 as a [u] escape of four digits. *)
Definition escape_char (c : ascii) : string :=
  let n := nat_of_ascii c in
  if (n =? 34)%nat then ("\" ++ PyStr.dq)%string
  else if (n =? 92)%nat then "\\"
  else if (n =? 10)%nat then "\n"
  else if (n =? 13)%nat then "\r"
  else if (n =? 9)%nat then "\t"
  else if (n =? 8)%nat then "\b"
  else if (n =? 12)%nat then "\f"
  else if ((32 <=? n) && (n <=? 126))%nat then String c EmptyString
  else ("\u00" ++ hex_digit (n / 16) ++ hex_digit (n mod 16))%string.

Fixpoint escape (s : string) : string :=
  match s with
  | EmptyString => EmptyString
  | String c s' => (escape_char c ++ escape s')%string
  end.

(** A string between double quotes, as [json.dumps] writes it. *)
Definition quoted (s : string) : string :=
  (PyStr.dq ++ escape s ++ PyStr.dq)%string.

(** [json.dumps] with its default settings, on the values of this
    embedding: integers in decimal, strings escaped, the items of a list
    and of a dictionary after [", "], a key and its value around [": "]. *)
Fixpoint sample_dumps (j : json) : string :=
  match j with
  | JNull => "null"
  | JBool true => "true"
  | JBool false => "false"
  | JNum n => DecimalString.NilZero.string_of_int (Z.to_int n)
  | JStr s => quoted s
  | JArr xs =>
      ("[" ++ PyStr.join ", " (map sample_dumps xs) ++ "]")%string
  | JObj kvs =>
      ("{" ++ PyStr.join ", "
                (map (fun kv => (quoted (fst kv) ++ ": "
                                 ++ sample_dumps (snd kv))%string) kvs)
       ++ "}")%string
  end.

Definition sample_token : json := JStr "tfe-token".

Definition sample_secret : json :=
  JObj [("tfe_api_token", sample_token); ("token", JStr "glpat")].

Definition empty_body : json :=
  JObj [("files_content", JStr EmptyString); ("error_message", JNull)].

(** What stage one would answer with the body [empty_body]. *)
Definition empty_response : json :=
  JObj [("statusCode", JNum 200);
        ("body", JStr (sample_dumps empty_body))].

(** [json.loads] on the texts of the examples, each of them the text
    [json.dumps] writes for the value it is decoded to; any other text is
    refused. *)
Definition sample_loads (s : string) : result json :=
  if String.eqb s (sample_dumps sample_secret) then Ok sample_secret
  else if String.eqb s (sample_dumps empty_response) then Ok empty_response
  else if String.eqb s (sample_dumps empty_body) then Ok empty_body
  else Raise (Exn ValueError "Expecting value: line 1 column 1 (char 0)").

Definition sample_json : json_module := JsonModule sample_dumps sample_loads.

(** *** A sample world *)

Definition sample_run (status : string) : json :=
  JObj [("id", JStr "run-1");
        ("attributes", JObj [("status", JStr status)]);
        ("relationships",
         JObj [("plan", JObj [("data", JObj [("id", JStr "plan-1")])]);
               ("apply", JObj [("data", JObj [("id", JStr "apply-1")])])])].

Definition json_response (j : json) : response :=
  Response None (Ok j) EmptyString.

Definition text_response (s : string) : response :=
  Response None (Raise (Exn ValueError "Expecting value")) s.

Definition error_response (msg : string) : response :=
  Response (Some msg) (Raise (Exn ValueError "Expecting value")) EmptyString.

Definition sub_details (url : string) : json :=
  JObj [("data", JObj [("attributes", JObj [("log-read-url", JStr url)])])].

(** The platform of the sample world: its one workspace has the runs
    [runs]; the run fetched by id has the status [status]; the plan
    endpoint answers [plan]; the two logs are [plan_log] and [apply_log]. *)
Definition sample_http (status : string) (runs : list json)
           (plan : response) (plan_log apply_log : string) (req : request)
  : result response :=
  match req_endpoint req with
  | RunById _ => Ok (json_response (JObj [("data", sample_run status)]))
  | WorkspaceByName _ _ =>
      Ok (json_response (JObj [("data", JObj [("id", JStr "ws-1")])]))
  | WorkspaceRuns _ => Ok (json_response (JObj [("data", JArr runs)]))
  | PlanById _ => Ok plan
  | ApplyById _ =>
      Ok (json_response (sub_details "https://archivist.example/apply"))
  | LogReadUrl url =>
      if Py.eq_str url "https://archivist.example/plan"
      then Ok (text_response plan_log)
      else Ok (text_response apply_log)
  | _ => Raise (Exn (OtherException "ConnectionError") "unreachable")
  end.

Definition sample_world (status : string) (runs : list json)
           (plan : response) (plan_log apply_log : string) : world :=
  World (fun _ => sample_http status runs plan plan_log apply_log)
        (fun _ _ => Ok (Some (sample_dumps sample_secret)))
        (fun _ _ => Raise (Exn (OtherException "ClientError") "no function"))
        (fun _ _ _ => Raise (Exn (OtherException "ClientError") "no model")).

Definition plan_ok : response :=
  json_response (sub_details "https://archivist.example/plan").

Definition run_url : string :=
  "https://app.terraform.io/app/organizations/acme/workspaces/net/runs/run-1".

(** ** What the specification says of the diagnosis request handler *)

(** The response of a successful invocation. *)
Definition success_response (js : json_module) (files_content : string)
           (error_message : string) : json :=
  handler_response js 200
    (JObj [("files_content", JStr files_content);
           ("error_message", JStr error_message)]).

(** The run-diagnosis path of the handler, with nothing of the repository
    part: the platform secret, the identifier resolver, the run diagnoser,
    and a response whose [files_content] is empty. *)
Definition diagnosis_path (w : world) (js : json_module)
           (TERRAFORM_SECRET_NAME : option string) (event : json) : M json :=
  try_except
    (workspace_url <- lift (Py.getitem event "workspace_url") ;;
     secret <- get_secret w js TERRAFORM_SECRET_NAME ;;
     tfe_api_token <- lift (Py.getitem secret "tfe_api_token") ;;
     ids <- lift (match workspace_url with
                  | JStr url => get_workspace_id_from_url url
                  | _ => Raise (Py.no_attribute workspace_url "split")
                  end) ;;
     let '(workspace_name, org_name, run_id) := ids in
     error_message <-
       get_latest_run_error w workspace_name org_name tfe_api_token run_id ;;
     ret (success_response js EmptyString error_message))
    (fun e =>
       ret (handler_response js 500 (JObj [("error", JStr (exn_str e))]))).

(** ** What the specification says of the troubleshooting request handler *)

(** The text under [response.functionResponse.responseBody.TEXT.body] of an
    envelope that also has [response.actionGroup], [response.function] and
    [messageVersion]. *)
Definition envelope_body (j : json) : result json :=
  rbind (Py.getitem j "response") (fun response =>
  rbind (Py.getitem response "actionGroup") (fun _ =>
  rbind (Py.getitem response "function") (fun _ =>
  rbind (Py.getitem response "functionResponse") (fun function_response =>
  rbind (Py.getitem function_response "responseBody") (fun response_body =>
  rbind (Py.getitem response_body "TEXT") (fun text =>
  rbind (Py.getitem text "body") (fun body =>
  rbind (Py.getitem j "messageVersion") (fun _ =>
  Ok body)))))))).

Definition well_formed_envelope (j : json) : Prop :=
  exists body, envelope_body j = Ok body.

(** The body text of a failure: the missing-data shape for a KeyError, the
    generic shape for any other exception. *)
Definition failure_text (e : exn) : string :=
  if is_KeyError e
  then ("Missing required information: " ++ exn_str e)%string
  else ("Error: " ++ exn_str e)%string.

(** The payload sent to stage one for the properties [props]. *)
Definition stage_one_payload (js : json_module)
           (props : TerraformTroubleshooting.dict) : string :=
  dumps js
    (JObj [("workspace_url",
            TerraformTroubleshooting.dict_get props "workspace_url" JNull);
           ("repo_url",
            TerraformTroubleshooting.dict_get props "repo_url" JNull);
           ("branch_name",
            TerraformTroubleshooting.dict_get props "branch_name"
                                              (JStr "main"))]).

(** A sample world for stage two: stage one answers with a body that has
    neither files nor an error message. *)
Definition sample_agent_world : world :=
  World (fun _ _ => Raise (Exn (OtherException "ConnectionError") "unreachable"))
        (fun _ _ => Raise (Exn (OtherException "ClientError") "no secret"))
        (fun _ _ => Ok (sample_dumps empty_response))
        (fun _ _ _ => Raise (Exn (OtherException "ClientError") "throttled")).

(** The same world, with a remote call that fails. *)
Definition failing_agent_world : world :=
  World (http_get sample_agent_world) (get_secret_value sample_agent_world)
        (fun _ _ => Raise (Exn (OtherException "ClientError") "AccessDenied"))
        (model_invoke sample_agent_world).

Definition sample_parameters : json :=
  JArr [JObj [("name", JStr "workspace_url");
              ("type", JStr "string");
              ("value", JStr run_url)]].

Definition sample_event : json :=
  JObj [("agent", JObj [("name", JStr "terraform-agent")]);
        ("actionGroup", JStr "troubleshoot");
        ("function", JStr "diagnose");
        ("messageVersion", JStr "1.0");
        ("parameters", sample_parameters)].

(** The same event without its [messageVersion]. *)
Definition event_without_version : json :=
  JObj [("agent", JObj [("name", JStr "terraform-agent")]);
        ("actionGroup", JStr "troubleshoot");
        ("function", JStr "diagnose");
        ("parameters", sample_parameters)].

(** ** Further notions for the identifier resolver and the run diagnoser *)

(** How many times the character [c] occurs in [s]. *)
Fixpoint count_char (c : ascii) (s : string) : nat :=
  match s with
  | EmptyString => O
  | String a s' => (if Ascii.eqb a c then 1 else 0) + count_char c s'
  end.

(** The four shapes of the run diagnoser's result. *)
Definition is_error_report (s : string) : Prop :=
  s = no_runs_found
  \/ s = no_errors_found
  \/ (exists text,
        extract_error_with_context text 5 <> EmptyString
        /\ s = ("Plan Error:" ++ PyStr.nl
                ++ extract_error_with_context text 5)%string)
  \/ (exists text,
        extract_error_with_context text 5 <> EmptyString
        /\ s = ("Apply Error:" ++ PyStr.nl
                ++ extract_error_with_context text 5)%string).

(** A call that the run diagnoser may make with the token [token]: a GET
    to the platform whose bearer is that token, or a GET of a log without
    any [Authorization] header. *)
Definition carries_token (token : json) (c : call) : Prop :=
  match c with
  | CHttp (Get (LogReadUrl _) bearer) => bearer = None
  | CHttp (Get (RunById _) bearer)
  | CHttp (Get (WorkspaceByName _ _) bearer)
  | CHttp (Get (WorkspaceRuns _) bearer)
  | CHttp (Get (PlanById _) bearer)
  | CHttp (Get (ApplyById _) bearer) => bearer = Some token
  | _ => False
  end.

(** [calls_all P m]: whatever the trace [m] starts from, it only adds
    calls to it, and each added call has the property [P]. *)
Definition calls_all {A : Type} (P : call -> Prop) (m : M A) : Prop :=
  forall t r t', m t = (r, t') -> exists cs, t' = t ++ cs /\ Forall P cs.

(** Further sample worlds: one whose apply endpoint answers with an HTTP
    error, after a plan whose log marks no error; one whose run has no
    relationships. *)
Definition apply_failing_world : world :=
  World (fun _ req =>
           match req_endpoint req with
           | ApplyById _ => Ok (error_response "502 Bad Gateway")
           | _ => sample_http "errored" [] plan_ok "Plan: 1 to add"
                              EmptyString req
           end)
        (fun _ _ => Ok (Some (sample_dumps sample_secret)))
        (fun _ _ => Raise (Exn (OtherException "ClientError") "no function"))
        (fun _ _ _ => Raise (Exn (OtherException "ClientError") "no model")).

Definition bare_run : json :=
  JObj [("id", JStr "run-1");
        ("attributes", JObj [("status", JStr "errored")])].

Definition bare_run_world : world :=
  World (fun _ req =>
           match req_endpoint req with
           | RunById _ => Ok (json_response (JObj [("data", bare_run)]))
           | _ => Raise (Exn (OtherException "ConnectionError") "unreachable")
           end)
        (fun _ _ => Ok (Some (sample_dumps sample_secret)))
        (fun _ _ => Raise (Exn (OtherException "ClientError") "no function"))
        (fun _ _ _ => Raise (Exn (OtherException "ClientError") "no model")).

(** ** Further notions for the repository fetcher *)

(** A tree entry of type [ty] and path [p] is fetched. *)
Definition wanted_entry (ty p : string) : bool :=
  String.eqb ty "blob"
  && (PyStr.endswith ".tf" p || PyStr.endswith ".tfvars" p).

(** A GET of the raw content of a file whose path ends in [.tf] or
    [.tfvars]. *)
Definition is_terraform_file_call (c : call) : bool :=
  match c with
  | CHttp (Get (GitlabRawFile _ p _) _) =>
      PyStr.endswith ".tf" p || PyStr.endswith ".tfvars" p
  | _ => false
  end.

(** The section of one file in the bundle. *)
Definition bundle_section (p text : string) : string :=
  ("File: " ++ p ++ PyStr.nl ++ text ++ PyStr.nl ++ PyStr.nl)%string.

(** The bundle of the tree entries [entries] (type and path), in their
    order, when the file of path [p] has the content [content p]. *)
Fixpoint bundle (content : string -> string)
         (entries : list (string * string)) : string :=
  match entries with
  | [] => EmptyString
  | (ty, p) :: entries' =>
      if wanted_entry ty p
      then (bundle_section p (content p) ++ bundle content entries')%string
      else bundle content entries'
  end.

(** The calls that fetch the files of [entries]. *)
Definition file_calls (repo_path : string) (branch_name : json)
           (headers : option json) (entries : list (string * string))
  : list call :=
  map (fun e => CHttp (Get (GitlabRawFile repo_path (snd e) branch_name)
                           headers))
      (filter (fun e => wanted_entry (fst e) (snd e)) entries).

(** The tree item [item] has the type and the path of [entry]. *)
Definition item_is (item : json) (entry : string * string) : Prop :=
  Py.getitem item "type" = Ok (JStr (fst entry))
  /\ Py.getitem item "path" = Ok (JStr (snd entry)).

(** The host prefix that [fetch_files_from_gitlab] splits on. *)
Definition gitlab_prefix : string := "https://gitlab.com/".

(** [k] slashes. *)
Fixpoint slashes (k : nat) : string :=
  match k with
  | O => EmptyString
  | S k' => String "/" (slashes k')
  end.

(** The last character of a string. *)
Fixpoint last_char (s : string) : option ascii :=
  match s with
  | EmptyString => None
  | String c EmptyString => Some c
  | String _ s' => last_char s'
  end.

(** A sample repository: its tree and the content of its files. *)
Definition sample_tree : json :=
  JArr [JObj [("type", JStr "blob"); ("path", JStr "main.tf")];
        JObj [("type", JStr "blob"); ("path", JStr "main.py")];
        JObj [("type", JStr "tree"); ("path", JStr "modules.tf")];
        JObj [("type", JStr "blob"); ("path", JStr "prod.tfvars")]].

Definition sample_entries : list (string * string) :=
  [("blob", "main.tf"); ("blob", "main.py"); ("tree", "modules.tf");
   ("blob", "prod.tfvars")].

Definition sample_content (p : string) : string := ("# " ++ p)%string.

Definition repository_world : world :=
  World (fun _ req =>
           match req_endpoint req with
           | GitlabTree _ _ => Ok (json_response sample_tree)
           | GitlabRawFile _ p _ => Ok (text_response (sample_content p))
           | _ => sample_http "errored" [] plan_ok "Error: boom"
                              EmptyString req
           end)
        (fun _ _ => Ok (Some (sample_dumps sample_secret)))
        (fun _ _ => Raise (Exn (OtherException "ClientError") "no function"))
        (fun _ _ _ => Raise (Exn (OtherException "ClientError") "no model")).

(** ** Further notions for the two handlers *)

(** The response of a failed invocation of stage one. *)
Definition failure_response_500 (js : json_module) (e : exn) : json :=
  handler_response js 500 (JObj [("error", JStr (exn_str e))]).

(** The parameter [param] has the name [fst nv] and the value [snd nv]. *)
Definition param_is (param : json) (nv : string * json) : Prop :=
  Py.getitem param "name" = Ok (JStr (fst nv))
  /\ Py.getitem param "value" = Ok (snd nv).

(** The value of the last parameter named [k], if there is one. *)
Fixpoint last_value (k : string) (pairs : list (string * json))
  : option json :=
  match pairs with
  | [] => None
  | (n, v) :: rest =>
      match last_value k rest with
      | Some x => Some x
      | None => if String.eqb n k then Some v else None
      end
  end.

(** A sample event with a repository, and one without [workspace_url]. *)
Definition repository_event : json :=
  JObj [("repo_url", JStr "https://gitlab.com/acme/net");
        ("workspace_url", JStr run_url)].

Definition event_without_workspace : json :=
  JObj [("repo_url", JStr "https://gitlab.com/acme/net")].

(** A sample of the two stages in a chain: what stage one answers after a
    failure and after a success, and what the model answers. *)
Definition failed_body : json := JObj [("error", JStr "'workspace_url'")].

Definition succeeded_body : json :=
  JObj [("files_content", JStr EmptyString);
        ("error_message", JStr no_errors_found)].

Definition model_answer : json :=
  JObj [("content",
         JArr [JObj [("type", JStr "text");
                     ("text", JStr "Run terraform init.")]])].

Definition failed_response : json :=
  JObj [("statusCode", JNum 500);
        ("body", JStr (sample_dumps failed_body))].

Definition succeeded_response : json :=
  JObj [("statusCode", JNum 200);
        ("body", JStr (sample_dumps succeeded_body))].

(** [json.loads] on the texts of the chain, each of them the text
    [json.dumps] writes for the value it is decoded to. *)
Definition chain_loads (s : string) : result json :=
  if String.eqb s (sample_dumps failed_response) then Ok failed_response
  else if String.eqb s (sample_dumps succeeded_response)
  then Ok succeeded_response
  else if String.eqb s (sample_dumps failed_body) then Ok failed_body
  else if String.eqb s (sample_dumps succeeded_body) then Ok succeeded_body
  else if String.eqb s (sample_dumps model_answer) then Ok model_answer
  else Raise (Exn ValueError "Expecting value: line 1 column 1 (char 0)").

Definition chain_json : json_module := JsonModule sample_dumps chain_loads.

(** The world of stage two when stage one's answer decodes to
    [stage_one]. *)
Definition chain_world (stage_one : json) : world :=
  World (fun _ _ => Raise (Exn (OtherException "ConnectionError") "unreachable"))
        (fun _ _ => Raise (Exn (OtherException "ClientError") "no secret"))
        (fun _ _ => Ok (sample_dumps stage_one))
        (fun _ _ _ => Ok (sample_dumps model_answer)).

(** An event whose parameter has no [name]. *)
Definition nameless_event : json :=
  JObj [("agent", JObj [("name", JStr "terraform-agent")]);
        ("actionGroup", JStr "troubleshoot");
        ("function", JStr "diagnose");
        ("messageVersion", JStr "1.0");
        ("parameters", JArr [JObj [("value", JStr run_url)]])].

(** * Properties *)

(** ** Lists *)

Lemma skipn_nth_cons : forall (A : Type) (d : A) (l : list A) (i : nat),
  (i < List.length l)%nat -> skipn i l = nth i l d :: skipn (S i) l.
Proof.
  intros A d l; induction l as [|x l IH]; intros i Hi; simpl in Hi.
  - lia.
  - destruct i as [|i]; [reflexivity|].
    change (skipn (S i) (x :: l)) with (skipn i l).
    change (nth (S i) (x :: l) d) with (nth i l d).
    change (skipn (S (S i)) (x :: l)) with (skipn (S i) l).
    apply IH; lia.
Qed.

Lemma firstn_skipn_seq : forall (A : Type) (d : A) (l : list A) (k i : nat),
  (i + k <= List.length l)%nat ->
  firstn k (skipn i l) = map (fun j => nth j l d) (seq i k).
Proof.
  intros A d l k; induction k as [|k IH]; intros i Hi.
  - reflexivity.
  - rewrite (skipn_nth_cons A d l i) by lia.
    cbn [firstn seq map]. f_equal. apply IH. lia.
Qed.

Lemma slice_window : forall (lines : list string) (window i : nat),
  (i < List.length lines)%nat ->
  PyList.slice lines (Z.of_nat i)
    (Z.min (Z.of_nat i + Z.of_nat window + 1) (PyList.len lines))
  = window_of lines window i.
Proof.
  intros lines window i Hi.
  unfold PyList.slice, window_of, PyList.len, PyList.clamp.
  set (n := List.length lines) in *.
  destruct (Z.ltb_spec (Z.of_nat i) 0) as [Hneg|_]; [lia|].
  destruct (Z.ltb_spec (Z.min (Z.of_nat i + Z.of_nat window + 1) (Z.of_nat n)) 0)
    as [Hneg|_]; [lia|].
  replace (Z.to_nat (Z.min (Z.of_nat i) (Z.of_nat n))) with i by lia.
  replace (Z.to_nat
             (Z.min (Z.min (Z.of_nat i + Z.of_nat window + 1) (Z.of_nat n))
                    (Z.of_nat n) - Z.min (Z.of_nat i) (Z.of_nat n)))
    with (Nat.min (i + window + 1) n - i)%nat by lia.
  apply firstn_skipn_seq. fold n. lia.
Qed.

Lemma nth_middle_app : forall (pre rest : list string) (line : string),
  nth (List.length pre) (pre ++ line :: rest) EmptyString = line.
Proof.
  intros pre rest line. rewrite app_nth2 by lia.
  rewrite Nat.sub_diag. reflexivity.
Qed.

(** ** The loop of the extractor *)

Lemma extract_loop_blocks : forall (window : nat) (rest pre acc : list string),
  extract_loop (pre ++ rest) (Z.of_nat window)
               (Z.of_nat (List.length pre)) rest acc
  = acc ++ flat_map (block_at (pre ++ rest) window)
                    (seq (List.length pre) (List.length rest)).
Proof.
  intros window rest; induction rest as [|line rest IH]; intros pre acc.
  - simpl. now rewrite app_nil_r.
  - cbn [extract_loop List.length seq flat_map].
    replace (Z.of_nat (List.length pre) + 1)%Z
      with (Z.of_nat (List.length (pre ++ [line])))
      by (rewrite length_app; simpl; lia).
    assert (Hsplit : pre ++ line :: rest = (pre ++ [line]) ++ rest)
      by (now rewrite <- app_assoc).
    unfold block_at at 1. rewrite nth_middle_app.
    destruct (is_error_line line) eqn:Hmark.
    + rewrite slice_window
        by (rewrite length_app; simpl; lia).
      rewrite Hsplit at 1 3. rewrite IH.
      replace (List.length (pre ++ [line])) with (S (List.length pre))
        by (rewrite length_app; simpl; lia).
      rewrite <- Hsplit. now rewrite <- !app_assoc.
    + rewrite Hsplit at 1. rewrite IH.
      replace (List.length (pre ++ [line])) with (S (List.length pre))
        by (rewrite length_app; simpl; lia).
      rewrite <- Hsplit. reflexivity.
Qed.

Lemma error_lines_with_context_blocks : forall (log : string) (window : nat),
  error_lines_with_context log (Z.of_nat window)
  = blocks (PyStr.splitlines log) window.
Proof.
  intros log window. unfold error_lines_with_context, blocks.
  exact (extract_loop_blocks window (PyStr.splitlines log) [] []).
Qed.

Lemma blocks_no_marking : forall (lines : list string) (window : nat),
  (forall line, In line lines -> is_error_line line = false) ->
  blocks lines window = [].
Proof.
  intros lines window Hnone. unfold blocks.
  assert (H : forall idx, (forall i, In i idx -> (i < List.length lines)%nat) ->
                          flat_map (block_at lines window) idx = []).
  { induction idx as [|i idx IH]; intros Hidx; [reflexivity|].
    simpl. rewrite IH by (intros; apply Hidx; now right).
    unfold block_at. rewrite Hnone; [reflexivity|].
    apply nth_In. apply Hidx. now left. }
  apply H. intros i Hi. apply in_seq in Hi. lia.
Qed.

(** ** Strings *)

Lemma append_nil_r : forall s : string, (s ++ EmptyString)%string = s.
Proof.
  induction s as [|c s IH]; simpl; [reflexivity | now rewrite IH].
Qed.

Lemma append_assoc : forall a b c : string,
  ((a ++ b) ++ c)%string = (a ++ b ++ c)%string.
Proof.
  induction a as [|x a IH]; intros b c; simpl; [reflexivity | now rewrite IH].
Qed.

Lemma prefix_app : forall kw s : string,
  prefix kw s = true <-> exists post, s = (kw ++ post)%string.
Proof.
  induction kw as [|k kw IH]; intros s.
  - split; [intros _; exists s; reflexivity|].
    intros _. destruct s; reflexivity.
  - destruct s as [|c s]; simpl.
    + split; [discriminate | intros [post H]; discriminate].
    + destruct (ascii_dec k c) as [->|Hne].
      * rewrite IH. split; intros [post H]; exists post.
        -- now rewrite H.
        -- now inversion H.
      * split; [discriminate|]. intros [post H]. congruence.
Qed.

Lemma contains_app : forall kw s : string,
  PyStr.contains kw s = true
  <-> exists pre post, s = (pre ++ kw ++ post)%string.
Proof.
  intros kw s; induction s as [|c s IH].
  - cbn [PyStr.contains]. rewrite orb_false_r, prefix_app. split.
    + intros [post H]. exists EmptyString, post. exact H.
    + intros [pre [post H]]. destruct pre; [now exists post|discriminate].
  - cbn [PyStr.contains]. rewrite orb_true_iff, prefix_app, IH. split.
    + intros [[post H]|[pre [post H]]].
      * exists EmptyString, post. exact H.
      * exists (String c pre), post. simpl. now rewrite H.
    + intros [pre [post H]]. destruct pre as [|p pre].
      * left. now exists post.
      * right. exists pre, post. simpl in H. now inversion H.
Qed.

Lemma lower_app : forall a b : string,
  PyStr.lower (a ++ b) = (PyStr.lower a ++ PyStr.lower b)%string.
Proof.
  induction a as [|c a IH]; intros b; simpl; [reflexivity | now rewrite IH].
Qed.

Lemma lower_split : forall s a b : string,
  PyStr.lower s = (a ++ b)%string ->
  exists a' b', s = (a' ++ b')%string
                /\ PyStr.lower a' = a /\ PyStr.lower b' = b.
Proof.
  intros s a; revert s; induction a as [|x a IH]; intros s b H.
  - exists EmptyString, s. now repeat split.
  - destruct s as [|c s]; [discriminate|].
    simpl in H. inversion H as [[Hc Hs]].
    destruct (IH s b Hs) as [a' [b' [-> [Ha Hb]]]].
    exists (String c a'), b'. repeat split; [|assumption].
    simpl. now rewrite Ha.
Qed.

(** Containment with case ignored is the test the code makes, for a
    keyword that is in lower case already. *)
Lemma ci_contains_lower : forall kw line : string,
  PyStr.lower kw = kw ->
  (ci_contains kw line <-> PyStr.contains kw (PyStr.lower line) = true).
Proof.
  intros kw line Hkw. rewrite contains_app. unfold ci_contains. split.
  - intros [pre [mid [post [-> Hmid]]]].
    exists (PyStr.lower pre), (PyStr.lower post).
    now rewrite !lower_app, Hmid, Hkw.
  - intros [pre [post H]].
    destruct (lower_split _ _ _ H) as [pre' [rest [-> [_ Hrest]]]].
    destruct (lower_split _ _ _ Hrest) as [mid [post' [-> [Hmid _]]]].
    exists pre', mid, post'. split; [reflexivity|]. now rewrite Hkw.
Qed.

Lemma is_error_line_iff : forall line : string,
  is_error_line line = true
  <-> ci_contains level_marker line \/ ci_contains "error:" line.
Proof.
  intros line. unfold is_error_line, error_keywords.
  cbn [existsb]. rewrite orb_false_r, orb_true_iff.
  rewrite (ci_contains_lower level_marker) by reflexivity.
  rewrite (ci_contains_lower "error:") by reflexivity.
  reflexivity.
Qed.

(** [join] of a list and of a segment of it. *)
Lemma join_cons : forall (sep x : string) (xs : list string),
  PyStr.join sep (x :: xs)
  = match xs with
    | [] => x
    | _ => (x ++ sep ++ PyStr.join sep xs)%string
    end.
Proof. intros sep x [|y xs]; reflexivity. Qed.

Lemma join_app_prefix : forall (sep : string) (ys zs : list string),
  exists rest, PyStr.join sep (ys ++ zs) = (PyStr.join sep ys ++ rest)%string.
Proof.
  intros sep ys; induction ys as [|y ys IH]; intros zs.
  - exists (PyStr.join sep zs). reflexivity.
  - destruct ys as [|y' ys].
    + simpl app. rewrite !join_cons. destruct zs.
      * exists EmptyString. now rewrite append_nil_r.
      * eexists. reflexivity.
    + destruct (IH zs) as [rest Hrest].
      change ((y :: y' :: ys) ++ zs) with (y :: (y' :: ys) ++ zs).
      rewrite (join_cons sep y ((y' :: ys) ++ zs)).
      rewrite (join_cons sep y (y' :: ys)).
      change ((y' :: ys) ++ zs) with (y' :: ys ++ zs) at 1.
      cbv iota. rewrite Hrest. exists rest.
      now rewrite !append_assoc.
Qed.

Lemma join_segment : forall (sep : string) (xs ys zs : list string),
  exists before after,
    PyStr.join sep (xs ++ ys ++ zs)
    = (before ++ PyStr.join sep ys ++ after)%string.
Proof.
  intros sep xs; induction xs as [|x xs IH]; intros ys zs.
  - destruct (join_app_prefix sep ys zs) as [rest H].
    exists EmptyString, rest. exact H.
  - destruct (IH ys zs) as [before [after H]].
    change ((x :: xs) ++ ys ++ zs) with (x :: xs ++ ys ++ zs).
    rewrite join_cons. destruct (xs ++ ys ++ zs) eqn:Hrest.
    + destruct xs; [|discriminate]. destruct ys; [|discriminate].
      exists x, EmptyString. simpl. now rewrite append_nil_r.
    + rewrite H. exists (x ++ sep ++ before)%string, after.
      now rewrite !append_assoc.
Qed.

Lemma flat_map_seq_split :
  forall (A : Type) (f : nat -> list A) (n i : nat),
  (i < n)%nat ->
  flat_map f (seq 0 n)
  = flat_map f (seq 0 i) ++ f i ++ flat_map f (seq (S i) (n - S i)).
Proof.
  intros A f n i Hi.
  replace n with (i + S (n - S i))%nat at 1 by lia.
  rewrite seq_app, flat_map_app. reflexivity.
Qed.

(** The window of a line begins with that line. *)
Lemma window_of_head : forall (lines : list string) (window i : nat),
  (i < List.length lines)%nat ->
  exists more,
    window_of lines window i = nth i lines EmptyString :: more.
Proof.
  intros lines window i Hi. unfold window_of.
  destruct (Nat.min (i + window + 1) (List.length lines) - i)%nat
    as [|k] eqn:Hk; [lia|].
  eexists. reflexivity.
Qed.

Lemma extract_loop_no_marking :
  forall (log_lines : list string) (context_lines : Z)
         (rest : list string) (i : Z) (acc : list string),
  (forall line, In line rest -> is_error_line line = false) ->
  extract_loop log_lines context_lines i rest acc = acc.
Proof.
  intros log_lines context_lines rest;
    induction rest as [|line rest IH]; intros i acc Hnone.
  - reflexivity.
  - cbn [extract_loop]. rewrite (Hnone line) by now left.
    apply IH. intros l Hl. apply Hnone. now right.
Qed.

(** C3.  The log error extractor joins with newlines the blocks of the
    error-marking lines, in the order of the lines: the block of a marking
    line at index [i] is the lines [[i, min(i + window + 1, number of
    lines))] followed by one blank separator, and overlapping windows are
    kept as they are (two adjacent markers repeat the second line).  A log
    without marking line gives the empty string, for any window.  On the
    example of the specification with window 5 the result is lines 1 to 6
    and the blank separator, without [line7]. *)
Theorem extract_error_with_context_blocks :
  forall (log : string) (window : nat) (context_lines : Z),
    extract_error_with_context log (Z.of_nat window)
    = PyStr.join PyStr.nl (blocks (PyStr.splitlines log) window)
    /\ ((forall line, In line (PyStr.splitlines log) ->
                      is_error_line line = false) ->
        extract_error_with_context log context_lines = EmptyString)
    /\ error_lines_with_context
         (PyStr.join PyStr.nl ["error: a"; "error: b"]) 5
       = ["error: a"; "error: b"; EmptyString; "error: b"; EmptyString]
    /\ PyStr.splitlines example_log
       = [example_first_line;
          "line2"; "line3"; "line4"; "line5"; "line6"; "line7"]
    /\ error_lines_with_context example_log 5
       = [example_first_line;
          "line2"; "line3"; "line4"; "line5"; "line6"; EmptyString]
    /\ extract_error_with_context example_log 5
       = (example_first_line ++ PyStr.nl ++ "line2" ++ PyStr.nl
          ++ "line3" ++ PyStr.nl ++ "line4" ++ PyStr.nl
          ++ "line5" ++ PyStr.nl ++ "line6" ++ PyStr.nl)%string.
Proof.
  intros log window context_lines. split; [|split].
  - unfold extract_error_with_context.
    now rewrite error_lines_with_context_blocks.
  - intros Hnone. unfold extract_error_with_context, error_lines_with_context.
    now rewrite extract_loop_no_marking.
  - repeat split; vm_compute; reflexivity.
Qed.

Lemma extract_error_with_context_blocks_witness :
  extract_error_with_context "Plan: 1 to add, 0 to change" 5 = EmptyString.
Proof.
  apply (proj1 (proj2 (extract_error_with_context_blocks
                         "Plan: 1 to add, 0 to change" 5 5))).
  intros line Hin. vm_compute in Hin.
  destruct Hin as [<-|[]]. vm_compute. reflexivity.
Defined.

(** C4, as stated, fails: a line that holds the structured marker without
    [@] (and no [error:]) is not error-marking, and a log made of that line
    gives the empty string. *)
Lemma level_marker_without_at_not_marking :
  (ci_contains level_marker_no_at line_without_at
   \/ ci_contains "error:" line_without_at)
  /\ PyStr.splitlines line_without_at = [line_without_at]
  /\ is_error_line line_without_at = false
  /\ extract_error_with_context line_without_at 5 = EmptyString.
Proof.
  split; [|repeat split; vm_compute; reflexivity].
  left. exists "{", level_marker_no_at,
    ("," ++ PyStr.dq ++ "msg" ++ PyStr.dq ++ ":"
     ++ PyStr.dq ++ "x" ++ PyStr.dq ++ "}")%string.
  split; reflexivity.
Qed.

(** C4, amended.  A log line that holds, case ignored, the structured
    marker with its [@] or the substring [error:] is error-marking; its
    window, which begins with the line itself, and the blank separator are
    a segment of the extracted lines and of the extracted text. *)
Theorem marking_line_is_extracted :
  forall (log : string) (window i : nat) (line : string),
    nth_error (PyStr.splitlines log) i = Some line ->
    ci_contains level_marker line \/ ci_contains "error:" line ->
    let lines := PyStr.splitlines log in
    let block := window_of lines window i ++ [EmptyString] in
    is_error_line line = true
    /\ (exists more, window_of lines window i = line :: more)
    /\ (exists before after,
          error_lines_with_context log (Z.of_nat window)
          = before ++ block ++ after)
    /\ (exists before after,
          extract_error_with_context log (Z.of_nat window)
          = (before ++ PyStr.join PyStr.nl block ++ after)%string).
Proof.
  intros log window i line Hnth Hci lines block.
  assert (Hi : (i < List.length lines)%nat)
    by (apply nth_error_Some; unfold lines; congruence).
  assert (Hline : nth i lines EmptyString = line)
    by (now apply nth_error_nth).
  assert (Hmark : is_error_line line = true) by now apply is_error_line_iff.
  assert (Hseg : exists before after,
             error_lines_with_context log (Z.of_nat window)
             = before ++ block ++ after).
  { rewrite error_lines_with_context_blocks. fold lines. unfold blocks.
    rewrite (flat_map_seq_split _ _ _ i Hi).
    unfold block_at at 2. rewrite Hline, Hmark.
    eexists. eexists. reflexivity. }
  repeat split.
  - exact Hmark.
  - destruct (window_of_head lines window i Hi) as [more Hmore].
    exists more. now rewrite Hmore, Hline.
  - exact Hseg.
  - destruct Hseg as [before [after Hseg]].
    unfold extract_error_with_context. rewrite Hseg.
    apply join_segment.
Qed.

Lemma marking_line_is_extracted_witness :
  is_error_line "Error: Invalid provider configuration" = true.
Proof.
  refine (proj1 (marking_line_is_extracted
                   "Error: Invalid provider configuration" 5 0
                   "Error: Invalid provider configuration" _ _)).
  - reflexivity.
  - right. exists EmptyString, "Error:", " Invalid provider configuration".
    split; reflexivity.
Defined.

(** ** The identifier resolver *)

Lemma index_from_last : forall (parts : list string) (k : nat),
  PyList.index parts (- Z.of_nat (S k)) = from_last (S k) parts.
Proof.
  intros parts k. unfold PyList.index, PyList.len, from_last.
  destruct (Z.ltb_spec (- Z.of_nat (S k)) 0) as [_|H]; [|lia].
  rewrite nth_error_rev.
  destruct (Nat.ltb_spec k (List.length parts)) as [Hk|Hk].
  - replace ((0 <=? - Z.of_nat (S k) + Z.of_nat (List.length parts))%Z
             && (- Z.of_nat (S k) + Z.of_nat (List.length parts)
                 <? Z.of_nat (List.length parts))%Z) with true
      by (symmetry; apply andb_true_iff; split;
          [apply Z.leb_le | apply Z.ltb_lt]; lia).
    f_equal. lia.
  - replace ((0 <=? - Z.of_nat (S k) + Z.of_nat (List.length parts))%Z)
      with false by (symmetry; apply Z.leb_gt; lia).
    reflexivity.
Qed.

Lemma parts_at_from_last : forall (parts : list string) (k : nat),
  parts_at parts (- Z.of_nat (S k))
  = match from_last (S k) parts with
    | Some p => Ok p
    | None => Raise index_error
    end.
Proof.
  intros parts k. unfold parts_at. now rewrite index_from_last.
Qed.

Lemma from_last_none : forall (parts : list string) (k : nat),
  from_last (S k) parts = None <-> (List.length parts <= k)%nat.
Proof.
  intros parts k. unfold from_last.
  rewrite nth_error_None, length_rev. reflexivity.
Qed.

Lemma runs_in_parts : forall parts : list string,
  existsb (String.eqb "runs") parts = true <-> In "runs" parts.
Proof.
  intros parts. rewrite existsb_exists. split.
  - intros [x [Hin Hx]]. apply String.eqb_eq in Hx. now subst.
  - intros Hin. exists "runs". split; [assumption | reflexivity].
Qed.

Lemma split_nonempty : forall (sep : ascii) (s : string),
  PyStr.split sep s <> [].
Proof.
  intros sep s; destruct s as [|c s]; simpl; [discriminate|].
  destruct (Ascii.eqb c sep); [discriminate|].
  destruct (PyStr.split sep s); discriminate.
Qed.

Lemma split_app : forall (sep : ascii) (a b : string),
  PyStr.split sep (a ++ String sep b)
  = PyStr.split sep a ++ PyStr.split sep b.
Proof.
  intros sep a b; induction a as [|c a IH].
  - simpl. now rewrite Ascii.eqb_refl.
  - cbn [append PyStr.split]. destruct (Ascii.eqb c sep).
    + now rewrite IH.
    + rewrite IH. destruct (PyStr.split sep a) eqn:Ha; [|reflexivity].
      now apply split_nonempty in Ha.
Qed.

Lemma split_no_sep : forall (sep : ascii) (s : string),
  PyStr.contains (String sep EmptyString) s = false ->
  PyStr.split sep s = [s].
Proof.
  intros sep s; induction s as [|c s IH]; intros H; [reflexivity|].
  cbn [PyStr.contains prefix] in H. apply orb_false_iff in H.
  destruct H as [Hc Hs]. cbn [PyStr.split].
  destruct (ascii_dec sep c) as [->|Hne].
  - destruct s; discriminate.
  - destruct (Ascii.eqb_spec c sep) as [->|_]; [congruence|].
    now rewrite (IH Hs).
Qed.

Lemma resolver_with_runs : forall url : string,
  In "runs" (PyStr.split "/" url) ->
  get_workspace_id_from_url url
  = match from_last 3 (PyStr.split "/" url),
          from_last 5 (PyStr.split "/" url),
          from_last 1 (PyStr.split "/" url) with
    | Some ws, Some org, Some run => Ok (ws, org, Some run)
    | _, _, _ => Raise index_error
    end.
Proof.
  intros url Hruns. unfold get_workspace_id_from_url.
  rewrite (proj2 (runs_in_parts _) Hruns).
  change (-3)%Z with (- Z.of_nat 3)%Z. change (-5)%Z with (- Z.of_nat 5)%Z.
  change (-1)%Z with (- Z.of_nat 1)%Z. rewrite !parts_at_from_last.
  destruct (from_last 3 _) as [ws|] eqn:H3; [|reflexivity].
  destruct (from_last 5 _) as [org|] eqn:H5; [|reflexivity].
  destruct (from_last 1 _) as [run|] eqn:H1; [reflexivity|].
  apply from_last_none in H1.
  assert (Hlen : from_last 3 (PyStr.split "/" url) <> None) by congruence.
  rewrite from_last_none in Hlen. lia.
Qed.

Lemma resolver_without_runs : forall url : string,
  ~ In "runs" (PyStr.split "/" url) ->
  get_workspace_id_from_url url
  = match from_last 1 (PyStr.split "/" url),
          from_last 3 (PyStr.split "/" url) with
    | Some ws, Some org => Ok (ws, org, None)
    | _, _ => Raise index_error
    end.
Proof.
  intros url Hruns. unfold get_workspace_id_from_url.
  destruct (existsb (String.eqb "runs") (PyStr.split "/" url)) eqn:Hex.
  - apply runs_in_parts in Hex. contradiction.
  - change (-3)%Z with (- Z.of_nat 3)%Z. change (-1)%Z with (- Z.of_nat 1)%Z.
    rewrite !parts_at_from_last.
    destruct (from_last 1 _); [|reflexivity].
    destruct (from_last 3 _); reflexivity.
Qed.

Lemma split_run_scoped_url : forall prefix org ws run : string,
  no_slash org -> no_slash ws -> no_slash run ->
  PyStr.split "/" (run_scoped_url prefix org ws run)
  = PyStr.split "/" prefix
    ++ ["organizations"; org; "workspaces"; ws; "runs"; run].
Proof.
  intros prefix org ws run Horg Hws Hrun. unfold run_scoped_url.
  change (prefix ++ "/organizations/" ++ org ++ "/workspaces/" ++ ws
          ++ "/runs/" ++ run)%string
    with (prefix ++ String "/" ("organizations" ++ String "/"
            (org ++ String "/" ("workspaces" ++ String "/"
               (ws ++ String "/" ("runs" ++ String "/" run))))))%string.
  rewrite !split_app.
  rewrite (split_no_sep "/" org Horg), (split_no_sep "/" ws Hws),
    (split_no_sep "/" run Hrun).
  reflexivity.
Qed.

Lemma split_workspace_scoped_url : forall prefix org ws : string,
  no_slash org -> no_slash ws ->
  PyStr.split "/" (workspace_scoped_url prefix org ws)
  = PyStr.split "/" prefix ++ ["organizations"; org; "workspaces"; ws].
Proof.
  intros prefix org ws Horg Hws. unfold workspace_scoped_url.
  change (prefix ++ "/organizations/" ++ org ++ "/workspaces/" ++ ws)%string
    with (prefix ++ String "/" ("organizations" ++ String "/"
            (org ++ String "/" ("workspaces" ++ String "/" ws))))%string.
  rewrite !split_app.
  rewrite (split_no_sep "/" org Horg), (split_no_sep "/" ws Hws).
  reflexivity.
Qed.

(** C5.  With [parts] the segments of the input split on ['/']: when
    [runs] is one of them the resolver returns (3rd-from-last,
    5th-from-last, last) and otherwise (last, 3rd-from-last, None), and it
    raises IndexError when a position is missing.  A run-scoped URL
    [.../organizations/ORG/workspaces/WS/runs/RUN] gives [(WS, ORG, RUN)];
    a workspace-scoped URL [.../organizations/ORG/workspaces/WS], none of
    whose segments is [runs], gives [(WS, ORG, None)]. *)
Theorem get_workspace_id_from_url_positions :
  forall url : string,
    let parts := PyStr.split "/" url in
    (In "runs" parts ->
     get_workspace_id_from_url url
     = match from_last 3 parts, from_last 5 parts, from_last 1 parts with
       | Some ws, Some org, Some run => Ok (ws, org, Some run)
       | _, _, _ => Raise index_error
       end)
    /\ (~ In "runs" parts ->
        get_workspace_id_from_url url
        = match from_last 1 parts, from_last 3 parts with
          | Some ws, Some org => Ok (ws, org, None)
          | _, _ => Raise index_error
          end)
    /\ (forall prefix org ws run : string,
          no_slash org -> no_slash ws -> no_slash run ->
          url = run_scoped_url prefix org ws run ->
          get_workspace_id_from_url url = Ok (ws, org, Some run))
    /\ (forall prefix org ws : string,
          no_slash org -> no_slash ws ->
          ~ In "runs" (PyStr.split "/" prefix) ->
          org <> "runs" -> ws <> "runs" ->
          url = workspace_scoped_url prefix org ws ->
          get_workspace_id_from_url url = Ok (ws, org, None)).
Proof.
  intros url parts. split; [|split; [|split]].
  - apply resolver_with_runs.
  - apply resolver_without_runs.
  - intros prefix org ws run Horg Hws Hrun ->.
    rewrite resolver_with_runs;
      rewrite (split_run_scoped_url prefix org ws run Horg Hws Hrun).
    + unfold from_last. rewrite rev_app_distr. reflexivity.
    + apply in_or_app. right. simpl. tauto.
  - intros prefix org ws Horg Hws Hprefix Horg' Hws' ->.
    rewrite resolver_without_runs;
      rewrite (split_workspace_scoped_url prefix org ws Horg Hws).
    + unfold from_last. rewrite rev_app_distr. reflexivity.
    + intros Hin. apply in_app_or in Hin. destruct Hin as [Hin|Hin].
      * contradiction.
      * simpl in Hin.
        destruct Hin as [H|[H|[H|[H|[]]]]];
          try discriminate; congruence.
Qed.

Lemma get_workspace_id_from_url_positions_witness :
  get_workspace_id_from_url
    "https://app.terraform.io/app/organizations/acme/workspaces/net/runs/run-1"
  = Ok ("net", "acme", Some "run-1")
  /\ get_workspace_id_from_url
       "https://app.terraform.io/app/organizations/acme/workspaces/net"
     = Ok ("net", "acme", None).
Proof.
  split.
  - apply (proj1 (proj2 (proj2 (get_workspace_id_from_url_positions _)))
             "https://app.terraform.io/app" "acme" "net" "run-1");
      reflexivity.
  - apply (proj2 (proj2 (proj2 (get_workspace_id_from_url_positions _)))
             "https://app.terraform.io/app" "acme" "net");
      try reflexivity; try discriminate.
    vm_compute. intros [H|[H|[H|[H|[]]]]]; discriminate.
Defined.

(** C8, as stated, fails: the resolver returns without error and without
    run id, and the organization (first URL) or the workspace (second URL)
    is the empty string. *)
Lemma resolver_returns_empty_names :
  get_workspace_id_from_url "https://host/ws" = Ok ("ws", EmptyString, None)
  /\ get_workspace_id_from_url "acme/workspaces/"
     = Ok (EmptyString, "acme", None).
Proof. split; reflexivity. Qed.

(** C8, amended.  When the resolver returns without run id, no segment of
    the URL is [runs], the workspace is the last segment and the
    organization the third-from-last one; they are non-empty when those two
    segments are, in particular for a URL [.../ORG/MID/WS] whose [ORG] and
    [WS] are non-empty. *)
Theorem resolver_names_are_segments :
  forall (url ws org : string),
    get_workspace_id_from_url url = Ok (ws, org, None) ->
    let parts := PyStr.split "/" url in
    ~ In "runs" parts
    /\ from_last 1 parts = Some ws
    /\ from_last 3 parts = Some org
    /\ (forall prefix o mid x : string,
          no_slash o -> no_slash mid -> no_slash x ->
          url = (prefix ++ "/" ++ o ++ "/" ++ mid ++ "/" ++ x)%string ->
          o <> EmptyString -> x <> EmptyString ->
          ws = x /\ org = o /\ ws <> EmptyString /\ org <> EmptyString).
Proof.
  intros url ws org Hget parts.
  assert (Hruns : ~ In "runs" parts).
  { intros Hin. rewrite (resolver_with_runs url Hin) in Hget.
    destruct (from_last 3 _); [|discriminate].
    destruct (from_last 5 _); [|discriminate].
    destruct (from_last 1 _); discriminate. }
  rewrite (resolver_without_runs url Hruns) in Hget. fold parts in Hget.
  destruct (from_last 1 parts) as [ws'|] eqn:H1; [|discriminate].
  destruct (from_last 3 parts) as [org'|] eqn:H3; [|discriminate].
  inversion Hget; subst ws' org'.
  repeat split; try assumption.
  all: intros; subst url; unfold parts in H1, H3;
    change (prefix ++ "/" ++ o ++ "/" ++ mid ++ "/" ++ x)%string
      with (prefix ++ String "/" (o ++ String "/" (mid ++ String "/" x)))%string
      in H1, H3;
    rewrite !split_app in H1, H3;
    rewrite (split_no_sep "/" o), (split_no_sep "/" mid),
      (split_no_sep "/" x) in H1, H3 by assumption;
    unfold from_last in H1, H3; rewrite rev_app_distr in H1, H3;
    simpl in H1, H3; congruence.
Qed.

Lemma resolver_names_are_segments_witness :
  from_last 3 (PyStr.split "/" "https://host/ws") = Some EmptyString.
Proof.
  apply (resolver_names_are_segments "https://host/ws" "ws" EmptyString).
  reflexivity.
Defined.

(** ** The run diagnoser *)

Ltac run :=
  unfold raise_for_status, requests_get, try_except, bind, lift, raise, ret;
  cbn beta iota.

(** One step along the code: rewrite with an equation and reduce. *)
Tactic Notation "follow" constr(H) := rewrite H; cbn beta iota.

Lemma has_sub_getitem : forall (rel : string) (run : json) (b : bool),
  has_sub rel run = Ok b ->
  exists rels, Py.getitem run "relationships" = Ok rels
               /\ Py.contains rel rels = Ok b.
Proof.
  intros rel run b H. unfold has_sub in H.
  destruct (Py.getitem run "relationships") as [rels|e]; [|discriminate].
  exists rels. split; [reflexivity | exact H].
Qed.

Lemma sub_id_of_getitem : forall (rel : string) (run rels sub_id : json),
  Py.getitem run "relationships" = Ok rels ->
  sub_id_of rel run = Ok sub_id ->
  rbind (Py.getitem rels rel) (fun r =>
  rbind (Py.getitem r "data") (fun d => Py.getitem d "id")) = Ok sub_id.
Proof.
  intros rel run rels sub_id Hrels H. unfold sub_id_of in H.
  now rewrite Hrels in H.
Qed.

Lemma check_sub_resource_yields :
  forall w rel ep label headers run t found t',
  yields w rel ep headers run t found t' ->
  check_sub_resource w rel ep label headers run t
  = (Ok (match found with
         | Some lines => Returned (label ++ PyStr.nl ++ lines)%string
         | None => FellThrough
         end), t').
Proof.
  intros w rel ep label headers run t found t' H.
  unfold check_sub_resource.
  destruct H as [Hhas
                |sub_id r details url Hhas Hid [Hget Hok] Hjson Hurl Htruthy
                |sub_id r details url lr Hhas Hid [Hget Hok] Hjson Hurl Htruthy
                   [Hlget Hlok] Hlines
                |sub_id r details url lr Hhas Hid [Hget Hok] Hjson Hurl Htruthy
                   [Hlget Hlok] Hlines];
    destruct (has_sub_getitem _ _ _ Hhas) as [rels [Hrels Hin]];
    try pose proof (sub_id_of_getitem _ _ _ _ Hrels Hid) as Hid';
    run; follow Hrels; follow Hin; try reflexivity;
    follow Hid'; follow Hget; follow Hok; follow Hjson; follow Hurl;
    follow Htruthy; try reflexivity;
    follow Hlget; follow Hlok; unfold default_context_lines.
  - rewrite Hlines. now rewrite <- app_assoc.
  - destruct (extract_error_with_context (resp_text lr) 5) eqn:Hx;
      [congruence|]. cbn [PyStr.truthy]. now rewrite <- app_assoc.
Qed.

Lemma check_sub_resource_fetch_fails :
  forall w rel ep label headers run t t',
  fetch_fails w rel ep headers run t t' ->
  exists e, check_sub_resource w rel ep label headers run t = (Raise e, t').
Proof.
  intros w rel ep label headers run t t' H.
  unfold check_sub_resource.
  destruct H as [sub_id Hhas Hid Hfail
                |sub_id r details url Hhas Hid [Hget Hok] Hjson Hurl Htruthy
                   Hfail];
    destruct (has_sub_getitem _ _ _ Hhas) as [rels [Hrels Hin]];
    pose proof (sub_id_of_getitem _ _ _ _ Hrels Hid) as Hid';
    run; follow Hrels; follow Hin; follow Hid'.
  - destruct Hfail as [[e He]|[r [msg [Hr Hmsg]]]].
    + follow He. now exists e.
    + follow Hr. follow Hmsg. now eexists.
  - follow Hget. follow Hok. follow Hjson. follow Hurl. follow Htruthy.
    destruct Hfail as [[e He]|[lr [msg [Hr Hmsg]]]].
    + follow He. exists e. now rewrite <- app_assoc.
    + follow Hr. follow Hmsg. eexists. now rewrite <- app_assoc.
Qed.

(** ** The calls a computation makes *)

Section Calls.

Variable P : call -> bool.

Lemma calls_ret : forall (A : Type) (a : A), calls_satisfy P (ret a).
Proof.
  intros A a t r t' H. inversion H. exists []. now rewrite app_nil_r.
Qed.

Lemma calls_raise : forall (A : Type) (e : exn), calls_satisfy P (@raise A e).
Proof.
  intros A e t r t' H. inversion H. exists []. now rewrite app_nil_r.
Qed.

Lemma calls_lift : forall (A : Type) (x : result A), calls_satisfy P (lift x).
Proof.
  intros A x t r t' H. inversion H. exists []. now rewrite app_nil_r.
Qed.

Lemma calls_bind : forall (A B : Type) (m : M A) (k : A -> M B),
  calls_satisfy P m -> (forall a, calls_satisfy P (k a)) ->
  calls_satisfy P (bind m k).
Proof.
  intros A B m k Hm Hk t r t' H. unfold bind in H.
  destruct (m t) as [[a|e] t1] eqn:Hmt.
  - destruct (Hm _ _ _ Hmt) as [cs1 [-> H1]].
    destruct (Hk a _ _ _ H) as [cs2 [-> H2]].
    exists (cs1 ++ cs2). rewrite app_assoc, forallb_app, H1, H2. now split.
  - inversion H; subst. exact (Hm _ _ _ Hmt).
Qed.

Lemma calls_try_except : forall (A : Type) (m : M A) (h : exn -> M A),
  calls_satisfy P m -> (forall e, calls_satisfy P (h e)) ->
  calls_satisfy P (try_except m h).
Proof.
  intros A m h Hm Hh t r t' H. unfold try_except in H.
  destruct (m t) as [[a|e] t1] eqn:Hmt.
  - inversion H; subst. exact (Hm _ _ _ Hmt).
  - destruct (Hm _ _ _ Hmt) as [cs1 [-> H1]].
    destruct (Hh e _ _ _ H) as [cs2 [-> H2]].
    exists (cs1 ++ cs2). rewrite app_assoc, forallb_app, H1, H2. now split.
Qed.

Lemma calls_requests_get : forall w e bearer,
  P (CHttp (Get e bearer)) = true ->
  calls_satisfy P (requests_get w e bearer).
Proof.
  intros w e bearer HP t r t' H. unfold requests_get in H. inversion H.
  exists [CHttp (Get e bearer)]. split; [reflexivity|].
  simpl. now rewrite HP.
Qed.

Lemma calls_raise_for_status : forall r,
  calls_satisfy P (raise_for_status r).
Proof.
  intros r. unfold raise_for_status.
  destruct (resp_error r); [apply calls_raise | apply calls_ret].
Qed.

End Calls.

Ltac calls :=
  repeat first
    [ apply calls_ret | apply calls_raise | apply calls_lift
    | apply calls_raise_for_status
    | apply calls_bind; [|intros ?]
    | apply calls_try_except; [|intros ?]
    | apply calls_requests_get; reflexivity
    | match goal with
      | |- calls_satisfy _ (if ?b then _ else _) => destruct b
      | |- calls_satisfy _ (match ?x with _ => _ end) => destruct x
      end ].

Lemma check_sub_resource_calls :
  forall (P : call -> bool) w rel ep label headers run,
  (forall sub_id, P (CHttp (Get (ep sub_id) headers)) = true) ->
  (forall url, P (CHttp (Get (LogReadUrl url) None)) = true) ->
  calls_satisfy P (check_sub_resource w rel ep label headers run).
Proof.
  intros P w rel ep label headers run Hep Hlog. unfold check_sub_resource.
  apply calls_bind; [calls|intros relationships].
  apply calls_bind; [calls|intros [|]]; [|calls].
  apply calls_bind; [calls|intros sub_id].
  apply calls_bind; [apply calls_requests_get, Hep|intros sub_response].
  apply calls_bind; [calls|intros _].
  apply calls_bind; [calls|intros details].
  apply calls_bind; [calls|intros url].
  destruct (Py.truthy url); [|calls].
  apply calls_bind; [apply calls_requests_get, Hlog|intros log_response].
  calls.
Qed.

Lemma check_plan_then_apply_calls : forall w headers run,
  calls_satisfy is_sub_resource_call (check_plan_then_apply w headers run).
Proof.
  intros w headers run. unfold check_plan_then_apply.
  apply calls_try_except; [|intros e; calls].
  apply calls_bind.
  - apply check_sub_resource_calls; reflexivity.
  - intros [s|]; [calls|]. apply check_sub_resource_calls; reflexivity.
Qed.

Lemma locate_run_calls : forall w ws org headers rid,
  calls_satisfy is_locator_call (locate_run w ws org headers rid).
Proof.
  intros w ws org headers rid. unfold locate_run. calls.
Qed.

Lemma calls_weaken : forall (A : Type) (P Q : call -> bool) (m : M A),
  (forall c, P c = true -> Q c = true) ->
  calls_satisfy P m -> calls_satisfy Q m.
Proof.
  intros A P Q m HPQ Hm t r t' H.
  destruct (Hm _ _ _ H) as [cs [-> Hcs]]. exists cs. split; [reflexivity|].
  rewrite forallb_forall in *. auto.
Qed.

Lemma get_latest_run_error_calls : forall w ws org token rid,
  calls_satisfy is_platform_call (get_latest_run_error w ws org token rid).
Proof.
  intros w ws org token rid. unfold get_latest_run_error.
  apply calls_bind.
  - apply (calls_weaken _ is_locator_call); [|apply locate_run_calls].
    intros c Hc. unfold is_locator_call in Hc.
    now apply andb_true_iff in Hc.
  - intros [s|run]; [calls|]. unfold diagnose_run.
    apply calls_bind; [calls|intros status].
    apply calls_bind; [calls|intros _].
    apply calls_bind; [|intros [s|]; calls].
    destruct (Py.eq_str status "errored"); [|calls].
    apply (calls_weaken _ is_sub_resource_call);
      [|apply check_plan_then_apply_calls].
    intros [[[] ?]| | |]; simpl; congruence.
Qed.

Lemma check_plan_then_apply_total : forall w headers run t,
  exists e t', check_plan_then_apply w headers run t = (Ok e, t').
Proof.
  intros w headers run t. unfold check_plan_then_apply, try_except.
  match goal with |- context [match ?m t with _ => _ end] =>
    destruct (m t) as [[e|x] t'] end.
  - now exists e, t'.
  - now exists FellThrough, t'.
Qed.

Lemma diagnose_run_errored : forall w headers run id t,
  status_of run = Ok (JStr "errored") ->
  Py.getitem run "id" = Ok id ->
  diagnose_run w headers run t
  = match check_plan_then_apply w headers run t with
    | (Ok (Returned s), t') => (Ok s, t')
    | (Ok FellThrough, t') => (Ok no_errors_found, t')
    | (Raise e, t') => (Raise e, t')
    end.
Proof.
  intros w headers run id t Hstatus Hid. unfold diagnose_run, status_of in *.
  run. follow Hstatus. follow Hid.
  change (Py.eq_str (JStr "errored") "errored") with true. cbn beta iota.
  destruct (check_plan_then_apply w headers run t) as [[[s|]|e] t'];
    reflexivity.
Qed.

Lemma diagnose_run_not_errored : forall w headers run status id t,
  status_of run = Ok status ->
  Py.eq_str status "errored" = false ->
  Py.getitem run "id" = Ok id ->
  diagnose_run w headers run t = (Ok no_errors_found, t).
Proof.
  intros w headers run status id t Hstatus Hne Hid.
  unfold diagnose_run, status_of in *.
  run. follow Hstatus. follow Hid. follow Hne. reflexivity.
Qed.

Lemma get_latest_run_error_located : forall w ws org token rid t0 t1 run,
  locate_run w ws org (Some token) rid t0 = (Ok (inr run), t1) ->
  get_latest_run_error w ws org token rid t0
  = diagnose_run w (Some token) run t1.
Proof.
  intros w ws org token rid t0 t1 run H. unfold get_latest_run_error, bind.
  now rewrite H.
Qed.

Lemma yields_some_trace : forall w rel ep headers run t lines t',
  yields w rel ep headers run t (Some lines) t' ->
  exists sub_id url,
    t' = t ++ [CHttp (Get (ep sub_id) headers);
               CHttp (Get (LogReadUrl url) None)].
Proof.
  intros w rel ep headers run t lines t' H. inversion H; subst.
  now exists sub_id, url.
Qed.

(** C1.  For a located run whose status is [errored]: when the plan's log
    yields extracted lines, the result is [Plan Error:], a newline and the
    lines, and the only calls made after the run was located are the GET of
    the plan and the GET of its log, so the apply and its log are not
    fetched; when the plan yields nothing (no plan relationship, no
    log-read-url, or an empty extraction) and the apply's log yields lines,
    the result is [Apply Error:], a newline and the lines. *)
Theorem plan_is_checked_before_apply :
  forall w ws org token rid t0 t1 run id,
    locate_run w ws org (Some token) rid t0 = (Ok (inr run), t1) ->
    status_of run = Ok (JStr "errored") ->
    Py.getitem run "id" = Ok id ->
    (forall lines t2,
        yields w "plan" PlanById (Some token) run t1 (Some lines) t2 ->
        get_latest_run_error w ws org token rid t0
        = (Ok ("Plan Error:" ++ PyStr.nl ++ lines)%string, t2)
        /\ exists plan_id url,
            t2 = t1 ++ [CHttp (Get (PlanById plan_id) (Some token));
                        CHttp (Get (LogReadUrl url) None)])
    /\ (forall lines t2 t3,
          yields w "plan" PlanById (Some token) run t1 None t2 ->
          yields w "apply" ApplyById (Some token) run t2 (Some lines) t3 ->
          get_latest_run_error w ws org token rid t0
          = (Ok ("Apply Error:" ++ PyStr.nl ++ lines)%string, t3)).
Proof.
  intros w ws org token rid t0 t1 run id Hloc Hstatus Hid.
  rewrite (get_latest_run_error_located _ _ _ _ _ _ _ _ Hloc).
  rewrite (diagnose_run_errored _ _ _ _ _ Hstatus Hid).
  unfold check_plan_then_apply, try_except, bind. split.
  - intros lines t2 Hplan. split.
    + rewrite (check_sub_resource_yields _ _ _ "Plan Error:" _ _ _ _ _ Hplan).
      reflexivity.
    + exact (yields_some_trace _ _ _ _ _ _ _ _ Hplan).
  - intros lines t2 t3 Hplan Happly.
    rewrite (check_sub_resource_yields _ _ _ "Plan Error:" _ _ _ _ _ Hplan).
    rewrite (check_sub_resource_yields _ _ _ "Apply Error:" _ _ _ _ _ Happly).
    reflexivity.
Qed.

Lemma plan_is_checked_before_apply_witness :
  get_latest_run_error
    (sample_world "errored" [] plan_ok "Error: boom" "Error: late")
    "net" "acme" sample_token (Some "run-1") []
  = (Ok ("Plan Error:" ++ PyStr.nl ++ "Error: boom" ++ PyStr.nl)%string,
     [CHttp (Get (RunById "run-1") (Some sample_token));
      CHttp (Get (PlanById (JStr "plan-1")) (Some sample_token));
      CHttp (Get (LogReadUrl (JStr "https://archivist.example/plan")) None)])
  /\ get_latest_run_error
       (sample_world "errored" [] plan_ok "Plan: 1 to add" "Error: late")
       "net" "acme" sample_token (Some "run-1") []
     = (Ok ("Apply Error:" ++ PyStr.nl ++ "Error: late" ++ PyStr.nl)%string,
        [CHttp (Get (RunById "run-1") (Some sample_token));
         CHttp (Get (PlanById (JStr "plan-1")) (Some sample_token));
         CHttp (Get (LogReadUrl (JStr "https://archivist.example/plan")) None);
         CHttp (Get (ApplyById (JStr "apply-1")) (Some sample_token));
         CHttp (Get (LogReadUrl (JStr "https://archivist.example/apply")) None)]).
Proof.
  split.
  - refine (proj1 (proj1 (plan_is_checked_before_apply
              (sample_world "errored" [] plan_ok "Error: boom" "Error: late")
              "net" "acme" sample_token (Some "run-1") []
              [CHttp (Get (RunById "run-1") (Some sample_token))]
              (sample_run "errored") (JStr "run-1")
              eq_refl eq_refl eq_refl)
              (extract_error_with_context "Error: boom" 5)
              ([CHttp (Get (RunById "run-1") (Some sample_token))]
               ++ [CHttp (Get (PlanById (JStr "plan-1")) (Some sample_token));
                   CHttp (Get (LogReadUrl
                                 (JStr "https://archivist.example/plan")) None)])
              _)).
    eapply (yields_lines _ _ _ _ _ _ (JStr "plan-1") plan_ok
              (sub_details "https://archivist.example/plan")
              (JStr "https://archivist.example/plan")
              (text_response "Error: boom"));
      try reflexivity; try (split; reflexivity).
    vm_compute. discriminate.
  - refine (proj2 (plan_is_checked_before_apply
              (sample_world "errored" [] plan_ok "Plan: 1 to add" "Error: late")
              "net" "acme" sample_token (Some "run-1") []
              [CHttp (Get (RunById "run-1") (Some sample_token))]
              (sample_run "errored") (JStr "run-1")
              eq_refl eq_refl eq_refl)
              (extract_error_with_context "Error: late" 5)
              ([CHttp (Get (RunById "run-1") (Some sample_token))]
               ++ [CHttp (Get (PlanById (JStr "plan-1")) (Some sample_token));
                   CHttp (Get (LogReadUrl
                                 (JStr "https://archivist.example/plan")) None)])
              (([CHttp (Get (RunById "run-1") (Some sample_token))]
                ++ [CHttp (Get (PlanById (JStr "plan-1")) (Some sample_token));
                    CHttp (Get (LogReadUrl
                                  (JStr "https://archivist.example/plan")) None)])
               ++ [CHttp (Get (ApplyById (JStr "apply-1")) (Some sample_token));
                   CHttp (Get (LogReadUrl
                                 (JStr "https://archivist.example/apply")) None)])
              _ _).
    + eapply (yields_empty_extraction _ _ _ _ _ _ (JStr "plan-1") plan_ok
                (sub_details "https://archivist.example/plan")
                (JStr "https://archivist.example/plan")
                (text_response "Plan: 1 to add"));
        try reflexivity; split; reflexivity.
    + eapply (yields_lines _ _ _ _ _ _ (JStr "apply-1")
                (json_response (sub_details "https://archivist.example/apply"))
                (sub_details "https://archivist.example/apply")
                (JStr "https://archivist.example/apply")
                (text_response "Error: late"));
        try reflexivity; try (split; reflexivity).
      vm_compute. discriminate.
Defined.

(** C2, as stated, fails: the GET of the plan ends in an HTTP error, the
    apply probed after it would yield error lines, and the result is the
    sentinel, after the GET of the run and the GET of the plan only. *)
Lemma plan_http_error_skips_apply :
  let w := sample_world "errored" [] (error_response "500 Server Error")
                        EmptyString "Error: late" in
  let c_run := CHttp (Get (RunById "run-1") (Some sample_token)) in
  let c_plan := CHttp (Get (PlanById (JStr "plan-1")) (Some sample_token)) in
  fetch_fails w "plan" PlanById (Some sample_token) (sample_run "errored")
              [c_run] ([c_run] ++ [c_plan])
  /\ (exists t3,
        yields w "apply" ApplyById (Some sample_token) (sample_run "errored")
               [c_run; c_plan]
               (Some ("Error: late" ++ PyStr.nl)%string) t3)
  /\ get_latest_run_error w "net" "acme" sample_token (Some "run-1") []
     = (Ok no_errors_found, [c_run; c_plan])
  /\ no_errors_found
     <> ("Apply Error:" ++ PyStr.nl ++ "Error: late" ++ PyStr.nl)%string.
Proof.
  intros w c_run c_plan. repeat split.
  - apply (fetch_fails_details w "plan" PlanById (Some sample_token)
             (sample_run "errored") [c_run] (JStr "plan-1"));
      try reflexivity.
    right. exists (error_response "500 Server Error"), "500 Server Error".
    split; reflexivity.
  - exists ([c_run; c_plan]
            ++ [CHttp (Get (ApplyById (JStr "apply-1")) (Some sample_token));
                CHttp (Get (LogReadUrl
                              (JStr "https://archivist.example/apply")) None)]).
    change (Some ("Error: late" ++ PyStr.nl)%string)
      with (Some (extract_error_with_context
                    (resp_text (text_response "Error: late")) 5)).
    eapply (yields_lines _ _ _ _ _ _ (JStr "apply-1")
              (json_response (sub_details "https://archivist.example/apply"))
              (sub_details "https://archivist.example/apply")
              (JStr "https://archivist.example/apply")
              (text_response "Error: late"));
      try reflexivity; try (split; reflexivity).
    vm_compute. discriminate.
  - vm_compute. discriminate.
Qed.

(** C2, amended.  For a located run whose status is [errored] the run
    diagnoser does not raise; an HTTP failure while fetching the plan or
    its log is caught and ends the probing: the result is the sentinel and
    no call to the apply endpoint has been made. *)
Theorem plan_fetch_failure_gives_sentinel :
  forall w ws org token rid t0 t1 run id,
    locate_run w ws org (Some token) rid t0 = (Ok (inr run), t1) ->
    status_of run = Ok (JStr "errored") ->
    Py.getitem run "id" = Ok id ->
    (exists s t2,
        get_latest_run_error w ws org token rid t0 = (Ok s, t2))
    /\ (forall t2,
          fetch_fails w "plan" PlanById (Some token) run t1 t2 ->
          get_latest_run_error w ws org token rid t0
          = (Ok no_errors_found, t2)
          /\ exists cs, t2 = t1 ++ cs
                        /\ forallb (fun c => negb (is_apply_call c)) cs = true).
Proof.
  intros w ws org token rid t0 t1 run id Hloc Hstatus Hid.
  rewrite (get_latest_run_error_located _ _ _ _ _ _ _ _ Hloc).
  rewrite (diagnose_run_errored _ _ _ _ _ Hstatus Hid). split.
  - destruct (check_plan_then_apply_total w (Some token) run t1)
      as [[s|] [t2 H]]; rewrite H; eexists; eexists; reflexivity.
  - intros t2 Hfail. split.
    + unfold check_plan_then_apply, try_except, bind.
      destruct (check_sub_resource_fetch_fails _ _ _ "Plan Error:" _ _ _ _ Hfail)
        as [e He].
      now rewrite He.
    + inversion Hfail; subst; eexists; split; reflexivity.
Qed.

Lemma plan_fetch_failure_gives_sentinel_witness :
  get_latest_run_error
    (sample_world "errored" [] (error_response "500 Server Error")
                  EmptyString "Error: late")
    "net" "acme" sample_token (Some "run-1") []
  = (Ok no_errors_found,
     [CHttp (Get (RunById "run-1") (Some sample_token));
      CHttp (Get (PlanById (JStr "plan-1")) (Some sample_token))]).
Proof.
  refine (proj1 (proj2 (plan_fetch_failure_gives_sentinel
            (sample_world "errored" [] (error_response "500 Server Error")
                          EmptyString "Error: late")
            "net" "acme" sample_token (Some "run-1") []
            [CHttp (Get (RunById "run-1") (Some sample_token))]
            (sample_run "errored") (JStr "run-1")
            eq_refl eq_refl eq_refl)
            ([CHttp (Get (RunById "run-1") (Some sample_token))]
             ++ [CHttp (Get (PlanById (JStr "plan-1")) (Some sample_token))])
            _)).
  apply (fetch_fails_details _ "plan" PlanById (Some sample_token)
           (sample_run "errored") _ (JStr "plan-1"));
    try reflexivity.
  right. exists (error_response "500 Server Error"), "500 Server Error".
  split; reflexivity.
Defined.

(** C6, as stated, fails: the workspace has no run, and the result is not
    the "no errors found" sentinel but the text of line 107. *)
Lemma no_run_found_is_another_text :
  get_latest_run_error (sample_world "errored" [] plan_ok EmptyString EmptyString)
                       "net" "acme" sample_token None []
  = (Ok "No runs found for the workspace.",
     [CHttp (Get (WorkspaceByName "acme" "net") (Some sample_token));
      CHttp (Get (WorkspaceRuns (JStr "ws-1")) (Some sample_token))])
  /\ "No runs found for the workspace."
     <> "No errors found in the latest run's plan or apply output.".
Proof. split; [reflexivity | discriminate]. Qed.

(** C6, amended.  When the located run's status is not [errored] the
    result is the "no errors found" sentinel, and no call is made after the
    run was located; the calls that located it are no plan, apply or log
    fetch.  This holds for the status [planning].  When no run was found
    (the runs of the workspace are an empty list) the result is
    [No runs found for the workspace.] instead. *)
Theorem sentinel_when_not_errored :
  forall w ws org token rid t0,
    (forall t1 run status id,
        locate_run w ws org (Some token) rid t0 = (Ok (inr run), t1) ->
        status_of run = Ok status ->
        Py.eq_str status "errored" = false ->
        Py.getitem run "id" = Ok id ->
        get_latest_run_error w ws org token rid t0
        = (Ok "No errors found in the latest run's plan or apply output.", t1)
        /\ exists cs,
            t1 = t0 ++ cs
            /\ forallb (fun c => negb (is_sub_resource_call c)) cs = true)
    /\ Py.eq_str (JStr "planning") "errored" = false
    /\ (forall wr workspace_id rr,
          match rid with Some r => PyStr.truthy r | None => false end = false ->
          answers w t0 (Get (WorkspaceByName org ws) (Some token)) wr ->
          rbind (resp_json wr) (fun j =>
          rbind (Py.getitem j "data") (fun d => Py.getitem d "id"))
          = Ok workspace_id ->
          answers w (t0 ++ [CHttp (Get (WorkspaceByName org ws) (Some token))])
                  (Get (WorkspaceRuns workspace_id) (Some token)) rr ->
          rbind (resp_json rr) (fun j => Py.getitem j "data") = Ok (JArr []) ->
          get_latest_run_error w ws org token rid t0
          = (Ok "No runs found for the workspace.",
             t0 ++ [CHttp (Get (WorkspaceByName org ws) (Some token));
                    CHttp (Get (WorkspaceRuns workspace_id) (Some token))])).
Proof.
  intros w ws org token rid t0. split; [|split; [reflexivity|]].
  - intros t1 run status id Hloc Hstatus Hne Hid. split.
    + rewrite (get_latest_run_error_located _ _ _ _ _ _ _ _ Hloc).
      exact (diagnose_run_not_errored _ _ _ _ _ _ Hstatus Hne Hid).
    + destruct (locate_run_calls _ _ _ _ _ _ _ _ Hloc) as [cs [-> Hcs]].
      exists cs. split; [reflexivity|].
      rewrite forallb_forall in *. intros c Hc. specialize (Hcs c Hc).
      unfold is_locator_call in Hcs. now apply andb_true_iff in Hcs.
  - intros wr workspace_id rr Hrid [Hwget Hwok] Hwid [Hrget Hrok] Hdata.
    unfold get_latest_run_error, locate_run. rewrite Hrid. run.
    follow Hwget. follow Hwok. follow Hwid. follow Hrget. follow Hrok.
    follow Hdata. now rewrite <- app_assoc.
Qed.

Lemma sentinel_when_not_errored_witness :
  get_latest_run_error
    (sample_world "planning" [] plan_ok "Error: boom" "Error: late")
    "net" "acme" sample_token (Some "run-1") []
  = (Ok "No errors found in the latest run's plan or apply output.",
     [CHttp (Get (RunById "run-1") (Some sample_token))])
  /\ get_latest_run_error
       (sample_world "errored" [] plan_ok EmptyString EmptyString)
       "net" "acme" sample_token None []
     = (Ok "No runs found for the workspace.",
        [] ++ [CHttp (Get (WorkspaceByName "acme" "net") (Some sample_token));
               CHttp (Get (WorkspaceRuns (JStr "ws-1")) (Some sample_token))]).
Proof.
  split.
  - refine (proj1 (proj1 (sentinel_when_not_errored
              (sample_world "planning" [] plan_ok "Error: boom" "Error: late")
              "net" "acme" sample_token (Some "run-1") [])
              [CHttp (Get (RunById "run-1") (Some sample_token))]
              (sample_run "planning") (JStr "planning") (JStr "run-1")
              eq_refl eq_refl eq_refl eq_refl)).
  - refine (proj2 (proj2 (sentinel_when_not_errored
              (sample_world "errored" [] plan_ok EmptyString EmptyString)
              "net" "acme" sample_token None []))
              (json_response (JObj [("data", JObj [("id", JStr "ws-1")])]))
              (JStr "ws-1")
              (json_response (JObj [("data", JArr [])]))
              eq_refl (conj eq_refl eq_refl) eq_refl
              (conj eq_refl eq_refl) eq_refl).
Defined.

(** ** The diagnosis request handler *)

Lemma get_is_dict : forall (x : json) (k : string) (d v : json),
  Py.get x k d = Ok v -> exists kvs, x = JObj kvs.
Proof.
  intros x k d v H. destruct x; try discriminate. now eexists.
Qed.

Lemma lambda_handler_without_repo_url :
  forall w js tsn vsn event r,
    Py.get event "repo_url" JNull = Ok r ->
    Py.truthy r = false ->
    forall t, lambda_handler w js tsn vsn event t
              = diagnosis_path w js tsn event t.
Proof.
  intros w js tsn vsn event r Hget Hfalsy t.
  destruct (get_is_dict _ _ _ _ Hget) as [kvs ->].
  unfold lambda_handler, diagnosis_path, success_response, try_except, bind, lift.
  rewrite Hget. cbn beta iota.
  assert (Hbranch : exists b, Py.get (JObj kvs) "branch_name" (JStr "main") = Ok b).
  { unfold Py.get. destruct (Py.lookup "branch_name" kvs); now eexists. }
  destruct Hbranch as [b ->]. cbn beta iota.
  destruct (Py.getitem (JObj kvs) "workspace_url") as [url|e];
    [|reflexivity].
  rewrite Hfalsy. reflexivity.
Qed.

Lemma get_secret_trace : forall w js name t r t',
  get_secret w js name t = (r, t') -> t' = t ++ [CSecret name].
Proof.
  intros w js name t r t' H. unfold get_secret, bind, lift, raise in H.
  destruct (get_secret_value w t name) as [[s|]|e]; now inversion H.
Qed.

Lemma diagnosis_path_calls : forall w js tsn event t,
  exists resp cs,
    diagnosis_path w js tsn event t = (Ok resp, t ++ cs)
    /\ (cs = []
        \/ exists cs', cs = CSecret tsn :: cs'
                       /\ forallb is_platform_call cs' = true).
Proof.
  intros w js tsn event t. unfold diagnosis_path, try_except, bind, lift.
  destruct (Py.getitem event "workspace_url") as [workspace_url|e].
  2:{ eexists. exists []. rewrite app_nil_r. split; [reflexivity | now left]. }
  destruct (get_secret w js tsn t) as [[secret|e] t1] eqn:Hsecret;
    apply get_secret_trace in Hsecret; subst t1.
  2:{ eexists. exists [CSecret tsn]. split; [reflexivity|].
      right. now exists []. }
  destruct (Py.getitem secret "tfe_api_token") as [token|e].
  2:{ eexists. exists [CSecret tsn]. split; [reflexivity|].
      right. now exists []. }
  match goal with
  | |- context [match ?x with Ok _ => _ | Raise _ => _ end] =>
      destruct x as [[[ws org] rid]|e] eqn:Hids
  end.
  2:{ eexists. exists [CSecret tsn]. split; [reflexivity|].
      right. now exists []. }
  destruct (get_latest_run_error w ws org token rid (t ++ [CSecret tsn]))
    as [[msg|e] t2] eqn:Hrun;
    destruct (get_latest_run_error_calls _ _ _ _ _ _ _ _ Hrun) as [cs [-> Hcs]];
    eexists; exists (CSecret tsn :: cs);
    (split; [unfold ret; now rewrite <- app_assoc | right; now exists cs]).
Qed.

Lemma diagnosis_path_success : forall w js tsn event t resp t',
  diagnosis_path w js tsn event t = (Ok resp, t') ->
  Py.getitem resp "statusCode" = Ok (JNum 200) ->
  exists url secret token ws org rid msg,
    Py.getitem event "workspace_url" = Ok (JStr url)
    /\ get_secret w js tsn t = (Ok secret, t ++ [CSecret tsn])
    /\ Py.getitem secret "tfe_api_token" = Ok token
    /\ get_workspace_id_from_url url = Ok (ws, org, rid)
    /\ get_latest_run_error w ws org token rid (t ++ [CSecret tsn])
       = (Ok msg, t')
    /\ resp = success_response js EmptyString msg.
Proof.
  intros w js tsn event t resp t' H H200.
  unfold diagnosis_path, try_except, bind, lift, ret in H.
  destruct (Py.getitem event "workspace_url") as [workspace_url|e];
    [|inversion H; subst; discriminate].
  destruct (get_secret w js tsn t) as [[secret|e] t1] eqn:Hsecret;
    [|inversion H; subst; discriminate].
  pose proof (get_secret_trace _ _ _ _ _ _ Hsecret) as ->.
  destruct (Py.getitem secret "tfe_api_token") as [token|e] eqn:Htoken;
    [|inversion H; subst; discriminate].
  destruct workspace_url as [| | |url| |];
    try (inversion H; subst; discriminate).
  destruct (get_workspace_id_from_url url) as [[[ws org] rid]|e] eqn:Hids;
    [|inversion H; subst; discriminate].
  destruct (get_latest_run_error w ws org token rid (t ++ [CSecret tsn]))
    as [[msg|e] t2] eqn:Hrun;
    [|inversion H; subst; discriminate].
  inversion H; subst.
  exists url, secret, token, ws, org, rid, msg. now repeat split.
Qed.

(** C10.  For an event whose [repo_url] is absent or falsy the handler
    does not raise and the calls it makes are, at most, one retrieval of
    the secret named by [TERRAFORM_SECRET_NAME] followed by calls to the
    automation platform: no retrieval of the VCS secret and no repository
    fetch.  Its success response is the dictionary of [statusCode] 200 and
    of the [body] that [json.dumps] writes for [files_content] the empty
    string and [error_message] the run diagnoser's result.  The outcome is
    that of the run-diagnosis path alone; it depends on the event through
    [workspace_url] only. *)
Theorem no_repo_url_no_repository_fetch :
  forall w js tsn vsn event r t,
    Py.get event "repo_url" JNull = Ok r ->
    Py.truthy r = false ->
    (exists resp cs,
        lambda_handler w js tsn vsn event t = (Ok resp, t ++ cs)
        /\ (cs = []
            \/ exists cs', cs = CSecret tsn :: cs'
                           /\ forallb is_platform_call cs' = true))
    /\ (forall resp t',
          lambda_handler w js tsn vsn event t = (Ok resp, t') ->
          Py.getitem resp "statusCode" = Ok (JNum 200) ->
          exists url secret token ws org rid msg,
            Py.getitem event "workspace_url" = Ok (JStr url)
            /\ get_secret w js tsn t = (Ok secret, t ++ [CSecret tsn])
            /\ Py.getitem secret "tfe_api_token" = Ok token
            /\ get_workspace_id_from_url url = Ok (ws, org, rid)
            /\ get_latest_run_error w ws org token rid (t ++ [CSecret tsn])
               = (Ok msg, t')
            /\ resp = success_response js EmptyString msg
            /\ resp
               = JObj [("statusCode", JNum 200);
                       ("body",
                        JStr (dumps js
                                (JObj [("files_content", JStr EmptyString);
                                       ("error_message", JStr msg)])))]
            /\ Py.getitem resp "body"
               = Ok (JStr (dumps js
                             (JObj [("files_content", JStr EmptyString);
                                    ("error_message", JStr msg)]))))
    /\ (forall url s secret token ws org rid msg t',
          Py.getitem event "workspace_url" = Ok (JStr url) ->
          get_secret_value w t tsn = Ok (Some s) ->
          loads js s = Ok secret ->
          Py.getitem secret "tfe_api_token" = Ok token ->
          get_workspace_id_from_url url = Ok (ws, org, rid) ->
          get_latest_run_error w ws org token rid (t ++ [CSecret tsn])
          = (Ok msg, t') ->
          lambda_handler w js tsn vsn event t
          = (Ok (success_response js EmptyString msg), t')
          /\ exists resp,
              lambda_handler w js tsn vsn event t = (Ok resp, t')
              /\ Py.getitem resp "statusCode" = Ok (JNum 200)
              /\ Py.getitem resp "body"
                 = Ok (JStr (dumps js
                               (JObj [("files_content", JStr EmptyString);
                                      ("error_message", JStr msg)]))))
    /\ lambda_handler w js tsn vsn event t = diagnosis_path w js tsn event t
    /\ (forall vsn2 event2 r2,
          Py.get event2 "repo_url" JNull = Ok r2 ->
          Py.truthy r2 = false ->
          Py.getitem event2 "workspace_url"
          = Py.getitem event "workspace_url" ->
          lambda_handler w js tsn vsn2 event2 t
          = lambda_handler w js tsn vsn event t).
Proof.
  intros w js tsn vsn event r t Hget Hfalsy.
  pose proof (lambda_handler_without_repo_url w js tsn vsn event r
                Hget Hfalsy t) as Heq.
  rewrite Heq. split; [|split; [|split; [|split]]].
  - apply diagnosis_path_calls.
  - intros resp t' Hresp H200.
    destruct (diagnosis_path_success _ _ _ _ _ _ _ Hresp H200)
      as [url [secret [token [ws [org [rid [msg H]]]]]]].
    destruct H as [Hurl [Hsecret [Htoken [Hids [Hrun ->]]]]].
    exists url, secret, token, ws, org, rid, msg.
    repeat (split; [assumption || reflexivity|]). reflexivity.
  - intros url s secret token ws org rid msg t'
           Hurl Hsecret Hloads Htoken Hids Hrun.
    assert (Hresult : diagnosis_path w js tsn event t
                      = (Ok (success_response js EmptyString msg), t')).
    { unfold diagnosis_path, get_secret, try_except, bind, lift, ret.
      rewrite Hurl, Hsecret, Hloads, Htoken, Hids, Hrun. reflexivity. }
    split; [exact Hresult|].
    exists (success_response js EmptyString msg).
    split; [exact Hresult|]. split; reflexivity.
  - reflexivity.
  - intros vsn2 event2 r2 Hget2 Hfalsy2 Hsame.
    rewrite (lambda_handler_without_repo_url w js tsn vsn2 event2 r2
               Hget2 Hfalsy2 t).
    unfold diagnosis_path, try_except, bind, lift. now rewrite Hsame.
Qed.

Lemma no_repo_url_no_repository_fetch_witness :
  exists resp,
    lambda_handler
      (sample_world "errored" [] plan_ok "Error: boom" EmptyString)
      sample_json (Some "tfe") (Some "vcs")
      (JObj [("workspace_url", JStr run_url)]) []
    = (Ok resp,
       [CSecret (Some "tfe");
        CHttp (Get (RunById "run-1") (Some sample_token));
        CHttp (Get (PlanById (JStr "plan-1")) (Some sample_token));
        CHttp (Get (LogReadUrl (JStr "https://archivist.example/plan"))
                   None)])
    /\ Py.getitem resp "statusCode" = Ok (JNum 200)
    /\ Py.getitem resp "body"
       = Ok (JStr ("{" ++ PyStr.dq ++ "files_content" ++ PyStr.dq ++ ": "
                   ++ PyStr.dq ++ PyStr.dq ++ ", "
                   ++ PyStr.dq ++ "error_message" ++ PyStr.dq ++ ": "
                   ++ PyStr.dq ++ "Plan Error:\nError: boom\n" ++ PyStr.dq
                   ++ "}")%string).
Proof.
  refine (proj2 (proj1 (proj2 (proj2 (no_repo_url_no_repository_fetch
            (sample_world "errored" [] plan_ok "Error: boom" EmptyString)
            sample_json (Some "tfe") (Some "vcs")
            (JObj [("workspace_url", JStr run_url)]) JNull []
            eq_refl eq_refl)))
            run_url (sample_dumps sample_secret) sample_secret
            sample_token "net" "acme"
            (Some "run-1")
            ("Plan Error:" ++ PyStr.nl ++ "Error: boom" ++ PyStr.nl)%string
            [CSecret (Some "tfe");
             CHttp (Get (RunById "run-1") (Some sample_token));
             CHttp (Get (PlanById (JStr "plan-1")) (Some sample_token));
             CHttp (Get (LogReadUrl (JStr "https://archivist.example/plan"))
                        None)]
            eq_refl eq_refl eq_refl eq_refl eq_refl eq_refl)).
Defined.

(** ** The troubleshooting request handler *)

Lemma envelope_is_well_formed : forall ag fn body mv,
  envelope_body (TerraformTroubleshooting.envelope ag fn body mv) = Ok body.
Proof. reflexivity. Qed.

Lemma failure_response_envelope : forall event ag fn mv e t,
  Py.getitem event "messageVersion" = Ok mv ->
  TerraformTroubleshooting.failure_response event ag fn e t
  = (Ok (TerraformTroubleshooting.envelope ag fn (JStr (failure_text e)) mv), t).
Proof.
  intros event ag fn mv e t Hmv.
  unfold TerraformTroubleshooting.failure_response, failure_text, bind, lift, ret.
  rewrite Hmv. destruct (is_KeyError e); reflexivity.
Qed.

Lemma failure_response_without_version : forall event ag fn e e' t,
  Py.getitem event "messageVersion" = Raise e' ->
  TerraformTroubleshooting.failure_response event ag fn e t = (Raise e', t).
Proof.
  intros event ag fn e e' t Hmv.
  unfold TerraformTroubleshooting.failure_response, bind, lift.
  now rewrite Hmv.
Qed.

(** When the [try] block ends without exception it has read
    [messageVersion] and returns an envelope. *)
Lemma troubleshoot_ok : forall w js event ag fn parameters t resp t',
  TerraformTroubleshooting.troubleshoot w js event ag fn parameters t
  = (Ok resp, t') ->
  exists body mv,
    Py.getitem event "messageVersion" = Ok mv
    /\ resp = TerraformTroubleshooting.envelope ag fn body mv.
Proof.
  intros w js event ag fn parameters t resp t' H.
  unfold TerraformTroubleshooting.troubleshoot,
    TerraformTroubleshooting.invoke_bedrock_model, bind, lift, raise, ret in H.
  repeat match type of H with
         | context [match ?x with Ok _ => _ | Raise _ => _ end] =>
             destruct x; try discriminate
         | context [if ?b then _ else _] => destruct b; try discriminate
         end.
  inversion H; subst. eexists. eexists. split; [eassumption || reflexivity|reflexivity].
Qed.

(** C7, as stated, fails: on an event without [agent] the handler raises
    KeyError before its [try] block, and on an event without
    [messageVersion] it raises KeyError from its [except] clause. *)
Lemma handler_raises_on_missing_keys :
  TerraformTroubleshooting.lambda_handler sample_agent_world sample_json
                                          (JObj []) []
  = (Raise (Py.key_error "agent"), [])
  /\ TerraformTroubleshooting.lambda_handler sample_agent_world sample_json
                                             event_without_version []
     = (Raise (Py.key_error "messageVersion"),
        [CLambda (sample_dumps
                    (JObj [("workspace_url", JStr run_url);
                           ("repo_url", JNull);
                           ("branch_name", JStr "main")]))]).
Proof. split; reflexivity. Qed.

(** C7, amended.  For every event that carries [agent], [actionGroup],
    [function] and [messageVersion], and in every world, the handler
    returns a well-formed envelope with the event's [actionGroup],
    [function] and [messageVersion]; when its [try] block raises, as it
    does when the remote call fails, the body is the failure text of the
    exception.  An event that lacks one of the four keys makes the handler
    raise. *)
Theorem handler_always_returns_envelope :
  forall w js event t,
    (forall agent ag fn mv,
        Py.getitem event "agent" = Ok agent ->
        Py.getitem event "actionGroup" = Ok ag ->
        Py.getitem event "function" = Ok fn ->
        Py.getitem event "messageVersion" = Ok mv ->
        (exists body t',
            TerraformTroubleshooting.lambda_handler w js event t
            = (Ok (TerraformTroubleshooting.envelope ag fn body mv), t')
            /\ envelope_body (TerraformTroubleshooting.envelope ag fn body mv)
               = Ok body)
        /\ (forall parameters e t',
              Py.get event "parameters" (JObj []) = Ok parameters ->
              TerraformTroubleshooting.troubleshoot
                w js event ag fn parameters t = (Raise e, t') ->
              TerraformTroubleshooting.lambda_handler w js event t
              = (Ok (TerraformTroubleshooting.envelope
                       ag fn (JStr (failure_text e)) mv), t'))
        /\ (forall parameters params props e,
              Py.get event "parameters" (JObj []) = Ok parameters ->
              Py.iter parameters = Ok params ->
              TerraformTroubleshooting.build_properties params [] = Ok props ->
              lambda_invoke w t (stage_one_payload js props) = Raise e ->
              TerraformTroubleshooting.lambda_handler w js event t
              = (Ok (TerraformTroubleshooting.envelope
                       ag fn (JStr (failure_text e)) mv),
                 t ++ [CLambda (stage_one_payload js props)])))
    /\ (forall k e,
          In k ["agent"; "actionGroup"; "function"; "messageVersion"] ->
          Py.getitem event k = Raise e ->
          exists e' t',
            TerraformTroubleshooting.lambda_handler w js event t
            = (Raise e', t')).
Proof.
  intros w js event t. split.
  - intros agent ag fn mv Hagent Hag Hfn Hmv.
    assert (Hdict : exists parameters,
               Py.get event "parameters" (JObj []) = Ok parameters).
    { destruct event; try discriminate. unfold Py.get.
      destruct (Py.lookup "parameters" kvs); now eexists. }
    destruct Hdict as [parameters Hparams].
    assert (Hrun : forall r t',
               TerraformTroubleshooting.troubleshoot
                 w js event ag fn parameters t = (r, t') ->
               TerraformTroubleshooting.lambda_handler w js event t
               = match r with
                 | Ok resp => (Ok resp, t')
                 | Raise e =>
                     (Ok (TerraformTroubleshooting.envelope
                            ag fn (JStr (failure_text e)) mv), t')
                 end).
    { intros r t' Hr.
      unfold TerraformTroubleshooting.lambda_handler, try_except, bind, lift.
      rewrite Hagent, Hag, Hfn, Hparams, Hr. destruct r as [resp|e].
      - reflexivity.
      - now apply failure_response_envelope. }
    split; [|split].
    + destruct (TerraformTroubleshooting.troubleshoot
                  w js event ag fn parameters t) as [[resp|e] t'] eqn:Hr;
        rewrite (Hrun _ _ eq_refl).
      * destruct (troubleshoot_ok _ _ _ _ _ _ _ _ _ Hr)
          as [body [mv' [Hmv' ->]]].
        rewrite Hmv in Hmv'. inversion Hmv'; subst mv'.
        exists body, t'. split; reflexivity.
      * exists (JStr (failure_text e)), t'. split; reflexivity.
    + intros parameters' e t' Hparams' Hr.
      rewrite Hparams in Hparams'. inversion Hparams'; subst parameters'.
      exact (Hrun _ _ Hr).
    + intros parameters' params props e Hparams' Hiter Hprops Hinvoke.
      rewrite Hparams in Hparams'. inversion Hparams'; subst parameters'.
      apply (Hrun (Raise e)).
      unfold TerraformTroubleshooting.troubleshoot, bind, lift.
      rewrite Hiter, Hprops. unfold stage_one_payload in Hinvoke.
      now rewrite Hinvoke.
  - intros k e Hk Hmissing.
    unfold TerraformTroubleshooting.lambda_handler, try_except, bind, lift.
    destruct (Py.getitem event "agent") as [agent|e1] eqn:Hagent;
      [|now eexists; eexists].
    destruct (Py.getitem event "actionGroup") as [ag|e2] eqn:Hag;
      [|now eexists; eexists].
    destruct (Py.getitem event "function") as [fn|e3] eqn:Hfn;
      [|now eexists; eexists].
    assert (Hmv : Py.getitem event "messageVersion" = Raise e).
    { simpl in Hk. destruct Hk as [<-|[<-|[<-|[<-|[]]]]]; congruence. }
    destruct (Py.get event "parameters" (JObj [])) as [parameters|e4];
      [|now eexists; eexists].
    destruct (TerraformTroubleshooting.troubleshoot
                w js event ag fn parameters t) as [[resp|e5] t'] eqn:Hr.
    + destruct (troubleshoot_ok _ _ _ _ _ _ _ _ _ Hr) as [body [mv [Hmv' _]]].
      congruence.
    + rewrite (failure_response_without_version _ _ _ _ _ _ Hmv).
      now eexists; eexists.
Qed.

Lemma handler_always_returns_envelope_witness :
  TerraformTroubleshooting.lambda_handler
    failing_agent_world sample_json sample_event []
  = (Ok (TerraformTroubleshooting.envelope
           (JStr "troubleshoot") (JStr "diagnose")
           (JStr "Error: AccessDenied") (JStr "1.0")),
     [] ++ [CLambda (sample_dumps
                       (JObj [("workspace_url", JStr run_url);
                              ("repo_url", JNull);
                              ("branch_name", JStr "main")]))]).
Proof.
  refine (proj2 (proj2 (proj1 (handler_always_returns_envelope
            failing_agent_world sample_json
            sample_event [])
            (JObj [("name", JStr "terraform-agent")])
            (JStr "troubleshoot") (JStr "diagnose") (JStr "1.0")
            eq_refl eq_refl eq_refl eq_refl))
            sample_parameters
            [JObj [("name", JStr "workspace_url");
                   ("type", JStr "string");
                   ("value", JStr run_url)]]
            [(JStr "workspace_url", JStr run_url)]
            (Exn (OtherException "ClientError") "AccessDenied")
            eq_refl eq_refl eq_refl eq_refl).
Defined.

(** C9.  When the body of stage one's response has [error_message] None
    and an empty [files_content], the handler's [try] block raises the
    KeyError of line 95 before any call to the model, and the handler
    returns a well-formed envelope whose body is [Missing required
    information: ] followed by the text of that KeyError, which is not of
    the generic [Error: ...] shape. *)
Theorem missing_data_gives_missing_information :
  forall w js event agent ag fn mv parameters params props raw
         response_payload body response_body t,
    Py.getitem event "agent" = Ok agent ->
    Py.getitem event "actionGroup" = Ok ag ->
    Py.getitem event "function" = Ok fn ->
    Py.getitem event "messageVersion" = Ok mv ->
    Py.get event "parameters" (JObj []) = Ok parameters ->
    Py.iter parameters = Ok params ->
    TerraformTroubleshooting.build_properties params [] = Ok props ->
    lambda_invoke w t (stage_one_payload js props) = Ok raw ->
    loads js raw = Ok response_payload ->
    Py.getitem response_payload "body" = Ok (JStr body) ->
    loads js body = Ok response_body ->
    Py.get response_body "error_message" JNull = Ok JNull ->
    Py.get response_body "files_content" (JStr EmptyString)
    = Ok (JStr EmptyString) ->
    let text := ("Missing required information: "
                 ++ exn_str TerraformTroubleshooting.missing_data)%string in
    TerraformTroubleshooting.troubleshoot w js event ag fn parameters t
    = (Raise TerraformTroubleshooting.missing_data,
       t ++ [CLambda (stage_one_payload js props)])
    /\ is_KeyError TerraformTroubleshooting.missing_data = true
    /\ TerraformTroubleshooting.lambda_handler w js event t
       = (Ok (TerraformTroubleshooting.envelope ag fn (JStr text) mv),
          t ++ [CLambda (stage_one_payload js props)])
    /\ envelope_body (TerraformTroubleshooting.envelope ag fn (JStr text) mv)
       = Ok (JStr text)
    /\ prefix "Missing required information" text = true
    /\ prefix "Error: " text = false.
Proof.
  intros w js event agent ag fn mv parameters params props raw
         response_payload body response_body t
         Hagent Hag Hfn Hmv Hparams Hiter Hprops Hinvoke Hraw Hbody Hloads
         Herror Hfiles text.
  assert (Htry : TerraformTroubleshooting.troubleshoot
                   w js event ag fn parameters t
                 = (Raise TerraformTroubleshooting.missing_data,
                    t ++ [CLambda (stage_one_payload js props)])).
  { unfold TerraformTroubleshooting.troubleshoot, bind, lift, raise.
    rewrite Hiter, Hprops. unfold stage_one_payload in Hinvoke.
    rewrite Hinvoke, Hraw, Hbody, Hloads, Herror, Hfiles. reflexivity. }
  repeat split.
  - exact Htry.
  - unfold TerraformTroubleshooting.lambda_handler, try_except, bind, lift.
    rewrite Hagent, Hag, Hfn, Hparams, Htry.
    now rewrite (failure_response_envelope _ _ _ _ _ _ Hmv).
Qed.

Lemma missing_data_gives_missing_information_witness :
  TerraformTroubleshooting.lambda_handler sample_agent_world sample_json
                                          sample_event []
  = (Ok (TerraformTroubleshooting.envelope
           (JStr "troubleshoot") (JStr "diagnose")
           (JStr ("Missing required information: "
                  ++ exn_str TerraformTroubleshooting.missing_data))
           (JStr "1.0")),
     [] ++ [CLambda (stage_one_payload sample_json
                       [(JStr "workspace_url", JStr run_url)])]).
Proof.
  refine (proj1 (proj2 (proj2 (missing_data_gives_missing_information
            sample_agent_world sample_json sample_event
            (JObj [("name", JStr "terraform-agent")])
            (JStr "troubleshoot") (JStr "diagnose") (JStr "1.0")
            sample_parameters
            [JObj [("name", JStr "workspace_url");
                   ("type", JStr "string");
                   ("value", JStr run_url)]]
            [(JStr "workspace_url", JStr run_url)]
            (sample_dumps empty_response) empty_response
            (sample_dumps empty_body) empty_body []
            eq_refl eq_refl eq_refl eq_refl eq_refl eq_refl eq_refl
            eq_refl eq_refl eq_refl eq_refl eq_refl eq_refl)))).
Defined.

(** * Further properties *)

(** ** The log error extractor, further *)

Lemma in_firstn : forall (A : Type) (n : nat) (l : list A) (x : A),
  In x (firstn n l) -> In x l.
Proof.
  intros A n; induction n as [|n IH]; intros [|y l] x H; simpl in *;
    try contradiction.
  destruct H as [->|H]; [now left | right; now apply IH].
Qed.

Lemma in_skipn : forall (A : Type) (n : nat) (l : list A) (x : A),
  In x (skipn n l) -> In x l.
Proof.
  intros A n; induction n as [|n IH]; intros [|y l] x H; simpl in *;
    try contradiction; try assumption.
  right. now apply IH.
Qed.

Lemma in_slice : forall (A : Type) (l : list A) (a b : Z) (x : A),
  In x (PyList.slice l a b) -> In x l.
Proof.
  intros A l a b x H. unfold PyList.slice in H.
  apply in_firstn in H. now apply in_skipn in H.
Qed.

Lemma extract_loop_lines :
  forall (log_lines : list string) (context_lines : Z)
         (rest : list string) (i : Z) (acc : list string),
  (forall x, In x acc -> x = EmptyString \/ In x log_lines) ->
  forall x, In x (extract_loop log_lines context_lines i rest acc) ->
            x = EmptyString \/ In x log_lines.
Proof.
  intros log_lines context_lines rest;
    induction rest as [|line rest IH]; intros i acc Hacc x Hx.
  - now apply Hacc.
  - cbn [extract_loop] in Hx. apply IH in Hx; [exact Hx|].
    intros y Hy. destruct (is_error_line line); [|now apply Hacc].
    apply in_app_or in Hy. destruct Hy as [Hy|[<-|[]]]; [|now left].
    apply in_app_or in Hy. destruct Hy as [Hy|Hy]; [now apply Hacc|].
    right. now apply in_slice in Hy.
Qed.

(** X1.  Whatever the window, also a negative one, every line the
    extractor puts out is a line of the log or the blank separator. *)
Theorem extracted_lines_come_from_log :
  forall (log : string) (context_lines : Z) (x : string),
    In x (error_lines_with_context log context_lines) ->
    x = EmptyString \/ In x (PyStr.splitlines log).
Proof.
  intros log context_lines x H. unfold error_lines_with_context in H.
  apply (extract_loop_lines _ _ _ _ [] (fun y (Hy : In y []) => False_ind _ Hy)
                            x H).
Qed.

Lemma extracted_lines_come_from_log_witness :
  "Error: boom" = EmptyString
  \/ In "Error: boom" (PyStr.splitlines "Error: boom").
Proof.
  apply (extracted_lines_come_from_log "Error: boom" 5 "Error: boom").
  vm_compute. now left.
Defined.

Lemma join_two_not_empty : forall (x y : string) (l : list string),
  PyStr.join PyStr.nl (x :: y :: l) <> EmptyString.
Proof.
  intros x y l H. rewrite join_cons in H.
  destruct x; simpl in H; discriminate.
Qed.

(** X2.  With a window that is a natural number, as the default 5 is, the
    extracted text is empty exactly when no line of the log is
    error-marking, so the test [if error_lines:] of the run diagnoser is
    the test that some line marks an error. *)
Theorem extraction_empty_iff_no_marking_line :
  forall (log : string) (window : nat),
    extract_error_with_context log (Z.of_nat window) = EmptyString
    <-> (forall line, In line (PyStr.splitlines log) ->
                      is_error_line line = false).
Proof.
  intros log window. split.
  - intros Hempty line Hin.
    destruct (is_error_line line) eqn:Hmark; [exfalso|reflexivity].
    destruct (In_nth_error _ _ Hin) as [i Hi].
    assert (Hlt : (i < List.length (PyStr.splitlines log))%nat)
      by (apply nth_error_Some; congruence).
    unfold extract_error_with_context in Hempty.
    rewrite error_lines_with_context_blocks in Hempty. unfold blocks in Hempty.
    rewrite (flat_map_seq_split _ _ _ i Hlt) in Hempty.
    unfold block_at at 2 in Hempty.
    rewrite (nth_error_nth _ _ EmptyString Hi), Hmark in Hempty.
    destruct (window_of_head (PyStr.splitlines log) window i Hlt)
      as [more Hmore].
    rewrite Hmore in Hempty.
    destruct (flat_map (block_at (PyStr.splitlines log) window) (seq 0 i))
      as [|b0 before].
    + cbn [app] in Hempty. destruct more; cbn [app] in Hempty;
        now apply join_two_not_empty in Hempty.
    + cbn [app] in Hempty.
      destruct before; cbn [app] in Hempty;
        now apply join_two_not_empty in Hempty.
  - intros Hnone. unfold extract_error_with_context, error_lines_with_context.
    now rewrite extract_loop_no_marking.
Qed.

Lemma window_of_length : forall (lines : list string) (window i : nat),
  (List.length (window_of lines window i) <= window + 1)%nat.
Proof.
  intros lines window i. unfold window_of. rewrite length_map, length_seq. lia.
Qed.

Lemma blocks_length_from :
  forall (window : nat) (rest pre : list string),
  (List.length (flat_map (block_at (pre ++ rest) window)
                         (seq (List.length pre) (List.length rest)))
   <= (window + 2) * List.length (filter is_error_line rest))%nat.
Proof.
  intros window rest; induction rest as [|line rest IH]; intros pre.
  - simpl. lia.
  - cbn [List.length seq flat_map filter]. rewrite length_app.
    assert (Hsplit : pre ++ line :: rest = (pre ++ [line]) ++ rest)
      by (now rewrite <- app_assoc).
    specialize (IH (pre ++ [line])).
    rewrite <- Hsplit in IH.
    replace (List.length (pre ++ [line])) with (S (List.length pre)) in IH
      by (rewrite length_app; simpl; lia).
    unfold block_at at 1. rewrite nth_middle_app.
    destruct (is_error_line line).
    + rewrite length_app. cbn [List.length].
      pose proof (window_of_length (pre ++ line :: rest) window
                                   (List.length pre)).
      lia.
    + cbn [List.length]. lia.
Qed.

(** X3.  The extractor puts out at most [window + 2] lines for each
    error-marking line of the log: the marking line, at most [window]
    lines of context and the separator. *)
Theorem extracted_lines_bound :
  forall (log : string) (window : nat),
    (List.length (error_lines_with_context log (Z.of_nat window))
     <= (window + 2)
        * List.length (filter is_error_line (PyStr.splitlines log)))%nat.
Proof.
  intros log window. rewrite error_lines_with_context_blocks.
  exact (blocks_length_from window (PyStr.splitlines log) []).
Qed.

(** ** The identifier resolver, further *)

Lemma split_length : forall (sep : ascii) (s : string),
  List.length (PyStr.split sep s) = S (count_char sep s).
Proof.
  intros sep s; induction s as [|c s IH]; [reflexivity|].
  cbn [PyStr.split count_char]. destruct (Ascii.eqb c sep).
  - cbn [List.length]. now rewrite IH.
  - destruct (PyStr.split sep s) as [|f fs] eqn:Hs.
    + now apply split_nonempty in Hs.
    + cbn [List.length] in *. lia.
Qed.

Lemma from_last_some : forall (parts : list string) (k : nat),
  (k < List.length parts)%nat -> exists p, from_last (S k) parts = Some p.
Proof.
  intros parts k Hk. destruct (from_last (S k) parts) as [p|] eqn:H.
  - now exists p.
  - apply from_last_none in H. lia.
Qed.

(** X4.  The resolver returns exactly when the URL has enough slashes: at
    least four when one of its segments is [runs], at least two otherwise;
    with fewer it raises IndexError. *)
Theorem resolver_needs_enough_segments :
  forall url : string,
    let needed :=
      if existsb (String.eqb "runs") (PyStr.split "/" url) then 4%nat
      else 2%nat in
    ((needed <= count_char "/" url)%nat ->
     exists ws org run, get_workspace_id_from_url url = Ok (ws, org, run))
    /\ ((count_char "/" url < needed)%nat ->
        get_workspace_id_from_url url = Raise index_error).
Proof.
  intros url needed. subst needed.
  pose proof (split_length "/" url) as Hlen.
  destruct (existsb (String.eqb "runs") (PyStr.split "/" url)) eqn:Hruns.
  - apply runs_in_parts in Hruns. rewrite (resolver_with_runs url Hruns).
    split; intros H.
    + destruct (from_last_some (PyStr.split "/" url) 2) as [ws ->]; [lia|].
      destruct (from_last_some (PyStr.split "/" url) 4) as [org ->]; [lia|].
      destruct (from_last_some (PyStr.split "/" url) 0) as [run ->]; [lia|].
      now exists ws, org, (Some run).
    + assert (H5 : from_last 5 (PyStr.split "/" url) = None)
        by (apply from_last_none; lia).
      rewrite H5. destruct (from_last 3 _); reflexivity.
  - assert (Hnot : ~ In "runs" (PyStr.split "/" url)).
    { intros Hin. apply runs_in_parts in Hin. congruence. }
    rewrite (resolver_without_runs url Hnot). split; intros H.
    + destruct (from_last_some (PyStr.split "/" url) 0) as [ws ->]; [lia|].
      destruct (from_last_some (PyStr.split "/" url) 2) as [org ->]; [lia|].
      now exists ws, org, None.
    + assert (H3 : from_last 3 (PyStr.split "/" url) = None)
        by (apply from_last_none; lia).
      rewrite H3. destruct (from_last 1 _); reflexivity.
Qed.

Lemma resolver_needs_enough_segments_witness :
  get_workspace_id_from_url "acme/net" = Raise index_error.
Proof.
  apply (proj2 (resolver_needs_enough_segments "acme/net")).
  vm_compute. lia.
Defined.

Lemma split_fields_no_sep : forall (sep : ascii) (s p : string),
  In p (PyStr.split sep s) ->
  PyStr.contains (String sep EmptyString) p = false.
Proof.
  intros sep s; induction s as [|c s IH]; intros p Hp.
  - destruct Hp as [<-|[]]. reflexivity.
  - cbn [PyStr.split] in Hp. destruct (Ascii.eqb_spec c sep) as [->|Hne].
    + destruct Hp as [<-|Hp]; [reflexivity | now apply IH].
    + destruct (PyStr.split sep s) as [|f fs] eqn:Hs.
      * now apply split_nonempty in Hs.
      * destruct Hp as [<-|Hp]; [|apply IH; now right].
        cbn [PyStr.contains prefix].
        destruct (ascii_dec sep c) as [->|_]; [congruence|].
        cbn [orb]. apply IH. now left.
Qed.

Lemma from_last_in : forall (k : nat) (parts : list string) (p : string),
  from_last k parts = Some p -> In p parts.
Proof.
  intros [|k] parts p H; [discriminate|]. unfold from_last in H.
  apply nth_error_In in H. now apply in_rev.
Qed.

(** X5.  Whatever the resolver returns, the workspace, the organization
    and the run id hold no ['/']. *)
Theorem resolver_names_have_no_slash :
  forall (url ws org : string) (run : option string),
    get_workspace_id_from_url url = Ok (ws, org, run) ->
    no_slash ws /\ no_slash org
    /\ (forall r, run = Some r -> no_slash r).
Proof.
  intros url ws org run H. unfold no_slash.
  assert (Hparts : forall k p, from_last k (PyStr.split "/" url) = Some p ->
                               PyStr.contains "/" p = false).
  { intros k p Hk. apply (split_fields_no_sep "/" url).
    now apply from_last_in in Hk. }
  destruct (in_dec string_dec "runs" (PyStr.split "/" url)) as [Hin|Hnot].
  - rewrite (resolver_with_runs url Hin) in H.
    destruct (from_last 3 _) as [a|] eqn:H3; [|discriminate].
    destruct (from_last 5 _) as [b|] eqn:H5; [|discriminate].
    destruct (from_last 1 _) as [c|] eqn:H1; [|discriminate].
    inversion H; subst. repeat split; eauto.
    intros r Hr. inversion Hr; subst. eauto.
  - rewrite (resolver_without_runs url Hnot) in H.
    destruct (from_last 1 _) as [a|] eqn:H1; [|discriminate].
    destruct (from_last 3 _) as [b|] eqn:H3; [|discriminate].
    inversion H; subst. repeat split; eauto. discriminate.
Qed.

Lemma resolver_names_have_no_slash_witness :
  no_slash "net" /\ no_slash "acme"
  /\ (forall r, Some "run-1" = Some r -> no_slash r).
Proof.
  apply (resolver_names_have_no_slash run_url). reflexivity.
Defined.

(** ** The run diagnoser, further *)

Ltac run_in H :=
  unfold raise_for_status, requests_get, try_except, bind, lift, raise, ret
    in H;
  cbn beta iota in H.

(** Splits the first [match] or [if] of an equation on outcomes. *)
Ltac split_outcome H :=
  match type of H with
  | context [match ?x with Ok _ => _ | Raise _ => _ end] =>
      destruct x eqn:?; try discriminate
  | context [match ?x with Some _ => _ | None => _ end] =>
      destruct x eqn:?; try discriminate
  | context [if ?b then _ else _] => destruct b eqn:?; try discriminate
  end.

Lemma check_sub_resource_returned :
  forall w rel ep label headers run t s t',
  check_sub_resource w rel ep label headers run t = (Ok (Returned s), t') ->
  exists text,
    extract_error_with_context text 5 <> EmptyString
    /\ s = (label ++ PyStr.nl ++ extract_error_with_context text 5)%string.
Proof.
  intros w rel ep label headers run t s t' H.
  unfold check_sub_resource in H. run_in H.
  repeat split_outcome H.
  inversion H; subst.
  match goal with
  | Hx : PyStr.truthy (extract_error_with_context (resp_text ?r) _) = true
    |- _ => exists (resp_text r); split; [|reflexivity];
            intros Hempty; unfold default_context_lines in Hx;
            rewrite Hempty in Hx; discriminate
  end.
Qed.

Lemma locate_run_returned : forall w ws org headers rid t s t',
  locate_run w ws org headers rid t = (Ok (inl s), t') -> s = no_runs_found.
Proof.
  intros w ws org headers rid t s t' H. unfold locate_run in H. run_in H.
  repeat split_outcome H; now inversion H.
Qed.

Lemma check_plan_then_apply_returned : forall w headers run t s t',
  check_plan_then_apply w headers run t = (Ok (Returned s), t') ->
  is_error_report s.
Proof.
  intros w headers run t s t' H.
  unfold check_plan_then_apply, try_except, bind, ret in H.
  destruct (check_sub_resource w "plan" PlanById "Plan Error:" headers run t)
    as [[[p|]|e] t1] eqn:Hplan; try discriminate.
  - inversion H; subst.
    destruct (check_sub_resource_returned _ _ _ _ _ _ _ _ _ Hplan)
      as [text [Hne ->]].
    right; right; left. now exists text.
  - destruct (check_sub_resource w "apply" ApplyById "Apply Error:"
                                 headers run t1)
      as [[[a|]|e] t2] eqn:Happly; try discriminate.
    inversion H; subst.
    destruct (check_sub_resource_returned _ _ _ _ _ _ _ _ _ Happly)
      as [text [Hne ->]].
    right; right; right. now exists text.
Qed.

(** X6.  Whenever the run diagnoser returns, its result is one of four
    texts: [No runs found for the workspace.], the "no errors found"
    sentinel, or [Plan Error:] or [Apply Error:] followed by a newline and
    a non-empty extraction of some log. *)
Theorem diagnoser_result_shapes :
  forall w ws org token rid t s t',
    get_latest_run_error w ws org token rid t = (Ok s, t') ->
    is_error_report s.
Proof.
  intros w ws org token rid t s t' H.
  unfold get_latest_run_error, bind in H.
  destruct (locate_run w ws org (Some token) rid t)
    as [[[early|run]|e] t1] eqn:Hloc; try discriminate.
  - unfold ret in H. inversion H; subst. left.
    exact (locate_run_returned _ _ _ _ _ _ _ _ Hloc).
  - unfold diagnose_run, bind, lift, ret in H.
    repeat match type of H with
           | context [match ?x with Ok _ => _ | Raise _ => _ end] =>
               match x with
               | context [check_plan_then_apply] => fail 1
               | _ => destruct x eqn:?; try discriminate
               end
           end.
    destruct (Py.eq_str _ "errored").
    + destruct (check_plan_then_apply w (Some token) run t1)
        as [[[r|]|e] t2] eqn:Hcheck; try discriminate;
        inversion H; subst.
      * exact (check_plan_then_apply_returned _ _ _ _ _ _ Hcheck).
      * right; now left.
    + inversion H; subst. right; now left.
Qed.

Lemma diagnoser_result_shapes_witness :
  is_error_report ("Plan Error:" ++ PyStr.nl ++ "Error: boom" ++ PyStr.nl).
Proof.
  apply (diagnoser_result_shapes
           (sample_world "errored" [] plan_ok "Error: boom" "Error: late")
           "net" "acme" sample_token (Some "run-1") []
           ("Plan Error:" ++ PyStr.nl ++ "Error: boom" ++ PyStr.nl)
           [CHttp (Get (RunById "run-1") (Some sample_token));
            CHttp (Get (PlanById (JStr "plan-1")) (Some sample_token));
            CHttp (Get (LogReadUrl (JStr "https://archivist.example/plan"))
                       None)]).
  reflexivity.
Defined.

(** X7.  A failure of a locating call is not caught: when the GET of the
    run by id, the GET of the workspace or the GET of its runs fails, the
    run diagnoser raises, and that call is its last. *)
Theorem locator_failure_is_raised :
  forall w ws org token t,
    (forall rid,
        PyStr.truthy rid = true ->
        fails w t (Get (RunById rid) (Some token)) ->
        exists e,
          get_latest_run_error w ws org token (Some rid) t
          = (Raise e, t ++ [CHttp (Get (RunById rid) (Some token))]))
    /\ (forall rid,
          match rid with Some r => PyStr.truthy r | None => false end = false ->
          fails w t (Get (WorkspaceByName org ws) (Some token)) ->
          exists e,
            get_latest_run_error w ws org token rid t
            = (Raise e,
               t ++ [CHttp (Get (WorkspaceByName org ws) (Some token))]))
    /\ (forall rid wr workspace_id,
          match rid with Some r => PyStr.truthy r | None => false end = false ->
          answers w t (Get (WorkspaceByName org ws) (Some token)) wr ->
          rbind (resp_json wr) (fun j =>
          rbind (Py.getitem j "data") (fun d => Py.getitem d "id"))
          = Ok workspace_id ->
          fails w (t ++ [CHttp (Get (WorkspaceByName org ws) (Some token))])
                (Get (WorkspaceRuns workspace_id) (Some token)) ->
          exists e,
            get_latest_run_error w ws org token rid t
            = (Raise e,
               t ++ [CHttp (Get (WorkspaceByName org ws) (Some token));
                     CHttp (Get (WorkspaceRuns workspace_id) (Some token))])).
Proof.
  intros w ws org token t. split; [|split].
  - intros rid Hrid Hfail. unfold get_latest_run_error, locate_run.
    rewrite Hrid. run.
    destruct Hfail as [[e He]|[r [msg [Hr Hmsg]]]].
    + follow He. now exists e.
    + follow Hr. follow Hmsg. now eexists.
  - intros rid Hrid Hfail. unfold get_latest_run_error, locate_run.
    rewrite Hrid. run.
    destruct Hfail as [[e He]|[r [msg [Hr Hmsg]]]].
    + follow He. now exists e.
    + follow Hr. follow Hmsg. now eexists.
  - intros rid wr workspace_id Hrid [Hget Hok] Hid Hfail.
    unfold get_latest_run_error, locate_run. rewrite Hrid. run.
    follow Hget. follow Hok. follow Hid.
    destruct Hfail as [[e He]|[r [msg [Hr Hmsg]]]].
    + follow He. exists e. now rewrite <- app_assoc.
    + follow Hr. follow Hmsg. eexists. now rewrite <- app_assoc.
Qed.

Lemma locator_failure_is_raised_witness :
  exists e,
    get_latest_run_error sample_agent_world "net" "acme" sample_token
                         (Some "run-1") []
    = (Raise e, [] ++ [CHttp (Get (RunById "run-1") (Some sample_token))]).
Proof.
  apply (proj1 (locator_failure_is_raised sample_agent_world "net" "acme"
                  sample_token []) "run-1").
  - reflexivity.
  - left. eexists. reflexivity.
Defined.

(** X8.  With a run id the run is fetched by that id in one call and the
    workspace is not looked up; without one (None or the empty string) the
    workspace is looked up, its runs are listed and the first of them is
    the run that is diagnosed. *)
Theorem locator_picks_the_run :
  forall w ws org token t,
    (forall rid r run,
        PyStr.truthy rid = true ->
        answers w t (Get (RunById rid) (Some token)) r ->
        rbind (resp_json r) (fun j => Py.getitem j "data") = Ok run ->
        get_latest_run_error w ws org token (Some rid) t
        = diagnose_run w (Some token) run
            (t ++ [CHttp (Get (RunById rid) (Some token))]))
    /\ (forall rid wr workspace_id rr run others,
          match rid with Some r => PyStr.truthy r | None => false end = false ->
          answers w t (Get (WorkspaceByName org ws) (Some token)) wr ->
          rbind (resp_json wr) (fun j =>
          rbind (Py.getitem j "data") (fun d => Py.getitem d "id"))
          = Ok workspace_id ->
          answers w (t ++ [CHttp (Get (WorkspaceByName org ws) (Some token))])
                  (Get (WorkspaceRuns workspace_id) (Some token)) rr ->
          rbind (resp_json rr) (fun j => Py.getitem j "data")
          = Ok (JArr (run :: others)) ->
          get_latest_run_error w ws org token rid t
          = diagnose_run w (Some token) run
              (t ++ [CHttp (Get (WorkspaceByName org ws) (Some token));
                     CHttp (Get (WorkspaceRuns workspace_id) (Some token))])).
Proof.
  intros w ws org token t. split.
  - intros rid r run Hrid [Hget Hok] Hrun.
    unfold get_latest_run_error, locate_run. rewrite Hrid. run.
    follow Hget. follow Hok. follow Hrun. reflexivity.
  - intros rid wr workspace_id rr run others Hrid [Hwget Hwok] Hwid
           [Hrget Hrok] Hdata.
    unfold get_latest_run_error, locate_run. rewrite Hrid. run.
    follow Hwget. follow Hwok. follow Hwid. follow Hrget. follow Hrok.
    follow Hdata. now rewrite <- app_assoc.
Qed.

Lemma locator_picks_the_run_witness :
  get_latest_run_error
    (sample_world "planning" [sample_run "errored"; sample_run "applied"]
                  plan_ok "Error: boom" EmptyString)
    "net" "acme" sample_token None []
  = diagnose_run
      (sample_world "planning" [sample_run "errored"; sample_run "applied"]
                    plan_ok "Error: boom" EmptyString)
      (Some sample_token) (sample_run "errored")
      ([] ++ [CHttp (Get (WorkspaceByName "acme" "net") (Some sample_token));
              CHttp (Get (WorkspaceRuns (JStr "ws-1")) (Some sample_token))]).
Proof.
  refine (proj2 (locator_picks_the_run
            (sample_world "planning" [sample_run "errored"; sample_run "applied"]
                          plan_ok "Error: boom" EmptyString)
            "net" "acme" sample_token [])
            None
            (json_response (JObj [("data", JObj [("id", JStr "ws-1")])]))
            (JStr "ws-1")
            (json_response
               (JObj [("data", JArr [sample_run "errored";
                                     sample_run "applied"])]))
            (sample_run "errored") [sample_run "applied"]
            eq_refl (conj eq_refl eq_refl) eq_refl
            (conj eq_refl eq_refl) eq_refl).
Defined.

Section CallsAll.

Variable P : call -> Prop.

Lemma all_ret : forall (A : Type) (a : A), calls_all P (ret a).
Proof.
  intros A a t r t' H. inversion H. exists []. now rewrite app_nil_r.
Qed.

Lemma all_raise : forall (A : Type) (e : exn), calls_all P (@raise A e).
Proof.
  intros A e t r t' H. inversion H. exists []. now rewrite app_nil_r.
Qed.

Lemma all_lift : forall (A : Type) (x : result A), calls_all P (lift x).
Proof.
  intros A x t r t' H. inversion H. exists []. now rewrite app_nil_r.
Qed.

Lemma all_bind : forall (A B : Type) (m : M A) (k : A -> M B),
  calls_all P m -> (forall a, calls_all P (k a)) -> calls_all P (bind m k).
Proof.
  intros A B m k Hm Hk t r t' H. unfold bind in H.
  destruct (m t) as [[a|e] t1] eqn:Hmt.
  - destruct (Hm _ _ _ Hmt) as [cs1 [-> H1]].
    destruct (Hk a _ _ _ H) as [cs2 [-> H2]].
    exists (cs1 ++ cs2). split; [now rewrite app_assoc|].
    apply Forall_app. now split.
  - inversion H; subst. exact (Hm _ _ _ Hmt).
Qed.

Lemma all_try_except : forall (A : Type) (m : M A) (h : exn -> M A),
  calls_all P m -> (forall e, calls_all P (h e)) ->
  calls_all P (try_except m h).
Proof.
  intros A m h Hm Hh t r t' H. unfold try_except in H.
  destruct (m t) as [[a|e] t1] eqn:Hmt.
  - inversion H; subst. exact (Hm _ _ _ Hmt).
  - destruct (Hm _ _ _ Hmt) as [cs1 [-> H1]].
    destruct (Hh e _ _ _ H) as [cs2 [-> H2]].
    exists (cs1 ++ cs2). split; [now rewrite app_assoc|].
    apply Forall_app. now split.
Qed.

Lemma all_requests_get : forall w e bearer,
  P (CHttp (Get e bearer)) -> calls_all P (requests_get w e bearer).
Proof.
  intros w e bearer HP t r t' H. unfold requests_get in H. inversion H.
  exists [CHttp (Get e bearer)]. split; [reflexivity|].
  now constructor.
Qed.

Lemma all_raise_for_status : forall r, calls_all P (raise_for_status r).
Proof.
  intros r. unfold raise_for_status.
  destruct (resp_error r); [apply all_raise | apply all_ret].
Qed.

End CallsAll.

Ltac all_calls :=
  repeat first
    [ apply all_ret | apply all_raise | apply all_lift
    | apply all_raise_for_status
    | apply all_bind; [|intros ?]
    | apply all_try_except; [|intros ?]
    | apply all_requests_get; reflexivity
    | match goal with
      | |- calls_all _ (if ?b then _ else _) => destruct b
      | |- calls_all _ (match ?x with _ => _ end) => destruct x
      end ].

Lemma check_sub_resource_token_calls : forall w rel ep label token run,
  (forall sub_id, carries_token token (CHttp (Get (ep sub_id) (Some token)))) ->
  calls_all (carries_token token)
            (check_sub_resource w rel ep label (Some token) run).
Proof.
  intros w rel ep label token run Hep. unfold check_sub_resource.
  apply all_bind; [all_calls|intros relationships].
  apply all_bind; [all_calls|intros [|]]; [|all_calls].
  apply all_bind; [all_calls|intros sub_id].
  apply all_bind; [apply all_requests_get, Hep|intros sub_response].
  apply all_bind; [all_calls|intros _].
  apply all_bind; [all_calls|intros details].
  apply all_bind; [all_calls|intros url].
  destruct (Py.truthy url); [|all_calls].
  apply all_bind; [apply all_requests_get; reflexivity|intros log_response].
  all_calls.
Qed.

Lemma get_latest_run_error_token_calls : forall w ws org token rid,
  calls_all (carries_token token) (get_latest_run_error w ws org token rid).
Proof.
  intros w ws org token rid. unfold get_latest_run_error.
  apply all_bind; [unfold locate_run; all_calls|].
  intros [s|run]; [all_calls|]. unfold diagnose_run.
  apply all_bind; [all_calls|intros status].
  apply all_bind; [all_calls|intros _].
  apply all_bind; [|intros [s|]; all_calls].
  destruct (Py.eq_str status "errored"); [|all_calls].
  unfold check_plan_then_apply.
  apply all_try_except; [|intros e; all_calls].
  apply all_bind.
  - apply check_sub_resource_token_calls. reflexivity.
  - intros [s|]; [all_calls|].
    apply check_sub_resource_token_calls. reflexivity.
Qed.

(** X9.  Every call of the run diagnoser is a GET to the platform whose
    bearer is the token it was given, or the GET of a log, which carries
    no [Authorization] header: the token goes to the platform only, and
    never to a log-read-url. *)
Theorem token_is_kept_from_logs :
  forall w ws org token rid t r t',
    get_latest_run_error w ws org token rid t = (r, t') ->
    exists cs, t' = t ++ cs /\ Forall (carries_token token) cs.
Proof.
  intros w ws org token rid t r t' H.
  exact (get_latest_run_error_token_calls w ws org token rid t r t' H).
Qed.

(** X10.  For a located run whose status is [errored], when the plan
    yields nothing and the fetch of the apply or of its log fails, the
    failure is caught and the result is the sentinel. *)
Theorem apply_fetch_failure_gives_sentinel :
  forall w ws org token rid t0 t1 t2 t3 run id,
    locate_run w ws org (Some token) rid t0 = (Ok (inr run), t1) ->
    status_of run = Ok (JStr "errored") ->
    Py.getitem run "id" = Ok id ->
    yields w "plan" PlanById (Some token) run t1 None t2 ->
    fetch_fails w "apply" ApplyById (Some token) run t2 t3 ->
    get_latest_run_error w ws org token rid t0 = (Ok no_errors_found, t3).
Proof.
  intros w ws org token rid t0 t1 t2 t3 run id Hloc Hstatus Hid Hplan Hfail.
  rewrite (get_latest_run_error_located _ _ _ _ _ _ _ _ Hloc).
  rewrite (diagnose_run_errored _ _ _ _ _ Hstatus Hid).
  unfold check_plan_then_apply, try_except, bind.
  rewrite (check_sub_resource_yields _ _ _ "Plan Error:" _ _ _ _ _ Hplan).
  destruct (check_sub_resource_fetch_fails _ _ _ "Apply Error:" _ _ _ _ Hfail)
    as [e He].
  now rewrite He.
Qed.

(** X11.  For a located run whose status is [errored], when the
    relationships of the run cannot be read (no [relationships] key, or a
    value that is no container), or the plan relationship has no
    [data.id], the exception is caught: the result is the sentinel, no
    call is made, and the apply is not probed. *)
Theorem unreadable_plan_gives_sentinel :
  forall w ws org token rid t0 t1 run id e,
    locate_run w ws org (Some token) rid t0 = (Ok (inr run), t1) ->
    status_of run = Ok (JStr "errored") ->
    Py.getitem run "id" = Ok id ->
    has_sub "plan" run = Raise e
    \/ (has_sub "plan" run = Ok true /\ sub_id_of "plan" run = Raise e) ->
    get_latest_run_error w ws org token rid t0 = (Ok no_errors_found, t1).
Proof.
  intros w ws org token rid t0 t1 run id e Hloc Hstatus Hid Hbad.
  rewrite (get_latest_run_error_located _ _ _ _ _ _ _ _ Hloc).
  rewrite (diagnose_run_errored _ _ _ _ _ Hstatus Hid).
  unfold check_plan_then_apply, check_sub_resource. run.
  destruct Hbad as [Hhas|[Hhas Hsub]].
  - unfold has_sub in Hhas.
    destruct (Py.getitem run "relationships") as [rels|e']; [|reflexivity].
    unfold rbind in Hhas. cbn beta iota. follow Hhas. reflexivity.
  - destruct (has_sub_getitem _ _ _ Hhas) as [rels [Hrels Hin]].
    unfold sub_id_of in Hsub. rewrite Hrels in Hsub.
    unfold rbind at 1 in Hsub. cbn beta iota in Hsub.
    follow Hrels. follow Hin. follow Hsub. reflexivity.
Qed.

Lemma apply_fetch_failure_gives_sentinel_witness :
  get_latest_run_error apply_failing_world "net" "acme" sample_token
                       (Some "run-1") []
  = (Ok no_errors_found,
     ([CHttp (Get (RunById "run-1") (Some sample_token))]
      ++ [CHttp (Get (PlanById (JStr "plan-1")) (Some sample_token));
          CHttp (Get (LogReadUrl (JStr "https://archivist.example/plan"))
                     None)])
     ++ [CHttp (Get (ApplyById (JStr "apply-1")) (Some sample_token))]).
Proof.
  apply (apply_fetch_failure_gives_sentinel
           apply_failing_world "net" "acme" sample_token (Some "run-1") []
           [CHttp (Get (RunById "run-1") (Some sample_token))]
           ([CHttp (Get (RunById "run-1") (Some sample_token))]
            ++ [CHttp (Get (PlanById (JStr "plan-1")) (Some sample_token));
                CHttp (Get (LogReadUrl
                              (JStr "https://archivist.example/plan")) None)])
           _ (sample_run "errored") (JStr "run-1")
           eq_refl eq_refl eq_refl).
  - eapply (yields_empty_extraction _ _ _ _ _ _ (JStr "plan-1") plan_ok
              (sub_details "https://archivist.example/plan")
              (JStr "https://archivist.example/plan")
              (text_response "Plan: 1 to add"));
      try reflexivity; split; reflexivity.
  - apply (fetch_fails_details _ "apply" ApplyById (Some sample_token)
             (sample_run "errored") _ (JStr "apply-1"));
      try reflexivity.
    right. exists (error_response "502 Bad Gateway"), "502 Bad Gateway".
    split; reflexivity.
Defined.

Lemma unreadable_plan_gives_sentinel_witness :
  get_latest_run_error bare_run_world "net" "acme" sample_token
                       (Some "run-1") []
  = (Ok no_errors_found,
     [CHttp (Get (RunById "run-1") (Some sample_token))]).
Proof.
  apply (unreadable_plan_gives_sentinel
           bare_run_world "net" "acme" sample_token (Some "run-1") []
           [CHttp (Get (RunById "run-1") (Some sample_token))]
           bare_run (JStr "run-1") (Py.key_error "relationships")
           eq_refl eq_refl eq_refl).
  left. reflexivity.
Defined.

Ltac few_calls :=
  rewrite <- ?app_assoc;
  first [ exists []; rewrite app_nil_r; split; [reflexivity | simpl; lia]
        | eexists; split; [reflexivity | simpl; lia] ].

Lemma check_sub_resource_two_calls :
  forall w rel ep label headers run t r t',
  check_sub_resource w rel ep label headers run t = (r, t') ->
  exists cs, t' = t ++ cs /\ (List.length cs <= 2)%nat.
Proof.
  intros w rel ep label headers run t r t' H.
  unfold check_sub_resource in H. run_in H.
  repeat split_outcome H; inversion H; subst; few_calls.
Qed.

Lemma locate_run_two_calls : forall w ws org headers rid t r t',
  locate_run w ws org headers rid t = (r, t') ->
  exists cs,
    t' = t ++ cs
    /\ (List.length cs
        <= if match rid with Some x => PyStr.truthy x | None => false end
           then 1 else 2)%nat.
Proof.
  intros w ws org headers rid t r t' H. unfold locate_run in H.
  destruct (match rid with Some x => PyStr.truthy x | None => false end);
    run_in H; repeat split_outcome H; inversion H; subst; few_calls.
Qed.

Lemma check_plan_then_apply_four_calls : forall w headers run t r t',
  check_plan_then_apply w headers run t = (r, t') ->
  exists cs, t' = t ++ cs /\ (List.length cs <= 4)%nat.
Proof.
  intros w headers run t r t' H.
  unfold check_plan_then_apply, try_except, bind, ret in H.
  destruct (check_sub_resource w "plan" PlanById "Plan Error:" headers run t)
    as [[[p|]|e] t1] eqn:Hplan;
    destruct (check_sub_resource_two_calls _ _ _ _ _ _ _ _ _ Hplan)
      as [cs1 [-> H1]].
  - inversion H; subst. exists cs1. split; [reflexivity | lia].
  - destruct (check_sub_resource w "apply" ApplyById "Apply Error:"
                                 headers run (t ++ cs1))
      as [[a|e] t2] eqn:Happly;
      destruct (check_sub_resource_two_calls _ _ _ _ _ _ _ _ _ Happly)
        as [cs2 [-> H2]];
      inversion H; subst; exists (cs1 ++ cs2);
      (split; [now rewrite app_assoc | rewrite length_app; lia]).
  - inversion H; subst. exists cs1. split; [reflexivity | lia].
Qed.

(** X12.  The run diagnoser makes at most six calls, five when it is given
    a run id: one or two to locate the run, and at most two for the plan
    and two for the apply. *)
Theorem diagnoser_makes_few_calls :
  forall w ws org token rid t r t',
    get_latest_run_error w ws org token rid t = (r, t') ->
    exists cs,
      t' = t ++ cs
      /\ (List.length cs
          <= if match rid with Some x => PyStr.truthy x | None => false end
             then 5 else 6)%nat.
Proof.
  intros w ws org token rid t r t' H.
  unfold get_latest_run_error, bind in H.
  destruct (locate_run w ws org (Some token) rid t)
    as [[[early|run]|e] t1] eqn:Hloc;
    destruct (locate_run_two_calls _ _ _ _ _ _ _ _ Hloc) as [cs1 [-> H1]].
  - unfold ret in H. inversion H; subst. exists cs1. split; [reflexivity|].
    destruct (match rid with Some x => PyStr.truthy x | None => false end);
      lia.
  - unfold diagnose_run, bind, lift, ret in H.
    assert (Hfour : exists cs2, t' = (t ++ cs1) ++ cs2
                                /\ (List.length cs2 <= 4)%nat).
    { repeat match type of H with
             | context [match ?x with Ok _ => _ | Raise _ => _ end] =>
                 match x with
                 | context [check_plan_then_apply] => fail 1
                 | _ => destruct x eqn:?
                 end
             end;
        try (inversion H; subst; exists []; rewrite app_nil_r;
             split; [reflexivity | simpl; lia]).
      destruct (Py.eq_str _ "errored").
      - destruct (check_plan_then_apply w (Some token) run (t ++ cs1))
          as [[[s|]|e] t2] eqn:Hcheck;
          destruct (check_plan_then_apply_four_calls _ _ _ _ _ _ Hcheck)
            as [cs2 [-> H2]];
          inversion H; subst; now exists cs2.
      - inversion H; subst. exists []. rewrite app_nil_r.
        split; [reflexivity | simpl; lia]. }
    destruct Hfour as [cs2 [-> H2]]. exists (cs1 ++ cs2).
    split; [now rewrite app_assoc|]. rewrite length_app.
    destruct (match rid with Some x => PyStr.truthy x | None => false end);
      lia.
  - inversion H; subst. exists cs1. split; [reflexivity|].
    destruct (match rid with Some x => PyStr.truthy x | None => false end);
      lia.
Qed.

Lemma diagnoser_makes_few_calls_witness :
  exists cs,
    [CHttp (Get (RunById "run-1") (Some sample_token))] = [] ++ cs
    /\ (List.length cs <= 5)%nat.
Proof.
  apply (diagnoser_makes_few_calls bare_run_world "net" "acme" sample_token
           (Some "run-1") [] (Ok no_errors_found)
           [CHttp (Get (RunById "run-1") (Some sample_token))]).
  reflexivity.
Defined.

Lemma token_is_kept_from_logs_witness :
  exists cs,
    [CHttp (Get (RunById "run-1") (Some sample_token));
     CHttp (Get (PlanById (JStr "plan-1")) (Some sample_token));
     CHttp (Get (LogReadUrl (JStr "https://archivist.example/plan")) None)]
    = [] ++ cs
    /\ Forall (carries_token sample_token) cs.
Proof.
  apply (token_is_kept_from_logs
           (sample_world "errored" [] plan_ok "Error: boom" "Error: late")
           "net" "acme" sample_token (Some "run-1") []
           (Ok ("Plan Error:" ++ PyStr.nl ++ "Error: boom" ++ PyStr.nl)%string)).
  reflexivity.
Defined.

(** ** The repository fetcher *)

Lemma fetch_loop_terraform_calls :
  forall w repo_path branch headers items files_content t r t',
  fetch_loop w repo_path branch headers items files_content t = (r, t') ->
  exists cs, t' = t ++ cs /\ forallb is_terraform_file_call cs = true.
Proof.
  intros w repo_path branch headers items;
    induction items as [|item items IH]; intros files_content t r t' H.
  - inversion H. exists []. now rewrite app_nil_r.
  - cbn [fetch_loop] in H. run_in H.
    destruct (Py.getitem item "type") as [type|e];
      [|inversion H; exists []; now rewrite app_nil_r].
    destruct (Py.eq_str type "blob"); [|now apply IH in H].
    destruct (Py.getitem item "path") as [path|e];
      [|inversion H; exists []; now rewrite app_nil_r].
    destruct path as [| | |p| |];
      try (inversion H; exists []; now rewrite app_nil_r).
    destruct (existsb (fun ext => PyStr.endswith ext p) terraform_extensions)
      eqn:Hwanted; [|now apply IH in H].
    assert (HP : is_terraform_file_call
                   (CHttp (Get (GitlabRawFile repo_path p branch) headers))
                 = true).
    { cbn [existsb terraform_extensions] in Hwanted.
      now rewrite orb_false_r in Hwanted. }
    destruct (http_get w t (Get (GitlabRawFile repo_path p branch) headers))
      as [resp|e].
    + destruct (resp_error resp).
      * inversion H. eexists. split; [reflexivity|].
        cbn [forallb]. now rewrite HP.
      * apply IH in H. destruct H as [cs [-> Hcs]].
        exists (CHttp (Get (GitlabRawFile repo_path p branch) headers) :: cs).
        split; [now rewrite <- app_assoc|].
        cbn [forallb]. now rewrite HP, Hcs.
    + inversion H. eexists. split; [reflexivity|].
      cbn [forallb]. now rewrite HP.
Qed.

(** X13.  After the listing of the tree, every call of the repository
    fetcher is the GET of the raw content of a file whose path ends in
    [.tf] or [.tfvars]; no other file is fetched. *)
Theorem fetcher_fetches_terraform_files_only :
  forall w repo_url branch token t r t',
    fetch_files_from_gitlab w repo_url branch token t = (r, t') ->
    t' = t
    \/ exists repo_path cs,
        t' = t ++ CHttp (Get (GitlabTree repo_path branch) (Some token)) :: cs
        /\ forallb is_terraform_file_call cs = true.
Proof.
  intros w repo_url branch token t r t' H.
  unfold fetch_files_from_gitlab in H.
  destruct repo_url as [| | |url| |]; try (inversion H; now left).
  right. run_in H.
  match type of H with
  | context [GitlabTree ?p branch] => exists p
  end.
  repeat split_outcome H; try (inversion H; exists []; now split).
  apply fetch_loop_terraform_calls in H. destruct H as [cs [-> Hcs]].
  exists cs. split; [now rewrite <- app_assoc | exact Hcs].
Qed.

Lemma fetcher_fetches_terraform_files_only_witness :
  [CHttp (Get (GitlabTree "acme/net" (JStr "main")) (Some (JStr "glpat")));
   CHttp (Get (GitlabRawFile "acme/net" "main.tf" (JStr "main"))
              (Some (JStr "glpat")));
   CHttp (Get (GitlabRawFile "acme/net" "prod.tfvars" (JStr "main"))
              (Some (JStr "glpat")))] = []
  \/ exists repo_path cs,
      [CHttp (Get (GitlabTree "acme/net" (JStr "main")) (Some (JStr "glpat")));
       CHttp (Get (GitlabRawFile "acme/net" "main.tf" (JStr "main"))
                  (Some (JStr "glpat")));
       CHttp (Get (GitlabRawFile "acme/net" "prod.tfvars" (JStr "main"))
                  (Some (JStr "glpat")))]
      = [] ++ CHttp (Get (GitlabTree repo_path (JStr "main"))
                         (Some (JStr "glpat"))) :: cs
      /\ forallb is_terraform_file_call cs = true.
Proof.
  apply (fetcher_fetches_terraform_files_only repository_world
           (JStr "https://gitlab.com/acme/net/") (JStr "main") (JStr "glpat")
           []
           (Ok (bundle sample_content sample_entries))).
  reflexivity.
Defined.

Lemma fetch_loop_bundle :
  forall w repo_path branch headers content items entries,
  Forall2 item_is items entries ->
  (forall t p,
      exists r,
        answers w t (Get (GitlabRawFile repo_path p branch) headers) r
        /\ resp_text r = content p) ->
  forall files_content t,
    fetch_loop w repo_path branch headers items files_content t
    = (Ok (files_content ++ bundle content entries)%string,
       t ++ file_calls repo_path branch headers entries).
Proof.
  intros w repo_path branch headers content items entries Hitems Hworld.
  induction Hitems as [|item [ty p] items entries [Hty Hp] _ IH];
    intros files_content t.
  - cbn. now rewrite append_nil_r, app_nil_r.
  - cbn [fetch_loop bundle]. simpl fst in *. simpl snd in *. run.
    follow Hty. unfold Py.eq_str. unfold wanted_entry, file_calls.
    cbn [filter fst snd]. unfold wanted_entry.
    destruct (String.eqb ty "blob"); cbn [andb].
    + follow Hp. cbn [existsb terraform_extensions]. rewrite orb_false_r.
      destruct (PyStr.endswith ".tf" p || PyStr.endswith ".tfvars" p).
      * destruct (Hworld t p) as [r [[Hget Hok] Htext]].
        follow Hget. follow Hok. rewrite IH. rewrite Htext.
        unfold bundle_section, file_calls. cbn [map snd].
        f_equal; [|now rewrite <- app_assoc].
        f_equal. now rewrite !append_assoc.
      * apply IH.
    + apply IH.
Qed.

(** X14.  When the tree is listed and every file is served, the bundle is,
    for each entry of the tree in its order that is a blob with a path
    ending in [.tf] or [.tfvars], the line [File: <path>], the content and
    a blank line; one call per such file follows the listing, and entries
    of any other type or extension add nothing. *)
Theorem fetcher_bundle_format :
  forall w url branch token content tree items entries t,
    answers w t
            (Get (GitlabTree
                    (PyStr.rstrip "/"
                       (last (PyStr.split_on gitlab_prefix 0 url) EmptyString))
                    branch) (Some token)) tree ->
    rbind (resp_json tree) Py.iter = Ok items ->
    Forall2 item_is items entries ->
    (forall t' p,
        exists r,
          answers w t'
                  (Get (GitlabRawFile
                          (PyStr.rstrip "/"
                             (last (PyStr.split_on gitlab_prefix 0 url)
                                   EmptyString))
                          p branch) (Some token)) r
          /\ resp_text r = content p) ->
    fetch_files_from_gitlab w (JStr url) branch token t
    = (Ok (bundle content entries),
       t ++ CHttp (Get (GitlabTree
                          (PyStr.rstrip "/"
                             (last (PyStr.split_on gitlab_prefix 0 url)
                                   EmptyString))
                          branch) (Some token))
            :: file_calls (PyStr.rstrip "/"
                             (last (PyStr.split_on gitlab_prefix 0 url)
                                   EmptyString))
                          branch (Some token) entries).
Proof.
  intros w url branch token content tree items entries t
         [Hget Hok] Hitems Hentries Hworld.
  unfold fetch_files_from_gitlab. fold gitlab_prefix. run.
  follow Hget. follow Hok. follow Hitems.
  rewrite (fetch_loop_bundle _ _ _ _ content _ _ Hentries Hworld).
  cbn [append]. now rewrite <- app_assoc.
Qed.

Lemma fetcher_bundle_format_witness :
  fetch_files_from_gitlab repository_world (JStr "https://gitlab.com/acme/net")
                          (JStr "main") (JStr "glpat") []
  = (Ok (bundle_section "main.tf" "# main.tf"
         ++ bundle_section "prod.tfvars" "# prod.tfvars")%string,
     [CHttp (Get (GitlabTree "acme/net" (JStr "main")) (Some (JStr "glpat")));
      CHttp (Get (GitlabRawFile "acme/net" "main.tf" (JStr "main"))
                 (Some (JStr "glpat")));
      CHttp (Get (GitlabRawFile "acme/net" "prod.tfvars" (JStr "main"))
                 (Some (JStr "glpat")))]).
Proof.
  refine (fetcher_bundle_format repository_world "https://gitlab.com/acme/net"
            (JStr "main") (JStr "glpat") sample_content
            (json_response sample_tree)
            [JObj [("type", JStr "blob"); ("path", JStr "main.tf")];
             JObj [("type", JStr "blob"); ("path", JStr "main.py")];
             JObj [("type", JStr "tree"); ("path", JStr "modules.tf")];
             JObj [("type", JStr "blob"); ("path", JStr "prod.tfvars")]]
            sample_entries []
            (conj eq_refl eq_refl) eq_refl _ _).
  - repeat constructor.
  - intros t' p. exists (text_response (sample_content p)).
    repeat split.
Defined.

Lemma split_on_skip : forall (sep pre s : string),
  PyStr.split_on sep (String.length pre) (pre ++ s) = PyStr.split_on sep 0 s.
Proof.
  intros sep pre s; induction pre as [|c pre IH]; [reflexivity|].
  cbn [String.length append PyStr.split_on]. exact IH.
Qed.

Lemma split_on_no_sep : forall (sep s : string),
  PyStr.contains sep s = false -> PyStr.split_on sep 0 s = [s].
Proof.
  intros sep s; induction s as [|c s IH]; intros H; [reflexivity|].
  cbn [PyStr.contains] in H. apply orb_false_iff in H. destruct H as [Hp Hs].
  cbn [PyStr.split_on]. rewrite Hp. now rewrite (IH Hs).
Qed.

Lemma split_on_prefixed : forall (h : ascii) (sep path : string),
  PyStr.contains (String h sep) path = false ->
  PyStr.split_on (String h sep) 0 (String h sep ++ path)
  = [EmptyString; path].
Proof.
  intros h sep path H.
  assert (Hp : prefix (String h sep) (String h sep ++ path) = true)
    by (apply prefix_app; now exists path).
  cbn [append PyStr.split_on]. cbn [append] in Hp. rewrite Hp.
  replace (String.length (String h sep) - 1)%nat with (String.length sep)
    by (cbn [String.length]; lia).
  now rewrite split_on_skip, (split_on_no_sep _ _ H).
Qed.

Lemma rstrip_slashes : forall s : string,
  exists k,
    s = (PyStr.rstrip "/" s ++ slashes k)%string
    /\ last_char (PyStr.rstrip "/" s) <> Some "/"%char.
Proof.
  induction s as [|a s [k [Hs Hlast]]].
  - exists O. split; [reflexivity | discriminate].
  - cbn [PyStr.rstrip]. destruct (PyStr.rstrip "/" s) as [|b r] eqn:Hr.
    + destruct (Ascii.eqb_spec a "/") as [->|Hne].
      * exists (S k). split; [|discriminate]. cbn. now rewrite Hs at 1.
      * exists k. split; [cbn; now rewrite Hs at 1|].
        cbn. congruence.
    + exists k. split; [cbn; now rewrite Hs at 1 | exact Hlast].
Qed.

Lemma fetch_files_first_call : forall w url branch token t r t',
  fetch_files_from_gitlab w (JStr url) branch token t = (r, t') ->
  exists cs,
    t' = t ++ CHttp (Get (GitlabTree
                            (PyStr.rstrip "/"
                               (last (PyStr.split_on gitlab_prefix 0 url)
                                     EmptyString))
                            branch) (Some token)) :: cs.
Proof.
  intros w url branch token t r t' H.
  unfold fetch_files_from_gitlab in H. fold gitlab_prefix in H. run_in H.
  repeat split_outcome H; try (inversion H; now exists []).
  apply fetch_loop_terraform_calls in H. destruct H as [cs [-> _]].
  exists cs. now rewrite <- app_assoc.
Qed.

(** X15.  For a repository URL made of the host prefix
    [https://gitlab.com/] and a path that does not hold that prefix, and
    for a URL that does not hold the prefix at all, the fetcher begins by
    listing the tree of that path (or of the whole URL) with its trailing
    slashes removed. *)
Theorem fetcher_lists_the_stripped_path :
  forall w path branch token t r t',
    PyStr.contains gitlab_prefix path = false ->
    (fetch_files_from_gitlab w (JStr (gitlab_prefix ++ path)) branch token t
     = (r, t')
     \/ fetch_files_from_gitlab w (JStr path) branch token t = (r, t')) ->
    exists repo_path k cs,
      path = (repo_path ++ slashes k)%string
      /\ last_char repo_path <> Some "/"%char
      /\ t' = t ++ CHttp (Get (GitlabTree repo_path branch) (Some token))
                   :: cs.
Proof.
  intros w path branch token t r t' Hpath H.
  destruct (rstrip_slashes path) as [k [Hk Hlast]].
  exists (PyStr.rstrip "/" path), k.
  destruct H as [H|H]; apply fetch_files_first_call in H;
    destruct H as [cs ->]; exists cs; repeat split; try assumption.
  - unfold gitlab_prefix in *.
    now rewrite (split_on_prefixed _ _ _ Hpath).
  - now rewrite (split_on_no_sep _ _ Hpath).
Qed.

Lemma fetcher_lists_the_stripped_path_witness :
  exists repo_path k cs,
    "acme/net//" = (repo_path ++ slashes k)%string
    /\ last_char repo_path <> Some "/"%char
    /\ [CHttp (Get (GitlabTree "acme/net" (JStr "main")) (Some (JStr "glpat")))]
       = [] ++ CHttp (Get (GitlabTree repo_path (JStr "main"))
                          (Some (JStr "glpat"))) :: cs.
Proof.
  apply (fetcher_lists_the_stripped_path sample_agent_world "acme/net//"
           (JStr "main") (JStr "glpat") []
           (Raise (Exn (OtherException "ConnectionError") "unreachable"))).
  - reflexivity.
  - left. reflexivity.
Defined.

(** X16.  The repository fetcher gives no partial bundle: when the listing
    of the tree fails it raises after that one call, and when the fetch of
    a wanted file fails the loop raises at once, whatever was gathered
    before and whatever entries follow. *)
Theorem fetcher_failure_is_raised :
  forall w branch token t,
    (forall url,
        fails w t
              (Get (GitlabTree
                      (PyStr.rstrip "/"
                         (last (PyStr.split_on gitlab_prefix 0 url)
                               EmptyString))
                      branch) (Some token)) ->
        exists e,
          fetch_files_from_gitlab w (JStr url) branch token t
          = (Raise e,
             t ++ [CHttp (Get (GitlabTree
                                 (PyStr.rstrip "/"
                                    (last (PyStr.split_on gitlab_prefix 0 url)
                                          EmptyString))
                                 branch) (Some token))]))
    /\ (forall repo_path item ty p items files_content,
          item_is item (ty, p) ->
          wanted_entry ty p = true ->
          fails w t (Get (GitlabRawFile repo_path p branch) (Some token)) ->
          exists e,
            fetch_loop w repo_path branch (Some token) (item :: items)
                       files_content t
            = (Raise e,
               t ++ [CHttp (Get (GitlabRawFile repo_path p branch)
                                (Some token))])).
Proof.
  intros w branch token t. split.
  - intros url Hfail. unfold fetch_files_from_gitlab. fold gitlab_prefix. run.
    destruct Hfail as [[e He]|[r [msg [Hr Hmsg]]]].
    + follow He. now exists e.
    + follow Hr. follow Hmsg. now eexists.
  - intros repo_path item ty p items files_content [Hty Hp] Hwanted Hfail.
    cbn [fst snd] in *. cbn [fetch_loop]. run.
    unfold wanted_entry in Hwanted. apply andb_true_iff in Hwanted.
    destruct Hwanted as [Hblob Hext].
    follow Hty. unfold Py.eq_str. follow Hblob. follow Hp.
    cbn [existsb terraform_extensions]. rewrite orb_false_r. follow Hext.
    destruct Hfail as [[e He]|[r [msg [Hr Hmsg]]]].
    + follow He. now exists e.
    + follow Hr. follow Hmsg. now eexists.
Qed.

Lemma fetcher_failure_is_raised_witness :
  exists e,
    fetch_files_from_gitlab sample_agent_world
                            (JStr "https://gitlab.com/acme/net")
                            (JStr "main") (JStr "glpat") []
    = (Raise e,
       [] ++ [CHttp (Get (GitlabTree
                            (PyStr.rstrip "/"
                               (last (PyStr.split_on gitlab_prefix 0
                                        "https://gitlab.com/acme/net")
                                     EmptyString))
                            (JStr "main")) (Some (JStr "glpat")))]).
Proof.
  apply (proj1 (fetcher_failure_is_raised sample_agent_world (JStr "main")
                  (JStr "glpat") [])
           "https://gitlab.com/acme/net").
  left. eexists. reflexivity.
Defined.

(** ** The diagnosis request handler, further *)

(** Splits the first outcome of an equation, also that of a call. *)
Ltac split_call H :=
  match type of H with
  | context [match ?x with Ok _ => _ | Raise _ => _ end] =>
      destruct x eqn:?; try discriminate
  | context [match ?x with Some _ => _ | None => _ end] =>
      destruct x eqn:?; try discriminate
  | context [if ?b then _ else _] => destruct b eqn:?; try discriminate
  | context [match ?x with (_, _) => _ end] =>
      destruct x eqn:?; try discriminate
  end.

Lemma handler_body_success :
  forall w js tsn vsn event t,
  exists resp t',
    lambda_handler w js tsn vsn event t = (Ok resp, t')
    /\ ((exists files msg, resp = success_response js files msg)
        \/ (exists e, resp = failure_response_500 js e)).
Proof.
  intros w js tsn vsn event t.
  unfold lambda_handler, try_except.
  match goal with
  | |- context [match ?m t with _ => _ end] =>
      destruct (m t) as [[resp|e] t1] eqn:H
  end.
  - exists resp, t1. split; [reflexivity|]. left.
    unfold bind, lift, ret in H.
    repeat split_call H;
      inversion H; subst; eexists; eexists; reflexivity.
  - eexists. eexists. split; [reflexivity|]. right. now exists e.
Qed.

(** X17.  The diagnosis request handler never raises: for every event and
    every world it returns a response, and a response is either a success
    (status 200, the files and the diagnoser's text) or a failure (status
    500 and the text of the exception). *)
Theorem diagnosis_handler_always_responds :
  forall w js tsn vsn event t,
  exists resp t',
    lambda_handler w js tsn vsn event t = (Ok resp, t')
    /\ ((exists files msg,
            resp = success_response js files msg
            /\ Py.getitem resp "statusCode" = Ok (JNum 200))
        \/ (exists e,
               resp = failure_response_500 js e
               /\ Py.getitem resp "statusCode" = Ok (JNum 500))).
Proof.
  intros w js tsn vsn event t.
  destruct (handler_body_success w js tsn vsn event t)
    as [resp [t' [H [[files [msg ->]]|[e ->]]]]].
  - exists (success_response js files msg), t'. split; [exact H|].
    left. now exists files, msg.
  - exists (failure_response_500 js e), t'. split; [exact H|].
    right. now exists e.
Qed.

(** X18.  An event that is a dictionary without [workspace_url] gets a
    failure response with the text of the KeyError, and no call is made:
    no secret is retrieved and nothing is fetched, also when a [repo_url]
    is given. *)
Theorem missing_workspace_url_makes_no_call :
  forall w js tsn vsn kvs e t,
    Py.getitem (JObj kvs) "workspace_url" = Raise e ->
    lambda_handler w js tsn vsn (JObj kvs) t
    = (Ok (failure_response_500 js e), t)
    /\ e = Py.key_error "workspace_url".
Proof.
  intros w js tsn vsn kvs e t H. split.
  - unfold lambda_handler, try_except, bind, lift. unfold Py.get.
    destruct (Py.lookup "repo_url" kvs);
      destruct (Py.lookup "branch_name" kvs);
      cbn beta iota; now rewrite H.
  - unfold Py.getitem in H.
    destruct (Py.lookup "workspace_url" kvs); now inversion H.
Qed.

Lemma missing_workspace_url_makes_no_call_witness :
  lambda_handler repository_world sample_json (Some "tfe") (Some "vcs")
                 event_without_workspace []
  = (Ok (failure_response_500 sample_json (Py.key_error "workspace_url")), []).
Proof.
  apply (proj1 (missing_workspace_url_makes_no_call repository_world
                  sample_json (Some "tfe") (Some "vcs")
                  [("repo_url", JStr "https://gitlab.com/acme/net")]
                  (Py.key_error "workspace_url") [] eq_refl)).
Defined.

(** X19.  With a truthy [repo_url] the handler first retrieves the VCS
    secret and fetches the repository with its [token], then retrieves the
    platform secret and diagnoses the run; the success response is the
    dictionary of [statusCode] 200 and of the [body] that [json.dumps]
    writes for [files_content] the fetcher's bundle and [error_message]
    the diagnoser's text. *)
Theorem repository_then_diagnosis :
  forall w js tsn vsn event repo_url branch url s1 secret1 gitlab_token files
         s2 secret2 token ws org rid msg t t2 t4,
    Py.get event "repo_url" JNull = Ok repo_url ->
    Py.truthy repo_url = true ->
    Py.get event "branch_name" (JStr "main") = Ok branch ->
    Py.getitem event "workspace_url" = Ok (JStr url) ->
    get_secret_value w t vsn = Ok (Some s1) ->
    loads js s1 = Ok secret1 ->
    Py.getitem secret1 "token" = Ok gitlab_token ->
    fetch_files_from_gitlab w repo_url branch gitlab_token
                            (t ++ [CSecret vsn]) = (Ok files, t2) ->
    get_secret_value w t2 tsn = Ok (Some s2) ->
    loads js s2 = Ok secret2 ->
    Py.getitem secret2 "tfe_api_token" = Ok token ->
    get_workspace_id_from_url url = Ok (ws, org, rid) ->
    get_latest_run_error w ws org token rid (t2 ++ [CSecret tsn])
    = (Ok msg, t4) ->
    lambda_handler w js tsn vsn event t
    = (Ok (success_response js files msg), t4)
    /\ exists resp,
        lambda_handler w js tsn vsn event t = (Ok resp, t4)
        /\ resp = JObj [("statusCode", JNum 200);
                        ("body",
                         JStr (dumps js
                                 (JObj [("files_content", JStr files);
                                        ("error_message", JStr msg)])))]
        /\ Py.getitem resp "statusCode" = Ok (JNum 200)
        /\ Py.getitem resp "body"
           = Ok (JStr (dumps js (JObj [("files_content", JStr files);
                                       ("error_message", JStr msg)]))).
Proof.
  intros w js tsn vsn event repo_url branch url s1 secret1 gitlab_token files
         s2 secret2 token ws org rid msg t t2 t4
         Hrepo Htruthy Hbranch Hurl Hs1 Hl1 Htok1 Hfetch Hs2 Hl2 Htok2
         Hids Hrun.
  assert (Hresult : lambda_handler w js tsn vsn event t
                    = (Ok (success_response js files msg), t4)).
  { unfold lambda_handler, get_secret, try_except, bind, lift, ret.
    rewrite Hrepo, Hbranch, Hurl, Htruthy, Hs1, Hl1, Htok1, Hfetch.
    rewrite Hs2, Hl2, Htok2, Hids, Hrun. reflexivity. }
  split; [exact Hresult|].
  exists (success_response js files msg).
  split; [exact Hresult|]. repeat split.
Qed.

Lemma repository_then_diagnosis_witness :
  exists resp,
    lambda_handler repository_world sample_json (Some "tfe") (Some "vcs")
                   repository_event []
    = (Ok resp,
       [CSecret (Some "vcs");
        CHttp (Get (GitlabTree "acme/net" (JStr "main")) (Some (JStr "glpat")));
        CHttp (Get (GitlabRawFile "acme/net" "main.tf" (JStr "main"))
                   (Some (JStr "glpat")));
        CHttp (Get (GitlabRawFile "acme/net" "prod.tfvars" (JStr "main"))
                   (Some (JStr "glpat")));
        CSecret (Some "tfe");
        CHttp (Get (RunById "run-1") (Some sample_token));
        CHttp (Get (PlanById (JStr "plan-1")) (Some sample_token));
        CHttp (Get (LogReadUrl (JStr "https://archivist.example/plan"))
                   None)])
    /\ resp
       = JObj [("statusCode", JNum 200);
               ("body",
                JStr ("{" ++ PyStr.dq ++ "files_content" ++ PyStr.dq ++ ": "
                      ++ PyStr.dq
                      ++ "File: main.tf\n# main.tf\n\nFile: prod.tfvars\n# prod.tfvars\n\n"
                      ++ PyStr.dq ++ ", "
                      ++ PyStr.dq ++ "error_message" ++ PyStr.dq ++ ": "
                      ++ PyStr.dq ++ "Plan Error:\nError: boom\n" ++ PyStr.dq
                      ++ "}")%string)]
    /\ Py.getitem resp "statusCode" = Ok (JNum 200)
    /\ Py.getitem resp "body"
       = Ok (JStr ("{" ++ PyStr.dq ++ "files_content" ++ PyStr.dq ++ ": "
                   ++ PyStr.dq
                   ++ "File: main.tf\n# main.tf\n\nFile: prod.tfvars\n# prod.tfvars\n\n"
                   ++ PyStr.dq ++ ", "
                   ++ PyStr.dq ++ "error_message" ++ PyStr.dq ++ ": "
                   ++ PyStr.dq ++ "Plan Error:\nError: boom\n" ++ PyStr.dq
                   ++ "}")%string).
Proof.
  refine (proj2 (repository_then_diagnosis repository_world sample_json
            (Some "tfe") (Some "vcs") repository_event
            (JStr "https://gitlab.com/acme/net") (JStr "main") run_url
            (sample_dumps sample_secret) sample_secret (JStr "glpat")
            (bundle sample_content sample_entries)
            (sample_dumps sample_secret) sample_secret sample_token
            "net" "acme" (Some "run-1")
            ("Plan Error:" ++ PyStr.nl ++ "Error: boom" ++ PyStr.nl)%string
            []
            [CSecret (Some "vcs");
             CHttp (Get (GitlabTree "acme/net" (JStr "main"))
                        (Some (JStr "glpat")));
             CHttp (Get (GitlabRawFile "acme/net" "main.tf" (JStr "main"))
                        (Some (JStr "glpat")));
             CHttp (Get (GitlabRawFile "acme/net" "prod.tfvars" (JStr "main"))
                        (Some (JStr "glpat")))]
            [CSecret (Some "vcs");
             CHttp (Get (GitlabTree "acme/net" (JStr "main"))
                        (Some (JStr "glpat")));
             CHttp (Get (GitlabRawFile "acme/net" "main.tf" (JStr "main"))
                        (Some (JStr "glpat")));
             CHttp (Get (GitlabRawFile "acme/net" "prod.tfvars" (JStr "main"))
                        (Some (JStr "glpat")));
             CSecret (Some "tfe");
             CHttp (Get (RunById "run-1") (Some sample_token));
             CHttp (Get (PlanById (JStr "plan-1")) (Some sample_token));
             CHttp (Get (LogReadUrl (JStr "https://archivist.example/plan"))
                        None)]
            eq_refl eq_refl eq_refl eq_refl eq_refl eq_refl eq_refl eq_refl
            eq_refl eq_refl eq_refl eq_refl eq_refl)).
Defined.

(** X20.  With a truthy [repo_url] and a [workspace_url], a failure of the
    repository part (the VCS secret cannot be retrieved, or the fetcher
    raises) gives a failure response at once: the platform secret is not
    retrieved and the run is not diagnosed. *)
Theorem repository_failure_stops_the_handler :
  forall w js tsn vsn event repo_url branch workspace_url t,
    Py.get event "repo_url" JNull = Ok repo_url ->
    Py.truthy repo_url = true ->
    Py.get event "branch_name" (JStr "main") = Ok branch ->
    Py.getitem event "workspace_url" = Ok workspace_url ->
    (forall e,
        get_secret_value w t vsn = Raise e ->
        lambda_handler w js tsn vsn event t
        = (Ok (failure_response_500 js e), t ++ [CSecret vsn]))
    /\ (forall s secret gitlab_token e t2,
          get_secret_value w t vsn = Ok (Some s) ->
          loads js s = Ok secret ->
          Py.getitem secret "token" = Ok gitlab_token ->
          fetch_files_from_gitlab w repo_url branch gitlab_token
                                  (t ++ [CSecret vsn]) = (Raise e, t2) ->
          lambda_handler w js tsn vsn event t
          = (Ok (failure_response_500 js e), t2)).
Proof.
  intros w js tsn vsn event repo_url branch workspace_url t
         Hrepo Htruthy Hbranch Hurl.
  split.
  - intros e He.
    unfold lambda_handler, get_secret, try_except, bind, lift, ret.
    rewrite Hrepo, Hbranch, Hurl, Htruthy, He. reflexivity.
  - intros s secret gitlab_token e t2 Hs Hl Htok Hfetch.
    unfold lambda_handler, get_secret, try_except, bind, lift, ret.
    rewrite Hrepo, Hbranch, Hurl, Htruthy, Hs, Hl, Htok, Hfetch. reflexivity.
Qed.

Lemma repository_failure_stops_the_handler_witness :
  lambda_handler sample_agent_world sample_json (Some "tfe") (Some "vcs")
                 repository_event []
  = (Ok (failure_response_500 sample_json
           (Exn (OtherException "ClientError") "no secret")),
     [] ++ [CSecret (Some "vcs")]).
Proof.
  apply (proj1 (repository_failure_stops_the_handler sample_agent_world
                  sample_json (Some "tfe") (Some "vcs") repository_event
                  (JStr "https://gitlab.com/acme/net") (JStr "main")
                  (JStr run_url) [] eq_refl eq_refl eq_refl eq_refl)).
  reflexivity.
Defined.

(** ** The troubleshooting request handler, further *)

Lemma key_eqb_str : forall (k : json) (n : string),
  TerraformTroubleshooting.key_eqb k (JStr n) = true -> k = JStr n.
Proof.
  intros k n H. destruct k; try discriminate.
  cbn in H. apply String.eqb_eq in H. now subst.
Qed.

(** Insert, then look up. *)
Lemma dict_get_set : forall (d : TerraformTroubleshooting.dict)
                            (n k : string) (v default : json),
  TerraformTroubleshooting.dict_get
    (TerraformTroubleshooting.dict_set d (JStr n) v) k default
  = if String.eqb n k then v
    else TerraformTroubleshooting.dict_get d k default.
Proof.
  intros d n k v default. unfold TerraformTroubleshooting.dict_get.
  induction d as [|[k' v'] d IH].
  - cbn. destruct (String.eqb n k); reflexivity.
  - cbn [TerraformTroubleshooting.dict_set].
    destruct (TerraformTroubleshooting.key_eqb k' (JStr n)) eqn:Hkn.
    + apply key_eqb_str in Hkn. subst k'. cbn.
      destruct (String.eqb n k); reflexivity.
    + cbn [find fst snd].
      destruct (TerraformTroubleshooting.key_eqb k' (JStr k)) eqn:Hkk.
      * apply key_eqb_str in Hkk. subst k'. cbn in Hkn.
        rewrite String.eqb_sym in Hkn. now rewrite Hkn.
      * exact IH.
Qed.

Lemma build_properties_last_value :
  forall params pairs,
  Forall2 param_is params pairs ->
  forall d,
  exists props,
    TerraformTroubleshooting.build_properties params d = Ok props
    /\ forall k default,
        TerraformTroubleshooting.dict_get props k default
        = match last_value k pairs with
          | Some v => v
          | None => TerraformTroubleshooting.dict_get d k default
          end.
Proof.
  intros params pairs H;
    induction H as [|param [n v] params pairs [Hn Hv] _ IH]; intros d.
  - exists d. split; reflexivity.
  - cbn [fst snd] in *. cbn [TerraformTroubleshooting.build_properties].
    rewrite Hn. cbn [rbind]. rewrite Hv. cbn [rbind].
    cbn [TerraformTroubleshooting.hashable].
    destruct (IH (TerraformTroubleshooting.dict_set d (JStr n) v))
      as [props [Hprops Hget]].
    exists props. split; [exact Hprops|].
    intros k default. rewrite Hget. cbn [last_value].
    destruct (last_value k pairs); [reflexivity|].
    rewrite dict_get_set. destruct (String.eqb n k); reflexivity.
Qed.

(** X21.  From parameters that each carry a string [name] and a [value],
    the dictionary of properties is always built, and looking a name up
    in it gives the value of the last parameter of that name, or the
    default when no parameter has it. *)
Theorem last_parameter_wins :
  forall params pairs,
    Forall2 param_is params pairs ->
    exists props,
      TerraformTroubleshooting.build_properties params [] = Ok props
      /\ forall k default,
          TerraformTroubleshooting.dict_get props k default
          = match last_value k pairs with
            | Some v => v
            | None => default
            end.
Proof.
  intros params pairs H.
  destruct (build_properties_last_value params pairs H []) as [props [Hp Hg]].
  exists props. split; [exact Hp|]. intros k default. now rewrite Hg.
Qed.

Lemma last_parameter_wins_witness :
  exists props,
    TerraformTroubleshooting.build_properties
      [JObj [("name", JStr "branch_name"); ("value", JStr "dev")];
       JObj [("name", JStr "branch_name"); ("value", JStr "release")]] []
    = Ok props
    /\ forall k default,
        TerraformTroubleshooting.dict_get props k default
        = match last_value k [("branch_name", JStr "dev");
                              ("branch_name", JStr "release")] with
          | Some v => v
          | None => default
          end.
Proof.
  apply last_parameter_wins. repeat constructor.
Defined.

(** X22.  Whatever the event and the world, the calls of the handler are
    none, or one invocation of stage one, or that invocation followed by
    one invocation of the model: the model is never invoked without stage
    one, and neither is invoked twice. *)
Theorem troubleshooting_calls_in_order :
  forall w js event t r t',
    TerraformTroubleshooting.lambda_handler w js event t = (r, t') ->
    t' = t
    \/ (exists payload, t' = t ++ [CLambda payload])
    \/ (exists payload error_message files,
           t' = t ++ [CLambda payload; CModel error_message files]).
Proof.
  intros w js event t r t' H.
  unfold TerraformTroubleshooting.lambda_handler,
    TerraformTroubleshooting.troubleshoot,
    TerraformTroubleshooting.invoke_bedrock_model,
    TerraformTroubleshooting.failure_response,
    try_except, bind, lift, raise, ret in H.
  repeat split_call H; inversion H; subst; rewrite <- ?app_assoc;
    first [ now left
          | right; left; eexists; reflexivity
          | right; right; eexists; eexists; eexists; reflexivity ].
Qed.

Lemma troubleshooting_calls_in_order_witness :
  [] ++ [CLambda (stage_one_payload sample_json
                    [(JStr "workspace_url", JStr run_url)])] = []
  \/ (exists payload,
         [] ++ [CLambda (stage_one_payload sample_json
                           [(JStr "workspace_url", JStr run_url)])]
         = [] ++ [CLambda payload])
  \/ (exists payload error_message files,
         [] ++ [CLambda (stage_one_payload sample_json
                           [(JStr "workspace_url", JStr run_url)])]
         = [] ++ [CLambda payload; CModel error_message files]).
Proof.
  apply (troubleshooting_calls_in_order sample_agent_world sample_json
           sample_event []
           (Ok (TerraformTroubleshooting.envelope
                  (JStr "troubleshoot") (JStr "diagnose")
                  (JStr ("Missing required information: "
                         ++ exn_str TerraformTroubleshooting.missing_data))
                  (JStr "1.0")))).
  reflexivity.
Defined.

(** X23.  Once stage one has delivered an error message or files, the
    model is invoked with them, and the body of the envelope is the text
    that [invoke_bedrock_model] returns, or the failure text of what it
    raises; [invoke_bedrock_model] makes one call and returns
    [content[0].text] of the decoded answer. *)
Theorem envelope_carries_the_model_text :
  forall w js event agent ag fn mv parameters params props raw
         response_payload body response_body error_message files t,
    Py.getitem event "agent" = Ok agent ->
    Py.getitem event "actionGroup" = Ok ag ->
    Py.getitem event "function" = Ok fn ->
    Py.getitem event "messageVersion" = Ok mv ->
    Py.get event "parameters" (JObj []) = Ok parameters ->
    Py.iter parameters = Ok params ->
    TerraformTroubleshooting.build_properties params [] = Ok props ->
    lambda_invoke w t (stage_one_payload js props) = Ok raw ->
    loads js raw = Ok response_payload ->
    Py.getitem response_payload "body" = Ok (JStr body) ->
    loads js body = Ok response_body ->
    Py.get response_body "error_message" JNull = Ok error_message ->
    Py.get response_body "files_content" (JStr EmptyString) = Ok files ->
    match error_message with JNull => true | _ => false end
    && Py.eq_str files EmptyString = false ->
    let t1 := t ++ [CLambda (stage_one_payload js props)] in
    (forall res t2,
        TerraformTroubleshooting.invoke_bedrock_model
          w js error_message files t1 = (res, t2) ->
        TerraformTroubleshooting.lambda_handler w js event t
        = (Ok (TerraformTroubleshooting.envelope ag fn
                 (match res with
                  | Ok text => text
                  | Raise e => JStr (failure_text e)
                  end) mv), t2))
    /\ (forall raw_answer answer content first text,
          model_invoke w t1 error_message files = Ok raw_answer ->
          loads js raw_answer = Ok answer ->
          Py.getitem answer "content" = Ok content ->
          Py.getitem0 content = Ok first ->
          Py.getitem first "text" = Ok text ->
          TerraformTroubleshooting.invoke_bedrock_model
            w js error_message files t1
          = (Ok text, t1 ++ [CModel error_message files])).
Proof.
  intros w js event agent ag fn mv parameters params props raw
         response_payload body response_body error_message files t
         Hagent Hag Hfn Hmv Hparams Hiter Hprops Hinvoke Hraw Hbody Hloads
         Herror Hfiles Hdata t1.
  split.
  - intros res t2 Hmodel.
    unfold TerraformTroubleshooting.lambda_handler,
      TerraformTroubleshooting.troubleshoot, try_except, bind, lift, raise.
    rewrite Hagent, Hag, Hfn, Hparams, Hiter, Hprops.
    unfold stage_one_payload in Hinvoke.
    rewrite Hinvoke, Hraw, Hbody, Hloads, Herror, Hfiles, Hdata.
    fold (stage_one_payload js props). fold t1. rewrite Hmodel.
    destruct res as [text|e].
    + rewrite Hmv. reflexivity.
    + now apply failure_response_envelope.
  - intros raw_answer answer content first text Hm Hl Hc Hf Ht.
    unfold TerraformTroubleshooting.invoke_bedrock_model, bind, lift.
    rewrite Hm, Hl, Hc. cbn [rbind]. rewrite Hf. cbn [rbind].
    now rewrite Ht.
Qed.

Lemma envelope_carries_the_model_text_witness :
  TerraformTroubleshooting.lambda_handler (chain_world succeeded_response) chain_json
                                          sample_event []
  = (Ok (TerraformTroubleshooting.envelope
           (JStr "troubleshoot") (JStr "diagnose")
           (JStr "Run terraform init.") (JStr "1.0")),
     ([] ++ [CLambda (stage_one_payload chain_json
                        [(JStr "workspace_url", JStr run_url)])])
     ++ [CModel (JStr no_errors_found) (JStr EmptyString)]).
Proof.
  refine (proj1 (envelope_carries_the_model_text
            (chain_world succeeded_response) chain_json sample_event
            (JObj [("name", JStr "terraform-agent")])
            (JStr "troubleshoot") (JStr "diagnose") (JStr "1.0")
            sample_parameters
            [JObj [("name", JStr "workspace_url");
                   ("type", JStr "string");
                   ("value", JStr run_url)]]
            [(JStr "workspace_url", JStr run_url)]
            (sample_dumps succeeded_response) succeeded_response
            (sample_dumps succeeded_body) succeeded_body
            (JStr no_errors_found) (JStr EmptyString) []
            eq_refl eq_refl eq_refl eq_refl eq_refl eq_refl eq_refl
            eq_refl eq_refl eq_refl eq_refl eq_refl eq_refl eq_refl)
            (Ok (JStr "Run terraform init.")) _ _).
  reflexivity.
Defined.

(** X24.  When the parameters of the event cannot be iterated, or one of
    them has no [name] or [value] or an unhashable name, the handler
    returns the envelope with the failure text of that exception and
    makes no call: stage one is not invoked. *)
Theorem malformed_parameters_make_no_call :
  forall w js event agent ag fn mv parameters e t,
    Py.getitem event "agent" = Ok agent ->
    Py.getitem event "actionGroup" = Ok ag ->
    Py.getitem event "function" = Ok fn ->
    Py.getitem event "messageVersion" = Ok mv ->
    Py.get event "parameters" (JObj []) = Ok parameters ->
    Py.iter parameters = Raise e
    \/ (exists params,
           Py.iter parameters = Ok params
           /\ TerraformTroubleshooting.build_properties params [] = Raise e) ->
    TerraformTroubleshooting.lambda_handler w js event t
    = (Ok (TerraformTroubleshooting.envelope ag fn (JStr (failure_text e)) mv),
       t).
Proof.
  intros w js event agent ag fn mv parameters e t
         Hagent Hag Hfn Hmv Hparams Hbad.
  unfold TerraformTroubleshooting.lambda_handler,
    TerraformTroubleshooting.troubleshoot, try_except, bind, lift.
  rewrite Hagent, Hag, Hfn, Hparams.
  destruct Hbad as [Hiter|[params [Hiter Hprops]]].
  - rewrite Hiter. now apply failure_response_envelope.
  - rewrite Hiter, Hprops. now apply failure_response_envelope.
Qed.

Lemma malformed_parameters_make_no_call_witness :
  TerraformTroubleshooting.lambda_handler (chain_world succeeded_response) chain_json
                                          nameless_event []
  = (Ok (TerraformTroubleshooting.envelope
           (JStr "troubleshoot") (JStr "diagnose")
           (JStr "Missing required information: 'name'") (JStr "1.0")),
     []).
Proof.
  refine (malformed_parameters_make_no_call
            (chain_world succeeded_response) chain_json nameless_event
            (JObj [("name", JStr "terraform-agent")])
            (JStr "troubleshoot") (JStr "diagnose") (JStr "1.0")
            (JArr [JObj [("value", JStr run_url)]])
            (Py.key_error "name") []
            eq_refl eq_refl eq_refl eq_refl eq_refl _).
  right. exists [JObj [("value", JStr run_url)]]. split; reflexivity.
Defined.

(** X25.  When stage one answers with its failure response (status 500
    and a body that only holds [error]), stage two finds neither
    [error_message] nor [files_content] and returns the "missing required
    information" envelope: the text of stage one's failure is not passed
    on, and the model is not invoked. *)
Theorem stage_one_failure_is_reported_as_missing_data :
  forall w js event agent ag fn mv parameters params props raw e1 t,
    Py.getitem event "agent" = Ok agent ->
    Py.getitem event "actionGroup" = Ok ag ->
    Py.getitem event "function" = Ok fn ->
    Py.getitem event "messageVersion" = Ok mv ->
    Py.get event "parameters" (JObj []) = Ok parameters ->
    Py.iter parameters = Ok params ->
    TerraformTroubleshooting.build_properties params [] = Ok props ->
    lambda_invoke w t (stage_one_payload js props) = Ok raw ->
    loads js raw = Ok (failure_response_500 js e1) ->
    loads js (dumps js (JObj [("error", JStr (exn_str e1))]))
    = Ok (JObj [("error", JStr (exn_str e1))]) ->
    TerraformTroubleshooting.lambda_handler w js event t
    = (Ok (TerraformTroubleshooting.envelope ag fn
             (JStr (failure_text TerraformTroubleshooting.missing_data)) mv),
       t ++ [CLambda (stage_one_payload js props)]).
Proof.
  intros w js event agent ag fn mv parameters params props raw e1 t
         Hagent Hag Hfn Hmv Hparams Hiter Hprops Hinvoke Hraw Hround.
  unfold TerraformTroubleshooting.lambda_handler,
    TerraformTroubleshooting.troubleshoot, try_except, bind, lift, raise.
  rewrite Hagent, Hag, Hfn, Hparams, Hiter, Hprops.
  unfold stage_one_payload in Hinvoke. rewrite Hinvoke, Hraw.
  unfold failure_response_500, handler_response.
  cbn [Py.getitem Py.lookup String.eqb Ascii.eqb Bool.eqb].
  rewrite Hround.
  cbn [Py.get Py.lookup String.eqb Ascii.eqb Bool.eqb andb Py.eq_str].
  now apply failure_response_envelope.
Qed.

Lemma stage_one_failure_is_reported_as_missing_data_witness :
  TerraformTroubleshooting.lambda_handler (chain_world failed_response) chain_json
                                          sample_event []
  = (Ok (TerraformTroubleshooting.envelope
           (JStr "troubleshoot") (JStr "diagnose")
           (JStr (failure_text TerraformTroubleshooting.missing_data))
           (JStr "1.0")),
     [] ++ [CLambda (stage_one_payload chain_json
                       [(JStr "workspace_url", JStr run_url)])]).
Proof.
  refine (stage_one_failure_is_reported_as_missing_data
            (chain_world failed_response) chain_json sample_event
            (JObj [("name", JStr "terraform-agent")])
            (JStr "troubleshoot") (JStr "diagnose") (JStr "1.0")
            sample_parameters
            [JObj [("name", JStr "workspace_url");
                   ("type", JStr "string");
                   ("value", JStr run_url)]]
            [(JStr "workspace_url", JStr run_url)]
            (sample_dumps failed_response) (Py.key_error "workspace_url") []
            eq_refl eq_refl eq_refl eq_refl eq_refl eq_refl eq_refl
            eq_refl eq_refl eq_refl).
Defined.

Lemma invoke_bedrock_model_one_call : forall w js em files t res t',
  TerraformTroubleshooting.invoke_bedrock_model w js em files t = (res, t') ->
  t' = t ++ [CModel em files].
Proof.
  intros w js em files t res t' H.
  unfold TerraformTroubleshooting.invoke_bedrock_model, bind, lift in H.
  repeat split_call H; now inversion H.
Qed.

(** X26.  When stage one answers with its success response, whose
    [error_message] is always a string, stage two does not raise the
    missing-data KeyError of line 95: it invokes the model, once, with
    that message and those files, and the body of the envelope is the
    text [invoke_bedrock_model] returns, or the failure text of what it
    raises. *)
Theorem stage_one_success_reaches_the_model :
  forall w js event agent ag fn mv parameters params props raw files msg t
         res t2,
    Py.getitem event "agent" = Ok agent ->
    Py.getitem event "actionGroup" = Ok ag ->
    Py.getitem event "function" = Ok fn ->
    Py.getitem event "messageVersion" = Ok mv ->
    Py.get event "parameters" (JObj []) = Ok parameters ->
    Py.iter parameters = Ok params ->
    TerraformTroubleshooting.build_properties params [] = Ok props ->
    lambda_invoke w t (stage_one_payload js props) = Ok raw ->
    loads js raw = Ok (success_response js files msg) ->
    loads js (dumps js (JObj [("files_content", JStr files);
                              ("error_message", JStr msg)]))
    = Ok (JObj [("files_content", JStr files); ("error_message", JStr msg)]) ->
    TerraformTroubleshooting.invoke_bedrock_model
      w js (JStr msg) (JStr files)
      (t ++ [CLambda (stage_one_payload js props)]) = (res, t2) ->
    t2 = t ++ [CLambda (stage_one_payload js props);
               CModel (JStr msg) (JStr files)]
    /\ TerraformTroubleshooting.troubleshoot w js event ag fn parameters t
       = (match res with
          | Ok text =>
              Ok (TerraformTroubleshooting.envelope ag fn text mv)
          | Raise e => Raise e
          end, t2)
    /\ TerraformTroubleshooting.lambda_handler w js event t
       = (Ok (TerraformTroubleshooting.envelope ag fn
                (match res with
                 | Ok text => text
                 | Raise e => JStr (failure_text e)
                 end) mv), t2).
Proof.
  intros w js event agent ag fn mv parameters params props raw files msg t
         res t2
         Hagent Hag Hfn Hmv Hparams Hiter Hprops Hinvoke Hraw Hround Hmodel.
  assert (Htry : TerraformTroubleshooting.troubleshoot
                   w js event ag fn parameters t
                 = (match res with
                    | Ok text =>
                        Ok (TerraformTroubleshooting.envelope ag fn text mv)
                    | Raise e => Raise e
                    end, t2)).
  { unfold TerraformTroubleshooting.troubleshoot, bind, lift, raise, ret.
    rewrite Hiter, Hprops.
    unfold stage_one_payload in Hinvoke. rewrite Hinvoke, Hraw.
    unfold success_response, handler_response.
    cbn [Py.getitem Py.lookup String.eqb Ascii.eqb Bool.eqb].
    rewrite Hround.
    cbn [Py.get Py.lookup String.eqb Ascii.eqb Bool.eqb andb].
    fold (stage_one_payload js props). rewrite Hmodel.
    destruct res as [text|e]; [now rewrite Hmv | reflexivity]. }
  split; [|split].
  - rewrite (invoke_bedrock_model_one_call _ _ _ _ _ _ _ Hmodel).
    now rewrite <- app_assoc.
  - exact Htry.
  - unfold TerraformTroubleshooting.lambda_handler, try_except, bind, lift.
    rewrite Hagent, Hag, Hfn, Hparams, Htry.
    destruct res as [text|e]; [reflexivity|].
    now apply failure_response_envelope.
Qed.

Lemma stage_one_success_reaches_the_model_witness :
  TerraformTroubleshooting.lambda_handler (chain_world succeeded_response)
                                          chain_json sample_event []
  = (Ok (TerraformTroubleshooting.envelope
           (JStr "troubleshoot") (JStr "diagnose")
           (JStr "Run terraform init.") (JStr "1.0")),
     ([] ++ [CLambda (stage_one_payload chain_json
                        [(JStr "workspace_url", JStr run_url)])])
     ++ [CModel (JStr no_errors_found) (JStr EmptyString)]).
Proof.
  refine (proj2 (proj2 (stage_one_success_reaches_the_model
            (chain_world succeeded_response) chain_json sample_event
            (JObj [("name", JStr "terraform-agent")])
            (JStr "troubleshoot") (JStr "diagnose") (JStr "1.0")
            sample_parameters
            [JObj [("name", JStr "workspace_url");
                   ("type", JStr "string");
                   ("value", JStr run_url)]]
            [(JStr "workspace_url", JStr run_url)]
            (sample_dumps succeeded_response) EmptyString no_errors_found []
            (Ok (JStr "Run terraform init."))
            (([] ++ [CLambda (stage_one_payload chain_json
                                [(JStr "workspace_url", JStr run_url)])])
             ++ [CModel (JStr no_errors_found) (JStr EmptyString)])
            eq_refl eq_refl eq_refl eq_refl eq_refl eq_refl eq_refl
            eq_refl eq_refl eq_refl eq_refl))).
Defined.
